(** * Agrihub: the job lifecycle of [app.py]

    A shallow embedding of the Flask application [src/app.py]: the five
    SQLAlchemy models as records, the tables as lists of rows in insertion
    order, and every route that writes to the database as a computation in a
    small transaction monad ([db.session]: pending changes, [commit], and the
    loss of uncommitted changes when a request ends by an exception or an
    abort).

    A [string] holds the UTF-8 bytes of a Python [str]; [int()] is modelled
    on the code points, with the decimal digits and the white space of
    Unicode 14.  An integer column holds a [Z], and a row is flushed only
    when its integers fit SQLite's 64 bits.  Ids are natural numbers; those
    that come with a URL are taken within that range.  Timestamps
    ([created_at], [date_posted], [viewed_at], [requested_at],
    [assigned_at]) and the password hash are not represented: no route that
    writes reads them back, and where a page is ordered by one of them the
    ordering is a parameter.  Routes that never write (index, the
    dashboards, notifications, login, logout) are left out of the request
    type and modelled on their own. *)

From Stdlib Require Import List String Ascii ZArith Lia Bool Arith PeanoNat.
Import ListNotations.
Open Scope string_scope.
Open Scope list_scope.

(** ** Python values *)

Module Py.

(** A [string] stands for the UTF-8 encoding of a Python [str]. *)

(** Truth value of an optional string: [None] and [''] are falsy. *)
Definition truthy_str (x : option string) : bool :=
  match x with
  | None => false
  | Some s => negb (String.eqb s "")
  end.

(** Truth value of an optional integer: [None] and [0] are falsy. *)
Definition truthy_int (x : option Z) : bool :=
  match x with
  | None => false
  | Some n => negb (Z.eqb n 0)
  end.

(** The code points of a [str], from its UTF-8 bytes; [None] for bytes that
    encode no [str] (a stray or missing continuation byte, an overlong form,
    a surrogate, a value above U+10FFFF). *)
Definition continuation (c : ascii) : option N :=
  let n := N_of_ascii c in
  if (128 <=? n)%N && (n <? 192)%N then Some (n - 128)%N else None.

Fixpoint code_points (s : list ascii) : option (list N) :=
  match s with
  | [] => Some []
  | c :: s1 =>
      let n := N_of_ascii c in
      if (n <? 128)%N then option_map (cons n) (code_points s1)
      else if (194 <=? n)%N && (n <? 224)%N then
        match s1 with
        | c1 :: s2 =>
            match continuation c1 with
            | Some x1 =>
                option_map (cons ((n - 192) * 64 + x1)%N) (code_points s2)
            | None => None
            end
        | [] => None
        end
      else if (224 <=? n)%N && (n <? 240)%N then
        match s1 with
        | c1 :: c2 :: s3 =>
            match continuation c1, continuation c2 with
            | Some x1, Some x2 =>
                let cp := ((n - 224) * 4096 + x1 * 64 + x2)%N in
                if (2048 <=? cp)%N
                   && negb ((55296 <=? cp)%N && (cp <? 57344)%N)
                then option_map (cons cp) (code_points s3)
                else None
            | _, _ => None
            end
        | _ => None
        end
      else if (240 <=? n)%N && (n <? 245)%N then
        match s1 with
        | c1 :: c2 :: c3 :: s4 =>
            match continuation c1, continuation c2, continuation c3 with
            | Some x1, Some x2, Some x3 =>
                let cp :=
                  ((n - 240) * 262144 + x1 * 4096 + x2 * 64 + x3)%N in
                if (65536 <=? cp)%N && (cp <? 1114112)%N
                then option_map (cons cp) (code_points s4)
                else None
            | _, _, _ => None
            end
        | _ => None
        end
      else None
  end.

(** The decimal digits of Unicode 14.0.0, the database of CPython 3.11:
    each entry is the code point of a digit zero, followed by its digits one
    to nine. *)
Definition decimal_zeros : list N :=
  [
    48; 1632; 1776; 1984; 2406; 2534; 2662; 2790; 2918; 3046; 3174; 3302;
    3430; 3558; 3664; 3792; 3872; 4160; 4240; 6112; 6160; 6470; 6608; 6784;
    6800; 6992; 7088; 7232; 7248; 42528; 43216; 43264; 43472; 43504; 43600;
    44016; 65296; 66720; 68912; 69734; 69872; 69942; 70096; 70384; 70736;
    70864; 71248; 71360; 71472; 71904; 72016; 72784; 73040; 73120; 92768;
    92864; 93008; 120782; 120792; 120802; 120812; 120822; 123200; 123632;
    125264; 130032
  ]%N.

(** The white space above U+007F of the same database. *)
Definition unicode_spaces : list N :=
  [
    133; 160; 5760; 8192; 8193; 8194; 8195; 8196; 8197; 8198; 8199; 8200;
    8201; 8202; 8232; 8233; 8239; 8287; 12288
  ]%N.

(** [Py_UNICODE_TODECIMAL]. *)
Definition unicode_decimal (cp : N) : option N :=
  option_map (fun z => (cp - z)%N)
    (find (fun z => (z <=? cp)%N && (cp <? z + 10)%N) decimal_zeros).

(** What [int()] makes of one character of a [str] before it parses:
    characters below U+007F stay, white space becomes a space, a decimal
    digit becomes its ASCII digit, and anything else ([None]) ends in
    [ValueError]. *)
Definition to_ascii (cp : N) : option ascii :=
  if (cp <? 128)%N then Some (ascii_of_N cp)
  else if existsb (N.eqb cp) unicode_spaces then Some " "%char
  else option_map (fun d => ascii_of_N (48 + d)) (unicode_decimal cp).

Fixpoint all_to_ascii (cps : list N) : option (list ascii) :=
  match cps with
  | [] => Some []
  | cp :: cps' =>
      match to_ascii cp, all_to_ascii cps' with
      | Some c, Some cs => Some (c :: cs)
      | _, _ => None
      end
  end.

(** [Py_ISSPACE]: the characters that the parser skips at both ends. *)
Definition is_space (c : ascii) : bool :=
  let n := nat_of_ascii c in
  ((9 <=? n)%nat && (n <=? 13)%nat) || (n =? 32)%nat.

Definition digit_val (c : ascii) : option Z :=
  let n := nat_of_ascii c in
  if (48 <=? n)%nat && (n <=? 57)%nat then Some (Z.of_nat (n - 48)) else None.

Fixpoint lstrip (s : list ascii) : list ascii :=
  match s with
  | c :: s' => if is_space c then lstrip s' else s
  | [] => []
  end.

Definition strip (s : list ascii) : list ascii :=
  rev (lstrip (rev (lstrip s))).

(** [sys.get_int_max_str_digits()], at its default. *)
Definition int_max_str_digits : nat := 4300.

(** Decimal digits, with single underscores allowed between two digits.
    [after_digit] tells whether the previous character was a digit, [count]
    how many digits were read; more than [int_max_str_digits] of them are
    refused. *)
Fixpoint digits (acc : Z) (count : nat) (after_digit : bool) (s : list ascii)
  : option Z :=
  match s with
  | [] =>
      if after_digit && (count <=? int_max_str_digits)%nat
      then Some acc else None
  | c :: s' =>
      match digit_val c with
      | Some d => digits (10 * acc + d) (S count) true s'
      | None =>
          if Ascii.eqb c "_"%char && after_digit
          then digits acc count false s'
          else None
      end
  end.

(** [int(s)] for a string [s]: [None] stands for [ValueError]. *)
Definition int (s : string) : option Z :=
  match code_points (list_ascii_of_string s) with
  | None => None
  | Some cps =>
      match all_to_ascii cps with
      | None => None
      | Some cs =>
          match strip cs with
          | "-"%char :: ds => option_map Z.opp (digits 0 0 false ds)
          | "+"%char :: ds => digits 0 0 false ds
          | ds => digits 0 0 false ds
          end
      end
  end.

End Py.

(** ** Models *)

(** [db.Model]: every row has an integer primary key [id]. *)
Class Model (R : Type) := { pk : R -> nat }.

Module User.
Record t := mk {
  id : nat;
  name : string;
  phone : string;
  role : string
}.
End User.

Module Job.
Record t := mk {
  id : nat;
  farmer_id : nat;
  title : string;
  work_type : option string;
  days : Z;
  stay_info : option string;
  wage : option string;
  location : option string;
  contact : option string;
  status : string
}.

Definition set_days (v : Z) (j : t) : t :=
  mk (id j) (farmer_id j) (title j) (work_type j) v (stay_info j)
     (wage j) (location j) (contact j) (status j).
Definition set_wage (v : option string) (j : t) : t :=
  mk (id j) (farmer_id j) (title j) (work_type j) (days j) (stay_info j)
     v (location j) (contact j) (status j).
Definition set_stay_info (v : option string) (j : t) : t :=
  mk (id j) (farmer_id j) (title j) (work_type j) (days j) v
     (wage j) (location j) (contact j) (status j).
Definition set_status (v : string) (j : t) : t :=
  mk (id j) (farmer_id j) (title j) (work_type j) (days j) (stay_info j)
     (wage j) (location j) (contact j) v.
End Job.

Module ViewNotification.
Record t := mk {
  id : nat;
  job_id : nat;
  labour_id : nat;
  seen : bool
}.
End ViewNotification.

Module ChangeRequest.
Record t := mk {
  id : nat;
  job_id : nat;
  labour_id : nat;
  requested_days : option Z;
  requested_wage : option string;
  requested_stay : option string;
  message : string;
  status : string
}.

Definition set_status (v : string) (c : t) : t :=
  mk (id c) (job_id c) (labour_id c) (requested_days c) (requested_wage c)
     (requested_stay c) (message c) v.
End ChangeRequest.

Module Assignment.
Record t := mk {
  id : nat;
  job_id : nat;
  labour_id : nat;
  accepted_by_farmer : bool;
  confirmed_by_labour : bool
}.

Definition set_accepted_by_farmer (v : bool) (a : t) : t :=
  mk (id a) (job_id a) (labour_id a) v (confirmed_by_labour a).
Definition set_confirmed_by_labour (v : bool) (a : t) : t :=
  mk (id a) (job_id a) (labour_id a) (accepted_by_farmer a) v.
End Assignment.

#[export] Instance User_Model : Model User.t := {| pk := User.id |}.
#[export] Instance Job_Model : Model Job.t := {| pk := Job.id |}.
#[export] Instance ViewNotification_Model : Model ViewNotification.t :=
  {| pk := ViewNotification.id |}.
#[export] Instance ChangeRequest_Model : Model ChangeRequest.t :=
  {| pk := ChangeRequest.id |}.
#[export] Instance Assignment_Model : Model Assignment.t :=
  {| pk := Assignment.id |}.

(** ** Tables *)

Section Table.
Context {R : Type} `{Model R}.

(** [Query.get(k)]: the row whose primary key is [k]. *)
Definition get (k : nat) (t : list R) : option R :=
  find (fun r => (pk r =? k)%nat) t.

(** [Query.filter_by(...).first()]. *)
Definition first_by (p : R -> bool) (t : list R) : option R := find p t.

(** Attribute assignment on the loaded row [k], written back on flush. *)
Definition update (k : nat) (f : R -> R) (t : list R) : list R :=
  map (fun r => if (pk r =? k)%nat then f r else r) t.

(** The key SQLite gives to the next inserted row. *)
Definition next_pk (t : list R) : nat := S (list_max (map pk t)).

(** [db.session.add(row)] for a row built without a key. *)
Definition add (row : nat -> R) (t : list R) : list R :=
  t ++ [row (next_pk t)].
End Table.

Record DB := mkDB {
  users : list User.t;
  jobs : list Job.t;
  views : list ViewNotification.t;
  changes : list ChangeRequest.t;
  assignments : list Assignment.t
}.

Definition empty_db : DB := mkDB [] [] [] [] [].

Definition with_users (f : list User.t -> list User.t) (d : DB) : DB :=
  mkDB (f (users d)) (jobs d) (views d) (changes d) (assignments d).
Definition with_jobs (f : list Job.t -> list Job.t) (d : DB) : DB :=
  mkDB (users d) (f (jobs d)) (views d) (changes d) (assignments d).
Definition with_views
  (f : list ViewNotification.t -> list ViewNotification.t) (d : DB) : DB :=
  mkDB (users d) (jobs d) (f (views d)) (changes d) (assignments d).
Definition with_changes
  (f : list ChangeRequest.t -> list ChangeRequest.t) (d : DB) : DB :=
  mkDB (users d) (jobs d) (views d) (f (changes d)) (assignments d).
Definition with_assignments
  (f : list Assignment.t -> list Assignment.t) (d : DB) : DB :=
  mkDB (users d) (jobs d) (views d) (changes d) (f (assignments d)).

(** ** Requests, responses and the session *)

Inductive response :=
| Redirect (endpoint : string) (flashed : option string)
| Render (template : string)
| Abort (code : nat)
| Uncaught (exc : string).

(** The error kinds of the design, as the routes signal them. *)
Definition NotFound : response := Abort 404.
Definition Forbidden : response :=
  Redirect "labour_dashboard" (Some "Not allowed").
Definition NoneDereference : response := Uncaught "AttributeError".

(** [db.session] during one request: what the database holds and what the
    request has written so far. *)
Record Session := mkSession { committed : DB; pending : DB }.

Definition M (A : Type) : Type := Session -> (response + A) * Session.

Definition ret {A} (a : A) : M A := fun s => (inr a, s).
Definition bind {A B} (m : M A) (k : A -> M B) : M B :=
  fun s => match m s with
           | (inl e, s') => (inl e, s')
           | (inr a, s') => k a s'
           end.
Definition raise {A} (e : response) : M A := fun s => (inl e, s).
Definition query {A} (q : DB -> A) : M A := fun s => (inr (q (pending s)), s).
Definition write (f : DB -> DB) : M unit :=
  fun s => (inr tt, mkSession (committed s) (f (pending s))).
Definition commit : M unit :=
  fun s => (inr tt, mkSession (pending s) (pending s)).

Notation "x <- c ;; k" := (bind c (fun x => k))
  (at level 61, c at next level, right associativity).
Notation "c ;;; k" := (bind c (fun _ => k))
  (at level 61, right associativity).

(** One request: the session starts from the database, and the database
    afterwards is what was committed. *)
Definition serve (h : M response) (d : DB) : DB * response :=
  match h (mkSession d d) with
  | (inl e, s) => (committed s, e)
  | (inr r, s) => (committed s, r)
  end.

(** [Query.get_or_404]. *)
Definition get_or_404 {R} (q : DB -> option R) : M R :=
  r <- query q ;;
  match r with
  | Some x => ret x
  | None => raise (Abort 404)
  end.

(** [request.form[key]]: a missing key is a 400. *)
Definition form_required (v : option string) : M string :=
  match v with
  | Some x => ret x
  | None => raise (Abort 400)
  end.

(** [int(v)] on a string, raising [ValueError]. *)
Definition int_or_raise (v : string) : M Z :=
  match Py.int v with
  | Some n => ret n
  | None => raise (Uncaught "ValueError")
  end.

(** SQLite's INTEGER holds 64 bits.  When a flush binds a Python integer
    outside that range the driver raises [OverflowError] and the request
    ends without a commit. *)
Definition sqlite_integer (n : Z) : bool :=
  (- 2 ^ 63 <=? n)%Z && (n <? 2 ^ 63)%Z.

Definition flush_integer (n : Z) : M unit :=
  if sqlite_integer n then ret tt else raise (Uncaught "OverflowError").

(** Attribute access on the result of [Job.query.get], which may be
    [None]. *)
Definition deref {R} (r : option R) : M R :=
  match r with
  | Some x => ret x
  | None => raise (Uncaught "AttributeError")
  end.

(** ** Routes *)

Inductive method := GET | POST.

(** [current_user()]: the session's [user_id], falsy when missing or [0]. *)
Definition current_user (uid : option nat) : M (option User.t) :=
  match uid with
  | None => ret None
  | Some 0 => ret None
  | Some k => query (fun d => get k (users d))
  end.

(** [if not user or user.role != role: return denied], then the rest of the
    route with the user at hand. *)
Definition require_role (role : string) (denied : response)
  (user : option User.t) (k : User.t -> M response) : M response :=
  match user with
  | None => ret denied
  | Some u => if String.eqb (User.role u) role then k u else ret denied
  end.

Record RegisterForm := mkRegisterForm {
  reg_name : option string;
  reg_phone : option string;
  reg_password : option string
}.

Definition register (role register_ep login_ep template : string)
  (m : method) (form : RegisterForm) : M response :=
  match m with
  | POST =>
      name <- form_required (reg_name form) ;;
      phone <- form_required (reg_phone form) ;;
      _ <- form_required (reg_password form) ;;
      existing <- query (fun d =>
        first_by (fun u => String.eqb (User.phone u) phone) (users d)) ;;
      match existing with
      | Some _ => ret (Redirect register_ep (Some "Phone already registered"))
      | None =>
          write (with_users (add (fun k => User.mk k name phone role))) ;;;
          commit ;;;
          ret (Redirect login_ep (Some "Registered! Please login."))
      end
  | GET => ret (Render template)
  end.

Definition farmer_register : method -> RegisterForm -> M response :=
  register "farmer" "farmer_register" "farmer_login" "farmer_register.html".

Definition labour_register : method -> RegisterForm -> M response :=
  register "labour" "labour_register" "labour_login" "labour_register.html".

Record JobForm := mkJobForm {
  form_title : option string;
  form_work_type : option string;
  form_days : option string;
  form_stay_info : option string;
  form_wage : option string;
  form_location : option string;
  form_contact : option string
}.

(** [int(request.form.get('days') or 1)]. *)
Definition days_or_1 (v : option string) : M Z :=
  match v with
  | Some s => if Py.truthy_str (Some s) then int_or_raise s else ret 1%Z
  | None => ret 1%Z
  end.

Definition post_job (uid : option nat) (m : method) (form : JobForm)
  : M response :=
  user <- current_user uid ;;
  require_role "farmer" (Redirect "farmer_login" None) user (fun u =>
    match m with
    | POST =>
        title <- form_required (form_title form) ;;
        days <- days_or_1 (form_days form) ;;
        write (with_jobs (add (fun k =>
          Job.mk k (User.id u) title (form_work_type form) days
                 (form_stay_info form) (form_wage form) (form_location form)
                 (form_contact form) "open"))) ;;;
        flush_integer days ;;;
        commit ;;;
        ret (Redirect "farmer_dashboard" (Some "Job posted"))
    | GET => ret (Render "post_job.html")
    end).

Definition view_of (job_id labour_id : nat) (v : ViewNotification.t) : bool :=
  (ViewNotification.job_id v =? job_id)%nat
  && (ViewNotification.labour_id v =? labour_id)%nat.

Definition job_view (uid : option nat) (job_id : nat) : M response :=
  user <- current_user uid ;;
  job <- get_or_404 (fun d => get job_id (jobs d)) ;;
  _ <- query (fun d => get (Job.farmer_id job) (users d)) ;;
  match user with
  | Some u =>
      if String.eqb (User.role u) "labour" then
        existing <- query (fun d =>
          first_by (view_of job_id (User.id u)) (views d)) ;;
        match existing with
        | None =>
            write (with_views (add (fun k =>
              ViewNotification.mk k job_id (User.id u) false))) ;;;
            commit
        | Some _ => ret tt
        end
      else ret tt
  | None => ret tt
  end ;;;
  ret (Render "job_view.html").

Record ChangeForm := mkChangeForm {
  form_requested_days : option string;
  form_requested_wage : option string;
  form_requested_stay : option string;
  form_message : option string
}.

(** [int(v) if v else None]. *)
Definition int_if_given (v : option string) : M (option Z) :=
  match v with
  | Some s =>
      if Py.truthy_str (Some s)
      then n <- int_or_raise s ;; ret (Some n)
      else ret None
  | None => ret None
  end.

(** [v if v else None]. *)
Definition str_if_given (v : option string) : option string :=
  if Py.truthy_str v then v else None.

Definition request_change (uid : option nat) (job_id : nat)
  (form : ChangeForm) : M response :=
  user <- current_user uid ;;
  require_role "labour"
    (Redirect "labour_login" (Some "Please login as labour to request changes"))
    user (fun u =>
      requested_days <- int_if_given (form_requested_days form) ;;
      write (with_changes (add (fun k =>
        ChangeRequest.mk k job_id (User.id u) requested_days
          (str_if_given (form_requested_wage form))
          (str_if_given (form_requested_stay form))
          (match form_message form with Some x => x | None => "" end)
          "pending"))) ;;;
      match requested_days with
      | Some n => flush_integer n
      | None => ret tt
      end ;;;
      commit ;;;
      ret (Redirect "job_view" (Some "Change request sent to farmer"))).

Definition assignment_of (job_id labour_id : nat) (a : Assignment.t) : bool :=
  (Assignment.job_id a =? job_id)%nat
  && (Assignment.labour_id a =? labour_id)%nat.

(** The find-or-create block that [decide_change] (lines 261-266) and
    [assign_labour] (lines 290-295) both carry. *)
Definition accept_assignment (job_id labour_id : nat) : M unit :=
  assign <- query (fun d =>
    first_by (assignment_of job_id labour_id) (assignments d)) ;;
  match assign with
  | None =>
      write (with_assignments (add (fun k =>
        Assignment.mk k job_id labour_id true false)))
  | Some a =>
      write (with_assignments
        (update (Assignment.id a) (Assignment.set_accepted_by_farmer true)))
  end.

(** [job.attr = v] where [job] came from [Job.query.get]. *)
Definition setattr_job (job : option Job.t) (f : Job.t -> Job.t) : M unit :=
  j <- deref job ;;
  write (with_jobs (update (Job.id j) f)).

Definition is_accept (decision : option string) : bool :=
  match decision with
  | Some s => String.eqb s "accept"
  | None => false
  end.

Definition decide_change (uid : option nat) (change_id : nat)
  (decision : option string) : M response :=
  user <- current_user uid ;;
  require_role "farmer" (Redirect "farmer_login" None) user (fun _ =>
    cr <- get_or_404 (fun d => get change_id (changes d)) ;;
    if is_accept decision then
      write (with_changes
        (update (ChangeRequest.id cr) (ChangeRequest.set_status "accepted"))) ;;;
      accept_assignment (ChangeRequest.job_id cr) (ChangeRequest.labour_id cr) ;;;
      job <- query (fun d => get (ChangeRequest.job_id cr) (jobs d)) ;;
      match ChangeRequest.requested_days cr with
      | Some v =>
          if Py.truthy_int (Some v)
          then setattr_job job (Job.set_days v) else ret tt
      | None => ret tt
      end ;;;
      match ChangeRequest.requested_wage cr with
      | Some v =>
          if Py.truthy_str (Some v)
          then setattr_job job (Job.set_wage (Some v)) else ret tt
      | None => ret tt
      end ;;;
      match ChangeRequest.requested_stay cr with
      | Some v =>
          if Py.truthy_str (Some v)
          then setattr_job job (Job.set_stay_info (Some v)) else ret tt
      | None => ret tt
      end ;;;
      setattr_job job (Job.set_status "assigned") ;;;
      commit ;;;
      ret (Redirect "farmer_dashboard"
        (Some "Change accepted and labour assigned (awaiting labour confirmation)."))
    else
      write (with_changes
        (update (ChangeRequest.id cr) (ChangeRequest.set_status "rejected"))) ;;;
      commit ;;;
      ret (Redirect "farmer_dashboard" (Some "Change request rejected."))).

Definition assign_labour (uid : option nat) (job_id labour_id : nat)
  : M response :=
  user <- current_user uid ;;
  require_role "farmer" (Redirect "farmer_login" None) user (fun _ =>
    accept_assignment job_id labour_id ;;;
    job <- query (fun d => get job_id (jobs d)) ;;
    setattr_job job (Job.set_status "assigned") ;;;
    commit ;;;
    ret (Redirect "farmer_dashboard"
      (Some "Labour accepted for job. Waiting for labour confirmation."))).

Definition confirm_assignment (uid : option nat) (assign_id : nat)
  : M response :=
  user <- current_user uid ;;
  require_role "labour" (Redirect "labour_login" None) user (fun u =>
    assign <- get_or_404 (fun d => get assign_id (assignments d)) ;;
    if negb (Assignment.labour_id assign =? User.id u)%nat then
      ret (Redirect "labour_dashboard" (Some "Not allowed"))
    else
      write (with_assignments
        (update (Assignment.id assign)
                (Assignment.set_confirmed_by_labour true))) ;;;
      let assign := Assignment.set_confirmed_by_labour true assign in
      job <- query (fun d => get (Assignment.job_id assign) (jobs d)) ;;
      (if Assignment.accepted_by_farmer assign
          && Assignment.confirmed_by_labour assign
       then setattr_job job (Job.set_status "confirmed")
       else ret tt) ;;;
      commit ;;;
      ret (Redirect "labour_dashboard" (Some "You confirmed the assignment."))).

(** ** The application as a transition system *)

(** A request to one of the writing routes.  [uid] is the [user_id] that the
    caller's session holds, if any. *)
Inductive request :=
| FarmerRegister (m : method) (form : RegisterForm)
| LabourRegister (m : method) (form : RegisterForm)
| PostJob (uid : option nat) (m : method) (form : JobForm)
| JobView (uid : option nat) (job_id : nat)
| RequestChange (uid : option nat) (job_id : nat) (form : ChangeForm)
| DecideChange (uid : option nat) (change_id : nat) (decision : option string)
| AssignLabour (uid : option nat) (job_id labour_id : nat)
| ConfirmAssignment (uid : option nat) (assign_id : nat).

Definition route (r : request) : M response :=
  match r with
  | FarmerRegister m form => farmer_register m form
  | LabourRegister m form => labour_register m form
  | PostJob uid m form => post_job uid m form
  | JobView uid job_id => job_view uid job_id
  | RequestChange uid job_id form => request_change uid job_id form
  | DecideChange uid change_id decision => decide_change uid change_id decision
  | AssignLabour uid job_id labour_id => assign_labour uid job_id labour_id
  | ConfirmAssignment uid assign_id => confirm_assignment uid assign_id
  end.

Definition step (d : DB) (r : request) : DB := fst (serve (route r) d).

Definition run (d : DB) (rs : list request) : DB := fold_left step rs d.

Inductive reachable : DB -> Prop :=
| reachable_empty : reachable empty_db
| reachable_step d r : reachable d -> reachable (step d r).

(** ** Observations used by the statements *)

Definition job_status (d : DB) (job_id : nat) : option string :=
  option_map Job.status (get job_id (jobs d)).

Definition change_status (d : DB) (change_id : nat) : option string :=
  option_map ChangeRequest.status (get change_id (changes d)).

Definition assignments_for (d : DB) (job_id labour_id : nat)
  : list Assignment.t :=
  filter (assignment_of job_id labour_id) (assignments d).

Definition views_for (d : DB) (job_id labour_id : nat)
  : list ViewNotification.t :=
  filter (view_of job_id labour_id) (views d).

(** ** Effects, transitions and observations *)

(** Rows of a table have distinct primary keys. *)
Definition keys_distinct {R} `{Model R} (t : list R) : Prop :=
  NoDup (map pk t).

(** The user that [current_user()] resolves the session to. *)
Definition acting (d : DB) (uid : option nat) : option User.t :=
  match uid with
  | None => None
  | Some 0 => None
  | Some k => get k (users d)
  end.

(** The assignments table after the find-or-create block. *)
Definition accepted_for (job_id labour_id : nat) (t : list Assignment.t)
  : list Assignment.t :=
  match first_by (assignment_of job_id labour_id) t with
  | None => add (fun k => Assignment.mk k job_id labour_id true false) t
  | Some a => update (Assignment.id a) (Assignment.set_accepted_by_farmer true) t
  end.

(** The job row after an accepted change request: the truthy overrides, then
    the status. *)
Definition override_days (cr : ChangeRequest.t) (j : Job.t) : Job.t :=
  match ChangeRequest.requested_days cr with
  | Some v => if Py.truthy_int (Some v) then Job.set_days v j else j
  | None => j
  end.
Definition override_wage (cr : ChangeRequest.t) (j : Job.t) : Job.t :=
  match ChangeRequest.requested_wage cr with
  | Some v => if Py.truthy_str (Some v) then Job.set_wage (Some v) j else j
  | None => j
  end.
Definition override_stay (cr : ChangeRequest.t) (j : Job.t) : Job.t :=
  match ChangeRequest.requested_stay cr with
  | Some v => if Py.truthy_str (Some v) then Job.set_stay_info (Some v) j else j
  | None => j
  end.
Definition accepted_job (cr : ChangeRequest.t) (j : Job.t) : Job.t :=
  Job.set_status "assigned"
    (override_stay cr (override_wage cr (override_days cr j))).

Definition after_accept (cr : ChangeRequest.t) (d : DB) : DB :=
  mkDB (users d)
       (update (ChangeRequest.job_id cr) (accepted_job cr) (jobs d))
       (views d)
       (update (ChangeRequest.id cr) (ChangeRequest.set_status "accepted")
               (changes d))
       (accepted_for (ChangeRequest.job_id cr) (ChangeRequest.labour_id cr)
                     (assignments d)).

Definition after_reject (cr : ChangeRequest.t) (d : DB) : DB :=
  with_changes
    (update (ChangeRequest.id cr) (ChangeRequest.set_status "rejected")) d.

Definition after_assign (job_id labour_id : nat) (d : DB) : DB :=
  mkDB (users d)
       (update job_id (Job.set_status "assigned") (jobs d))
       (views d) (changes d)
       (accepted_for job_id labour_id (assignments d)).

Definition after_confirm (a : Assignment.t) (d : DB) : DB :=
  mkDB (users d)
       (if Assignment.accepted_by_farmer a
        then update (Assignment.job_id a) (Job.set_status "confirmed") (jobs d)
        else jobs d)
       (views d) (changes d)
       (update (Assignment.id a) (Assignment.set_confirmed_by_labour true)
               (assignments d)).

Definition after_view (job_id labour_id : nat) (d : DB) : DB :=
  match first_by (view_of job_id labour_id) (views d) with
  | None =>
      with_views (add (fun k =>
        ViewNotification.mk k job_id labour_id false)) d
  | Some _ => d
  end.

(** The value of [days] that [post_job] computes from the form field;
    [None] when [int()] raises. *)
Definition days_input (v : option string) : option Z :=
  match v with
  | Some s => if Py.truthy_str (Some s) then Py.int s else Some 1%Z
  | None => Some 1%Z
  end.

(** The value of [requested_days] that [request_change] computes; the outer
    [None] is a raised [ValueError]. *)
Definition requested_days_input (v : option string) : option (option Z) :=
  match v with
  | Some s =>
      if Py.truthy_str (Some s) then option_map Some (Py.int s) else Some None
  | None => Some None
  end.

(** Whether the requested days of a change request can be stored. *)
Definition storable (requested_days : option Z) : bool :=
  match requested_days with
  | Some n => sqlite_integer n
  | None => true
  end.

Definition posted_job (u : User.t) (title : string) (days : Z)
  (form : JobForm) (k : nat) : Job.t :=
  Job.mk k (User.id u) title (form_work_type form) days
         (form_stay_info form) (form_wage form) (form_location form)
         (form_contact form) "open".

Definition submitted_change (u : User.t) (job_id : nat)
  (requested_days : option Z) (form : ChangeForm) (k : nat)
  : ChangeRequest.t :=
  ChangeRequest.mk k job_id (User.id u) requested_days
    (str_if_given (form_requested_wage form))
    (str_if_given (form_requested_stay form))
    (match form_message form with Some x => x | None => "" end)
    "pending".

Definition after_register (role name phone : string) (d : DB) : DB :=
  with_users (add (fun k => User.mk k name phone role)) d.

(** What one request can commit, by route and by the branch taken. *)
Inductive transition (d : DB) : request -> DB -> Prop :=
| t_idle r : transition d r d
| t_farmer_register m form name phone :
    transition d (FarmerRegister m form) (after_register "farmer" name phone d)
| t_labour_register m form name phone :
    transition d (LabourRegister m form) (after_register "labour" name phone d)
| t_post_job uid form u title n :
    acting d uid = Some u -> User.role u = "farmer" ->
    form_title form = Some title ->
    days_input (form_days form) = Some n ->
    transition d (PostJob uid POST form)
      (with_jobs (add (posted_job u title n form)) d)
| t_job_view uid job_id u j :
    acting d uid = Some u -> User.role u = "labour" ->
    get job_id (jobs d) = Some j ->
    transition d (JobView uid job_id) (after_view job_id (User.id u) d)
| t_request_change uid job_id form u days :
    acting d uid = Some u -> User.role u = "labour" ->
    requested_days_input (form_requested_days form) = Some days ->
    transition d (RequestChange uid job_id form)
      (with_changes (add (submitted_change u job_id days form)) d)
| t_reject uid change_id decision u cr :
    acting d uid = Some u -> User.role u = "farmer" ->
    get change_id (changes d) = Some cr ->
    is_accept decision = false ->
    transition d (DecideChange uid change_id decision) (after_reject cr d)
| t_accept uid change_id decision u cr j :
    acting d uid = Some u -> User.role u = "farmer" ->
    get change_id (changes d) = Some cr ->
    is_accept decision = true ->
    get (ChangeRequest.job_id cr) (jobs d) = Some j ->
    transition d (DecideChange uid change_id decision) (after_accept cr d)
| t_assign uid job_id labour_id u j :
    acting d uid = Some u -> User.role u = "farmer" ->
    get job_id (jobs d) = Some j ->
    transition d (AssignLabour uid job_id labour_id)
      (after_assign job_id labour_id d)
| t_confirm uid assign_id u a :
    acting d uid = Some u -> User.role u = "labour" ->
    get assign_id (assignments d) = Some a ->
    Assignment.labour_id a = User.id u ->
    (Assignment.accepted_by_farmer a = true ->
     exists j, get (Assignment.job_id a) (jobs d) = Some j) ->
    transition d (ConfirmAssignment uid assign_id) (after_confirm a d).

Definition job_present (d : DB) (job_id : nat) : Prop :=
  exists j, get job_id (jobs d) = Some j.

(** The farmer's flag is set and the job is there. *)
Definition assignment_sound (d : DB) (a : Assignment.t) : Prop :=
  Assignment.accepted_by_farmer a = true /\ job_present d (Assignment.job_id a).

Definition status_listed (s : string) : Prop :=
  s = "open" \/ s = "assigned" \/ s = "confirmed" \/ s = "closed".

(** Position of a status in the order open < assigned < confirmed. *)
Definition status_rank (s : string) : option nat :=
  if String.eqb s "open" then Some 0
  else if String.eqb s "assigned" then Some 1
  else if String.eqb s "confirmed" then Some 2
  else None.

(** A request moves no job backward in that order. *)
Definition forward (d : DB) (r : request) : Prop :=
  forall job_id s s' n n',
    job_status d job_id = Some s ->
    job_status (step d r) job_id = Some s' ->
    status_rank s = Some n -> status_rank s' = Some n' ->
    n <= n'.

(** The two requests that write assigned on the job [job_id]: a direct
    assignment to it, and the acceptance of a change request for it. *)
Definition moved_back (d : DB) (r : request) (job_id : nat) : Prop :=
  (exists uid labour_id, r = AssignLabour uid job_id labour_id)
  \/ (exists uid change_id decision cr,
        r = DecideChange uid change_id decision
        /\ is_accept decision = true
        /\ get change_id (changes d) = Some cr
        /\ ChangeRequest.job_id cr = job_id).

(** An assignment of the job that carries both flags. *)
Definition governed (d : DB) (job_id : nat) : Prop :=
  exists a, In a (assignments d)
            /\ Assignment.job_id a = job_id
            /\ Assignment.accepted_by_farmer a = true
            /\ Assignment.confirmed_by_labour a = true.

(** A run of the application.  Farmer F (user 1) and labourer L (user 2)
    register; F posts job 1 for three days at 500/day; L looks at it, asks
    for five days, F accepts, L confirms. *)
Definition F_form : RegisterForm :=
  mkRegisterForm (Some "F") (Some "111") (Some "pw").
Definition L_form : RegisterForm :=
  mkRegisterForm (Some "L") (Some "222") (Some "pw").
Definition harvest (days : option string) : JobForm :=
  mkJobForm (Some "Harvest") None days None (Some "500/day") None None.
Definition five_days : ChangeForm := mkChangeForm (Some "5") None None None.

Definition registered : DB :=
  run empty_db [FarmerRegister POST F_form; LabourRegister POST L_form].
Definition posted : DB :=
  step registered (PostJob (Some 1) POST (harvest (Some "3"))).
Definition viewed : DB := step posted (JobView (Some 2) 1).
Definition requested : DB :=
  step viewed (RequestChange (Some 2) 1 five_days).
Definition accepted : DB :=
  step requested (DecideChange (Some 1) 1 (Some "accept")).
Definition confirmed : DB :=
  step accepted (ConfirmAssignment (Some 2) 1).

(** After the run: F assigns labourer 3 to job 1 as well, and L confirms
    the own assignment once more. *)
Definition reconfirmed : DB :=
  run confirmed [AssignLabour (Some 1) 1 3; ConfirmAssignment (Some 2) 1].

Definition user_F : User.t := User.mk 1 "F" "111" "farmer".
Definition user_L : User.t := User.mk 2 "L" "222" "labour".
Definition job_1 : Job.t :=
  Job.mk 1 1 "Harvest" None 3 None (Some "500/day") None None "open".
Definition change_1 (status : string) : ChangeRequest.t :=
  ChangeRequest.mk 1 1 2 (Some 5%Z) None None "" status.
Definition assignment_1 (confirmed_by_labour : bool) : Assignment.t :=
  Assignment.mk 1 1 2 true confirmed_by_labour.

(** A request for job 7, which nobody posted. *)
Definition dangling : DB := step posted (RequestChange (Some 2) 7 five_days).

(** ** Sessions, login and the routes that only read *)

(** The Flask session of one browser: the two keys the login routes set. *)
Module Cookie.
Record t := mk {
  user_id : option nat;
  role : option string
}.
Definition empty : t := mk None None.
End Cookie.

Record LoginForm := mkLoginForm {
  login_phone : option string;
  login_password : option string
}.

(** What a login route leaves behind: the response, the session, and the
    message it flashed. *)
Record LoginOutcome := mkLoginOutcome {
  login_response : response;
  login_cookie : Cookie.t;
  login_flashed : option string
}.

(** A request whose result is more than a response. *)
Definition serve_with {A} (h : M A) (d : DB) : DB * (response + A) :=
  match h (mkSession d d) with
  | (r, s) => (committed s, r)
  end.

(** [farmer_login] and [labour_login] differ in the role, the dashboard and
    the template.  [check_password_hash u password] stands for
    [check_password_hash(user.password_hash, password)]; the hash is a column
    of the user's row that is not represented. *)
Definition login (check_password_hash : User.t -> string -> bool)
  (role dashboard template : string)
  (m : method) (form : LoginForm) (c : Cookie.t) : M LoginOutcome :=
  match m with
  | POST =>
      phone <- form_required (login_phone form) ;;
      password <- form_required (login_password form) ;;
      user <- query (fun d =>
        first_by (fun u => String.eqb (User.phone u) phone
                           && String.eqb (User.role u) role) (users d)) ;;
      match user with
      | Some u =>
          if check_password_hash u password
          then ret (mkLoginOutcome (Redirect dashboard None)
                      (Cookie.mk (Some (User.id u)) (Some role)) None)
          else ret (mkLoginOutcome (Render template) c
                      (Some "Invalid credentials"))
      | None =>
          ret (mkLoginOutcome (Render template) c (Some "Invalid credentials"))
      end
  | GET => ret (mkLoginOutcome (Render template) c None)
  end.

Definition farmer_login (check_password_hash : User.t -> string -> bool)
  : method -> LoginForm -> Cookie.t -> M LoginOutcome :=
  login check_password_hash "farmer" "farmer_dashboard" "farmer_login.html".

Definition labour_login (check_password_hash : User.t -> string -> bool)
  : method -> LoginForm -> Cookie.t -> M LoginOutcome :=
  login check_password_hash "labour" "labour_dashboard" "labour_login.html".

(** [session.clear()]. *)
Definition logout (c : Cookie.t) : response * Cookie.t :=
  (Redirect "index" None, Cookie.empty).

(** [Query.join(Job, row.job_id == Job.id).filter(Job.farmer_id == farmer)]
    keeps the rows whose job exists and belongs to the farmer. *)
Definition owns (farmer job_id : nat) (d : DB) : bool :=
  existsb (fun j => (Job.id j =? job_id)%nat && (Job.farmer_id j =? farmer)%nat)
          (jobs d).

(** The dictionary that [farmer_notifications] builds for a change
    request. *)
Module ChangeInfo.
Record t := mk {
  id : nat;
  job_id : nat;
  requested_days : option Z;
  requested_wage : option string;
  requested_stay : option string;
  message : string;
  status : string;
  labour_name : string;
  labour_phone : string
}.
End ChangeInfo.

(** A [for] loop that builds a list. *)
Fixpoint for_each {A B} (f : A -> M B) (l : list A) : M (list B) :=
  match l with
  | [] => ret []
  | x :: l' =>
      y <- f x ;;
      ys <- for_each f l' ;;
      ret (y :: ys)
  end.

(** The two lists that [farmer_notifications] hands to its template.  The
    rows come in table order; the source orders them by their timestamps,
    which only permutes them. *)
Definition notifications_context (u : User.t)
  : M (list (ViewNotification.t * option User.t * option Job.t)
       * list ChangeInfo.t) :=
  views <- query (fun d =>
    filter (fun v => owns (User.id u) (ViewNotification.job_id v) d)
           (views d)) ;;
  view_list <- for_each (fun v =>
    labour <- query (fun d => get (ViewNotification.labour_id v) (users d)) ;;
    job <- query (fun d => get (ViewNotification.job_id v) (jobs d)) ;;
    ret (v, labour, job)) views ;;
  change_reqs_raw <- query (fun d =>
    filter (fun cr => owns (User.id u) (ChangeRequest.job_id cr) d)
           (changes d)) ;;
  change_reqs <- for_each (fun cr =>
    labour <- query (fun d => get (ChangeRequest.labour_id cr) (users d)) ;;
    l <- deref labour ;;
    ret (ChangeInfo.mk (ChangeRequest.id cr) (ChangeRequest.job_id cr)
           (ChangeRequest.requested_days cr) (ChangeRequest.requested_wage cr)
           (ChangeRequest.requested_stay cr) (ChangeRequest.message cr)
           (ChangeRequest.status cr) (User.name l) (User.phone l)))
    change_reqs_raw ;;
  ret (view_list, change_reqs).

Definition farmer_notifications (uid : option nat) : M response :=
  user <- current_user uid ;;
  require_role "farmer" (Redirect "farmer_login" None) user (fun u =>
    _ <- notifications_context u ;;
    ret (Render "notifications.html")).

(** The jobs and the assignments that [labour_dashboard] hands to its
    template.  The column [date_posted], by which the source orders the jobs
    (latest first), is filled from the clock when the row is added and is
    not a field of [Job.t]: the ordering is the parameter
    [order_by_date_posted_desc] of the query, applied to the filtered rows
    as in the source.  The assignments are queried without [order_by] and
    come in table order. *)
Definition labour_dashboard_context
  (order_by_date_posted_desc : list Job.t -> list Job.t) (u : User.t)
  : M (list Job.t * list Assignment.t) :=
  jobs <- query (fun d =>
    order_by_date_posted_desc
      (filter (fun j => negb (String.eqb (Job.status j) "closed"))
              (jobs d))) ;;
  assignments <- query (fun d =>
    filter (fun a => (Assignment.labour_id a =? User.id u)%nat)
           (assignments d)) ;;
  ret (jobs, assignments).

Definition labour_dashboard
  (order_by_date_posted_desc : list Job.t -> list Job.t)
  (uid : option nat) : M response :=
  user <- current_user uid ;;
  require_role "labour" (Redirect "labour_login" None) user (fun u =>
    _ <- labour_dashboard_context order_by_date_posted_desc u ;;
    ret (Render "labour_dashboard.html")).

(** The four lists that [farmer_dashboard] hands to its template: the
    farmer's jobs, the views of them with the viewer looked up, the change
    requests and the assignments for them.  The lists come in table order
    here; the source orders each by its timestamp, latest first, which only
    permutes them, so what is stated of these lists is stated of their
    members. *)
Definition farmer_dashboard_context (u : User.t)
  : M (list Job.t * list (ViewNotification.t * option User.t)
       * list ChangeRequest.t * list Assignment.t) :=
  jobs <- query (fun d =>
    filter (fun j => (Job.farmer_id j =? User.id u)%nat) (jobs d)) ;;
  views <- query (fun d =>
    filter (fun v => owns (User.id u) (ViewNotification.job_id v) d)
           (views d)) ;;
  view_details <- for_each (fun v =>
    labour <- query (fun d => get (ViewNotification.labour_id v) (users d)) ;;
    ret (v, labour)) views ;;
  change_reqs <- query (fun d =>
    filter (fun cr => owns (User.id u) (ChangeRequest.job_id cr) d)
           (changes d)) ;;
  assignments <- query (fun d =>
    filter (fun a => owns (User.id u) (Assignment.job_id a) d)
           (assignments d)) ;;
  ret (jobs, view_details, change_reqs, assignments).

Definition farmer_dashboard (uid : option nat) : M response :=
  user <- current_user uid ;;
  require_role "farmer" (Redirect "farmer_login" None) user (fun u =>
    _ <- farmer_dashboard_context u ;;
    ret (Render "farmer_dashboard.html")).

(** The user who posted a job exists and is a farmer. *)
Definition job_owned (d : DB) (j : Job.t) : Prop :=
  exists f, get (Job.farmer_id j) (users d) = Some f
            /\ User.role f = "farmer".

(** The session key that a request carries, and the role its route asks
    for before it writes; registration asks for none. *)
Definition request_uid (r : request) : option nat :=
  match r with
  | FarmerRegister _ _ | LabourRegister _ _ => None
  | PostJob uid _ _ | JobView uid _ | RequestChange uid _ _
  | DecideChange uid _ _ | AssignLabour uid _ _ | ConfirmAssignment uid _ =>
      uid
  end.

Definition route_role (r : request) : option string :=
  match r with
  | FarmerRegister _ _ | LabourRegister _ _ => None
  | PostJob _ _ _ | DecideChange _ _ _ | AssignLabour _ _ _ => Some "farmer"
  | JobView _ _ | RequestChange _ _ _ | ConfirmAssignment _ _ => Some "labour"
  end.

(** The routes that add a row on every successful call. *)
Definition appends (r : request) : bool :=
  match r with
  | PostJob _ _ _ | RequestChange _ _ _ => true
  | _ => false
  end.

(** The users of a state: distinct keys, none of them 0, distinct phones,
    and only the two roles. *)
Definition users_sound (d : DB) : Prop :=
  keys_distinct (users d)
  /\ NoDup (map User.phone (users d))
  /\ (forall u, In u (users d) ->
        1 <= User.id u
        /\ (User.role u = "farmer" \/ User.role u = "labour")).

(** A view row in a reachable state: unread, of a job that exists, by a
    labourer who exists. *)
Definition view_sound (d : DB) (v : ViewNotification.t) : Prop :=
  ViewNotification.seen v = false
  /\ job_present d (ViewNotification.job_id v)
  /\ exists u, get (ViewNotification.labour_id v) (users d) = Some u
                /\ User.role u = "labour".

(** The author of a change request exists and is a labourer. *)
Definition change_sound (d : DB) (cr : ChangeRequest.t) : Prop :=
  exists u, get (ChangeRequest.labour_id cr) (users d) = Some u
            /\ User.role u = "labour".

(** Every job row that an assignment names has left the status open. *)
Definition assigned_not_open (d : DB) : Prop :=
  forall a j, In a (assignments d) -> In j (jobs d) ->
              Job.id j = Assignment.job_id a -> Job.status j <> "open".

(** ** [int()] on sample inputs *)

Example int_accepts :
  map Py.int ["5"; " 42 "; "-3"; "0"; "+7"; "1_000"; "007"]
  = [Some 5; Some 42; Some (-3); Some 0; Some 7; Some 1000; Some 7]%Z.
Proof. reflexivity. Qed.

Example int_raises :
  map Py.int ["abc"; ""; "  "; "- 5"; "_1"; "1__0"; "1_"; "5.0"; "+-5"]
  = [None; None; None; None; None; None; None; None; None].
Proof. reflexivity. Qed.

(** ** Facts about tables *)

Section TableFacts.
Context {R : Type} `{Model R}.

Implicit Types (t : list R) (f g : R -> R) (p : R -> bool).

Lemma get_In k t r : get k t = Some r -> In r t /\ pk r = k.
Proof.
  unfold get. intros E. apply find_some in E as [HIn Hk].
  apply Nat.eqb_eq in Hk. auto.
Qed.

Lemma first_by_In p t r : first_by p t = Some r -> In r t /\ p r = true.
Proof. unfold first_by. apply find_some. Qed.

Lemma first_by_None_filter p t : first_by p t = None -> filter p t = [].
Proof.
  unfold first_by. induction t as [|x t IH]; simpl; [reflexivity|].
  destruct (p x); [discriminate|]. exact IH.
Qed.

Lemma first_by_Some_filter p t r :
  first_by p t = Some r -> exists rest, filter p t = r :: rest.
Proof.
  unfold first_by. induction t as [|x t IH]; simpl; [discriminate|].
  destruct (p x) eqn:E.
  - intros [= ->]. eauto.
  - exact IH.
Qed.

Lemma update_length k f t : List.length (update k f t) = List.length t.
Proof. unfold update. apply length_map. Qed.

Lemma In_update k f t r :
  In r (update k f t) ->
  exists r0, In r0 t /\ r = (if (pk r0 =? k)%nat then f r0 else r0).
Proof.
  unfold update. intros HIn. apply in_map_iff in HIn as [r0 [E HIn]].
  exists r0. auto.
Qed.

Lemma In_update_intro k f t r0 :
  In r0 t -> In (if (pk r0 =? k)%nat then f r0 else r0) (update k f t).
Proof.
  unfold update. intros HIn.
  apply in_map_iff. exists r0. auto.
Qed.

Lemma get_update k f t j :
  (forall r, pk (f r) = pk r) ->
  get j (update k f t)
  = option_map (fun r => if (pk r =? k)%nat then f r else r) (get j t).
Proof.
  intros Hpk. unfold get, update.
  induction t as [|x t IH]; simpl; [reflexivity|].
  assert (E : pk (if (pk x =? k)%nat then f x else x) = pk x)
    by (destruct (pk x =? k)%nat; auto).
  rewrite E. destruct (pk x =? j)%nat; [reflexivity|]. exact IH.
Qed.

Lemma update_update k f g t :
  (forall r, pk (f r) = pk r) ->
  update k g (update k f t) = update k (fun r => g (f r)) t.
Proof.
  intros Hpk. unfold update. rewrite map_map.
  apply map_ext. intros r.
  destruct (pk r =? k)%nat eqn:E; [|rewrite E; reflexivity].
  rewrite Hpk, E. reflexivity.
Qed.

Lemma filter_update p k f t :
  (forall r, p (f r) = p r) ->
  filter p (update k f t) = update k f (filter p t).
Proof.
  intros Hp. unfold update.
  induction t as [|x t IH]; simpl; [reflexivity|].
  assert (E : p (if (pk x =? k)%nat then f x else x) = p x)
    by (destruct (pk x =? k)%nat; auto).
  rewrite E. destruct (p x); simpl; rewrite IH; reflexivity.
Qed.

Lemma filter_add p row t :
  filter p (add row t)
  = filter p t ++ (if p (row (next_pk t)) then [row (next_pk t)] else []).
Proof. unfold add. rewrite filter_app. reflexivity. Qed.

Lemma get_add j row t :
  get j (add row t)
  = match get j t with
    | Some r => Some r
    | None => if (pk (row (next_pk t)) =? j)%nat
              then Some (row (next_pk t)) else None
    end.
Proof.
  unfold get, add. induction t as [|x t IH] in row |- *; simpl.
  - reflexivity.
  - destruct (pk x =? j)%nat; [reflexivity|].
    generalize (row (next_pk (x :: t))). intros r.
    clear IH. induction t as [|y t IH]; simpl; [reflexivity|].
    destruct (pk y =? j)%nat; [reflexivity|]. exact IH.
Qed.

Lemma In_add row t r :
  In r (add row t) <-> In r t \/ r = row (next_pk t).
Proof.
  unfold add. rewrite in_app_iff. simpl. intuition congruence.
Qed.

Lemma next_pk_fresh t r : In r t -> pk r < next_pk t.
Proof.
  unfold next_pk. intros HIn.
  assert (Hle : pk r <= list_max (map pk t)).
  { pose proof (list_max_le (map pk t) (list_max (map pk t))) as [Hall _].
    specialize (Hall (Nat.le_refl _)).
    rewrite Forall_forall in Hall. apply Hall.
    apply in_map. exact HIn. }
  lia.
Qed.

Lemma get_None_fresh t : get (next_pk t) t = None.
Proof.
  destruct (get (next_pk t) t) as [r|] eqn:E; [|reflexivity].
  apply get_In in E as [HIn Hk].
  apply next_pk_fresh in HIn. lia.
Qed.
End TableFacts.

(** ** What each route commits *)

Ltac unfold_monad :=
  unfold serve, bind, ret, raise, query, write, commit, get_or_404, deref,
    form_required, setattr_job in *; cbn [fst snd committed pending] in *.

Lemma serve_gate role denied uid k d :
  serve (user <- current_user uid ;; require_role role denied user k) d
  = match acting d uid with
    | Some u =>
        if String.eqb (User.role u) role then serve (k u) d else (d, denied)
    | None => (d, denied)
    end.
Proof.
  unfold current_user, acting, require_role.
  destruct uid as [[|k0]|]; unfold_monad; try reflexivity.
  destruct (get (S k0) (users d)) as [u|]; [|reflexivity].
  destruct (String.eqb (User.role u) role); reflexivity.
Qed.

Lemma accepted_job_id cr j : Job.id (accepted_job cr j) = Job.id j.
Proof.
  unfold accepted_job, override_stay, override_wage, override_days.
  destruct (ChangeRequest.requested_days cr) as [v|];
    [destruct (Py.truthy_int (Some v))|];
  (destruct (ChangeRequest.requested_wage cr) as [w|];
    [destruct (Py.truthy_str (Some w))|]);
  (destruct (ChangeRequest.requested_stay cr) as [x|];
    [destruct (Py.truthy_str (Some x))|]); reflexivity.
Qed.

Ltac mrun :=
  cbv beta iota zeta delta
    [serve bind ret raise query write commit get_or_404 deref form_required
     setattr_job accept_assignment int_or_raise days_or_1 int_if_given
     flush_integer committed pending fst snd];
  cbv beta delta
    [with_users with_jobs with_views with_changes with_assignments];
  cbn [users jobs views changes assignments].

Ltac gate Hu Hrole :=
  rewrite serve_gate, Hu, Hrole;
  match goal with
  | |- context [String.eqb ?s ?s] => rewrite (String.eqb_refl s)
  end.

Section Runs.
Variables (d : DB) (uid : option nat) (u : User.t).
Hypothesis Hu : acting d uid = Some u.

(** A caller without the route's role is sent to the login page and
    nothing is written. *)
Lemma denied_run role denied k :
  User.role u <> role ->
  serve (user <- current_user uid ;; require_role role denied user k) d
  = (d, denied).
Proof.
  intros Hne. rewrite serve_gate, Hu.
  destruct (String.eqb_spec (User.role u) role); [contradiction|reflexivity].
Qed.

Section Farmer.
Hypothesis Hrole : User.role u = "farmer".

Lemma decide_missing_run change_id decision :
  get change_id (changes d) = None ->
  serve (decide_change uid change_id decision) d = (d, NotFound).
Proof.
  intros Hcr. unfold decide_change. gate Hu Hrole.
  mrun. rewrite Hcr. reflexivity.
Qed.

Lemma decide_reject_run change_id decision cr :
  get change_id (changes d) = Some cr ->
  is_accept decision = false ->
  serve (decide_change uid change_id decision) d
  = (after_reject cr d,
     Redirect "farmer_dashboard" (Some "Change request rejected.")).
Proof.
  intros Hcr Hdec. unfold decide_change. gate Hu Hrole.
  mrun. rewrite Hcr, Hdec. reflexivity.
Qed.

Lemma decide_accept_run change_id decision cr j :
  get change_id (changes d) = Some cr ->
  is_accept decision = true ->
  get (ChangeRequest.job_id cr) (jobs d) = Some j ->
  serve (decide_change uid change_id decision) d
  = (after_accept cr d,
     Redirect "farmer_dashboard"
       (Some "Change accepted and labour assigned (awaiting labour confirmation).")).
Proof.
  intros Hcr Hacc Hj.
  unfold decide_change. gate Hu Hrole.
  pose proof (get_In _ _ _ Hj) as [_ Hjid]. cbn [pk Job_Model] in Hjid.
  unfold after_accept, accepted_for, accepted_job, override_days,
    override_wage, override_stay.
  mrun. rewrite Hcr, Hacc. mrun.
  destruct (first_by _ (assignments d)) as [a|]; mrun; rewrite Hj; mrun.
  all: destruct (ChangeRequest.requested_days cr) as [v|];
    [destruct (Py.truthy_int (Some v))|]; mrun.
  all: destruct (ChangeRequest.requested_wage cr) as [w|];
    [destruct (Py.truthy_str (Some w))|]; mrun.
  all: destruct (ChangeRequest.requested_stay cr) as [x|];
    [destruct (Py.truthy_str (Some x))|]; mrun.
  all: rewrite Hjid.
  all: repeat (rewrite update_update by (intros; reflexivity)).
  all: reflexivity.
Qed.

Lemma decide_accept_nojob_run change_id decision cr :
  get change_id (changes d) = Some cr ->
  is_accept decision = true ->
  get (ChangeRequest.job_id cr) (jobs d) = None ->
  serve (decide_change uid change_id decision) d = (d, NoneDereference).
Proof.
  intros Hcr Hacc Hj.
  unfold decide_change. gate Hu Hrole.
  mrun. rewrite Hcr, Hacc. mrun.
  destruct (first_by _ (assignments d)) as [a|]; mrun; rewrite Hj; mrun.
  all: destruct (ChangeRequest.requested_days cr) as [v|];
    [destruct (Py.truthy_int (Some v))|]; mrun; try reflexivity.
  all: destruct (ChangeRequest.requested_wage cr) as [w|];
    [destruct (Py.truthy_str (Some w))|]; mrun; try reflexivity.
  all: destruct (ChangeRequest.requested_stay cr) as [x|];
    [destruct (Py.truthy_str (Some x))|]; mrun; reflexivity.
Qed.

Lemma assign_run job_id labour_id j :
  get job_id (jobs d) = Some j ->
  serve (assign_labour uid job_id labour_id) d
  = (after_assign job_id labour_id d,
     Redirect "farmer_dashboard"
       (Some "Labour accepted for job. Waiting for labour confirmation.")).
Proof.
  intros Hj. unfold assign_labour. gate Hu Hrole.
  pose proof (get_In _ _ _ Hj) as [_ Hjid]. cbn [pk Job_Model] in Hjid.
  unfold after_assign, accepted_for. mrun.
  destruct (first_by _ (assignments d)) as [a|]; mrun; rewrite Hj; mrun;
    rewrite Hjid; reflexivity.
Qed.

Lemma assign_nojob_run job_id labour_id :
  get job_id (jobs d) = None ->
  serve (assign_labour uid job_id labour_id) d = (d, NoneDereference).
Proof.
  intros Hj. unfold assign_labour. gate Hu Hrole. mrun.
  destruct (first_by _ (assignments d)) as [a|]; mrun; rewrite Hj; reflexivity.
Qed.

Lemma post_job_run form :
  serve (post_job uid POST form) d
  = match form_title form with
    | None => (d, Abort 400)
    | Some title =>
        match days_input (form_days form) with
        | None => (d, Uncaught "ValueError")
        | Some n =>
            if sqlite_integer n
            then (with_jobs (add (posted_job u title n form)) d,
                  Redirect "farmer_dashboard" (Some "Job posted"))
            else (d, Uncaught "OverflowError")
        end
    end.
Proof.
  unfold post_job. gate Hu Hrole. unfold days_input, posted_job.
  destruct (form_title form) as [title|]; mrun; [|reflexivity].
  destruct (form_days form) as [s|]; [|reflexivity].
  destruct (Py.truthy_str (Some s)); [|reflexivity].
  destruct (Py.int s) as [n|]; [|reflexivity].
  destruct (sqlite_integer n); reflexivity.
Qed.

Lemma post_job_get_run form :
  serve (post_job uid GET form) d = (d, Render "post_job.html").
Proof. unfold post_job. gate Hu Hrole. reflexivity. Qed.
End Farmer.

Section Labour.
Hypothesis Hrole : User.role u = "labour".

Lemma confirm_missing_run assign_id :
  get assign_id (assignments d) = None ->
  serve (confirm_assignment uid assign_id) d = (d, NotFound).
Proof.
  intros Ha. unfold confirm_assignment. gate Hu Hrole.
  mrun. rewrite Ha. reflexivity.
Qed.

Lemma confirm_run assign_id a :
  get assign_id (assignments d) = Some a ->
  serve (confirm_assignment uid assign_id) d
  = if negb (Assignment.labour_id a =? User.id u)%nat then (d, Forbidden)
    else if Assignment.accepted_by_farmer a then
      match get (Assignment.job_id a) (jobs d) with
      | Some _ =>
          (after_confirm a d,
           Redirect "labour_dashboard"
             (Some "You confirmed the assignment."))
      | None => (d, NoneDereference)
      end
    else
      (after_confirm a d,
       Redirect "labour_dashboard" (Some "You confirmed the assignment.")).
Proof.
  intros Ha. unfold confirm_assignment. gate Hu Hrole.
  unfold after_confirm. mrun. rewrite Ha. mrun.
  destruct (negb _); [reflexivity|].
  destruct a as [ai aj al acc conf]; cbn.
  destruct acc; cbn; [|reflexivity].
  destruct (get aj (jobs d)) as [j|] eqn:Hj; [|reflexivity].
  apply get_In in Hj as [_ Hjid]. cbn [pk Job_Model] in Hjid.
  rewrite Hjid. reflexivity.
Qed.

Lemma request_change_run job_id form :
  serve (request_change uid job_id form) d
  = match requested_days_input (form_requested_days form) with
    | None => (d, Uncaught "ValueError")
    | Some days =>
        if storable days
        then (with_changes (add (submitted_change u job_id days form)) d,
              Redirect "job_view" (Some "Change request sent to farmer"))
        else (d, Uncaught "OverflowError")
    end.
Proof.
  unfold request_change. gate Hu Hrole.
  unfold requested_days_input, submitted_change, storable. mrun.
  destruct (form_requested_days form) as [s|]; [|reflexivity].
  destruct (Py.truthy_str (Some s)); [|reflexivity].
  destruct (Py.int s) as [n|]; [|reflexivity].
  cbn [option_map]. mrun. destruct (sqlite_integer n); reflexivity.
Qed.
End Labour.
End Runs.

Lemma job_view_run d uid job_id :
  serve (job_view uid job_id) d
  = match get job_id (jobs d) with
    | None => (d, NotFound)
    | Some _ =>
        (match acting d uid with
         | Some u =>
             if String.eqb (User.role u) "labour"
             then after_view job_id (User.id u) d else d
         | None => d
         end, Render "job_view.html")
    end.
Proof.
  unfold job_view, current_user, acting, after_view.
  destruct uid as [[|k]|]; mrun;
    try (destruct (get job_id (jobs d)); reflexivity).
  destruct (get (S k) (users d)) as [u|]; destruct (get job_id (jobs d)); mrun;
    try reflexivity.
  destruct (String.eqb (User.role u) "labour"); mrun; [|reflexivity].
  destruct (first_by _ (views d)); reflexivity.
Qed.

Lemma register_run role register_ep login_ep template m form d :
  fst (serve (register role register_ep login_ep template m form) d) = d
  \/ exists name phone,
       fst (serve (register role register_ep login_ep template m form) d)
       = after_register role name phone d.
Proof.
  unfold register, after_register.
  destruct m; [left; reflexivity|].
  destruct (reg_name form) as [name|]; mrun; [|left; reflexivity].
  destruct (reg_phone form) as [phone|]; mrun; [|left; reflexivity].
  destruct (reg_password form) as [pw|]; mrun; [|left; reflexivity].
  destruct (first_by _ (users d)); [left; reflexivity|].
  right. exists name, phone. reflexivity.
Qed.

(** ** Transitions *)

Create HintDb agrihub.
#[local] Hint Constructors transition : agrihub.

Ltac by_role d uid role :=
  let u := fresh "u" in
  let Hu := fresh "Hu" in
  let Hrole := fresh "Hrole" in
  destruct (acting d uid) as [u|] eqn:Hu;
  [ destruct (String.eqb_spec (User.role u) role) as [Hrole|Hrole]
  | ].

Lemma step_transition d r : transition d r (step d r).
Proof.
  unfold step.
  destruct r as [m form|m form|uid m form|uid job_id|uid job_id form
                |uid change_id decision|uid job_id labour_id|uid assign_id];
    cbn [route].
  - unfold farmer_register.
    destruct (register_run "farmer" "farmer_register" "farmer_login"
                "farmer_register.html" m form d) as [E|[n [p E]]];
      rewrite E; auto with agrihub.
  - unfold labour_register.
    destruct (register_run "labour" "labour_register" "labour_login"
                "labour_register.html" m form d) as [E|[n [p E]]];
      rewrite E; auto with agrihub.
  - by_role d uid "farmer".
    + destruct m.
      * rewrite (post_job_get_run d uid u Hu Hrole). apply t_idle.
      * rewrite (post_job_run d uid u Hu Hrole).
        destruct (form_title form) as [title|] eqn:Ht; [|apply t_idle].
        destruct (days_input (form_days form)) as [n|] eqn:Hn; [|apply t_idle].
        destruct (sqlite_integer n); [|apply t_idle].
        apply (t_post_job d uid form u title n); assumption.
    + unfold post_job. rewrite (denied_run d uid u Hu) by assumption.
      apply t_idle.
    + unfold post_job. rewrite serve_gate, Hu. apply t_idle.
  - rewrite job_view_run.
    destruct (get job_id (jobs d)) as [j|] eqn:Hj; [|apply t_idle].
    cbn [fst].
    destruct (acting d uid) as [u|] eqn:Hu; [|apply t_idle].
    destruct (String.eqb_spec (User.role u) "labour") as [Hrole|Hrole];
      [|apply t_idle].
    apply (t_job_view d uid job_id u j); assumption.
  - by_role d uid "labour".
    + rewrite (request_change_run d uid u Hu Hrole).
      destruct (requested_days_input _) as [days|] eqn:Hd; [|apply t_idle].
      destruct (storable days); [|apply t_idle].
      apply (t_request_change d uid job_id form u days); assumption.
    + unfold request_change. rewrite (denied_run d uid u Hu) by assumption.
      apply t_idle.
    + unfold request_change. rewrite serve_gate, Hu. apply t_idle.
  - by_role d uid "farmer".
    + destruct (get change_id (changes d)) as [cr|] eqn:Hcr.
      * destruct (is_accept decision) eqn:Hdec.
        -- destruct (get (ChangeRequest.job_id cr) (jobs d)) as [j|] eqn:Hj.
           ++ rewrite (decide_accept_run d uid u Hu Hrole _ _ cr j) by assumption.
              apply (t_accept d uid change_id decision u cr j); assumption.
           ++ rewrite (decide_accept_nojob_run d uid u Hu Hrole _ _ cr)
                by assumption.
              apply t_idle.
        -- rewrite (decide_reject_run d uid u Hu Hrole _ _ cr) by assumption.
           apply (t_reject d uid change_id decision u cr); assumption.
      * rewrite (decide_missing_run d uid u Hu Hrole) by assumption.
        apply t_idle.
    + unfold decide_change. rewrite (denied_run d uid u Hu) by assumption.
      apply t_idle.
    + unfold decide_change. rewrite serve_gate, Hu. apply t_idle.
  - by_role d uid "farmer".
    + destruct (get job_id (jobs d)) as [j|] eqn:Hj.
      * rewrite (assign_run d uid u Hu Hrole _ _ j) by assumption.
        apply (t_assign d uid job_id labour_id u j); assumption.
      * rewrite (assign_nojob_run d uid u Hu Hrole) by assumption.
        apply t_idle.
    + unfold assign_labour. rewrite (denied_run d uid u Hu) by assumption.
      apply t_idle.
    + unfold assign_labour. rewrite serve_gate, Hu. apply t_idle.
  - by_role d uid "labour".
    + destruct (get assign_id (assignments d)) as [a|] eqn:Ha.
      * rewrite (confirm_run d uid u Hu Hrole _ a) by assumption.
        destruct (Nat.eqb_spec (Assignment.labour_id a) (User.id u)) as [El|El];
          cbn [negb]; [|apply t_idle].
        destruct (Assignment.accepted_by_farmer a) eqn:Hacc.
        -- destruct (get (Assignment.job_id a) (jobs d)) as [j|] eqn:Hj;
             [|apply t_idle].
           apply (t_confirm d uid assign_id u a); eauto.
        -- apply (t_confirm d uid assign_id u a); auto. congruence.
      * rewrite (confirm_missing_run d uid u Hu Hrole) by assumption.
        apply t_idle.
    + unfold confirm_assignment. rewrite (denied_run d uid u Hu) by assumption.
      apply t_idle.
    + unfold confirm_assignment. rewrite serve_gate, Hu. apply t_idle.
Qed.

Lemma reachable_run rs : reachable (run empty_db rs).
Proof.
  unfold run. generalize reachable_empty. generalize empty_db.
  induction rs as [|r rs IH]; intros d Hd; simpl; [exact Hd|].
  apply IH. apply reachable_step. exact Hd.
Qed.

(** An invariant of the transitions that holds of the empty database holds
    of every reachable state. *)
Lemma reachable_ind_transition (P : DB -> Prop) :
  P empty_db ->
  (forall d r d', reachable d -> P d -> transition d r d' -> P d') ->
  forall d, reachable d -> P d.
Proof.
  intros H0 Hstep d Hd. induction Hd as [|d r Hd IH]; [exact H0|].
  apply (Hstep d r); auto. apply step_transition.
Qed.

(** ** One row per pair *)

Lemma assignment_of_set_accepted j l v a :
  assignment_of j l (Assignment.set_accepted_by_farmer v a)
  = assignment_of j l a.
Proof. reflexivity. Qed.

Lemma assignment_of_set_confirmed j l v a :
  assignment_of j l (Assignment.set_confirmed_by_labour v a)
  = assignment_of j l a.
Proof. reflexivity. Qed.

Lemma assignment_of_eq j l a :
  assignment_of j l a = true
  <-> Assignment.job_id a = j /\ Assignment.labour_id a = l.
Proof.
  unfold assignment_of. rewrite andb_true_iff, !Nat.eqb_eq. tauto.
Qed.

Lemma view_of_eq j l v :
  view_of j l v = true
  <-> ViewNotification.job_id v = j /\ ViewNotification.labour_id v = l.
Proof.
  unfold view_of. rewrite andb_true_iff, !Nat.eqb_eq. tauto.
Qed.

(** The find-or-create block never adds a second row for a pair. *)
Lemma accepted_for_count j0 l0 j l t :
  List.length (filter (assignment_of j l) t) <= 1 ->
  List.length (filter (assignment_of j l) (accepted_for j0 l0 t)) <= 1.
Proof.
  intros Hle. unfold accepted_for.
  destruct (first_by (assignment_of j0 l0) t) as [a|] eqn:E.
  - rewrite filter_update by apply assignment_of_set_accepted.
    rewrite update_length. exact Hle.
  - rewrite filter_add.
    destruct (assignment_of j l _) eqn:Ep; [|rewrite app_nil_r; exact Hle].
    apply assignment_of_eq in Ep as [Ej El]. cbn in Ej, El. subst j l.
    rewrite (first_by_None_filter _ _ E). simpl. lia.
Qed.

Lemma after_view_count j0 l0 j l d :
  List.length (views_for d j l) <= 1 ->
  List.length (views_for (after_view j0 l0 d) j l) <= 1.
Proof.
  intros Hle. unfold after_view, views_for in *.
  destruct (first_by (view_of j0 l0) (views d)) as [v|] eqn:E; [exact Hle|].
  cbn [views with_views]. rewrite filter_add.
  destruct (view_of j l _) eqn:Ep; [|rewrite app_nil_r; exact Hle].
  apply view_of_eq in Ep as [Ej El]. cbn in Ej, El. subst j l.
  rewrite (first_by_None_filter _ _ E). simpl. lia.
Qed.

Lemma transition_assignments_count d r d' j l :
  transition d r d' ->
  List.length (assignments_for d j l) <= 1 ->
  List.length (assignments_for d' j l) <= 1.
Proof.
  unfold assignments_for.
  intros Ht Hle. destruct Ht; cbn [assignments after_register after_reject
    after_accept after_assign after_confirm with_users with_jobs with_changes];
    try exact Hle; try (apply accepted_for_count; exact Hle).
  - unfold after_view. destruct (first_by _ (views d)); exact Hle.
  - rewrite filter_update by apply assignment_of_set_confirmed.
    rewrite update_length. exact Hle.
Qed.

Lemma transition_views_count d r d' j l :
  transition d r d' ->
  List.length (views_for d j l) <= 1 ->
  List.length (views_for d' j l) <= 1.
Proof.
  intros Ht Hle. destruct Ht; try exact Hle.
  apply after_view_count. exact Hle.
Qed.

(** ** Primary keys *)

Section Keys.
Context {R : Type} `{Model R}.

Lemma keys_update k f (t : list R) :
  (forall r, pk (f r) = pk r) -> map pk (update k f t) = map pk t.
Proof.
  intros Hpk. unfold update. rewrite map_map. apply map_ext.
  intros r. destruct (pk r =? k)%nat; auto.
Qed.

Lemma keys_distinct_update k f (t : list R) :
  (forall r, pk (f r) = pk r) ->
  keys_distinct t -> keys_distinct (update k f t).
Proof. intros Hpk. unfold keys_distinct. rewrite keys_update; auto. Qed.

Lemma keys_distinct_add row (t : list R) :
  (forall k, pk (row k) = k) ->
  keys_distinct t -> keys_distinct (add row t).
Proof.
  intros Hrow Hnd. unfold keys_distinct, add in *.
  rewrite map_app. simpl. rewrite Hrow.
  apply NoDup_app; [exact Hnd|repeat constructor; simpl; tauto|].
  intros k Hk [<-|[]].
  apply in_map_iff in Hk as [r [Er Hr]].
  apply next_pk_fresh in Hr. lia.
Qed.

Lemma get_of_In (t : list R) r :
  keys_distinct t -> In r t -> get (pk r) t = Some r.
Proof.
  unfold keys_distinct, get.
  induction t as [|x t IH]; simpl; intros Hnd HIn; [contradiction|].
  inversion Hnd as [|? ? Hx Hnd']; subst.
  destruct HIn as [->|HIn]; [rewrite Nat.eqb_refl; reflexivity|].
  destruct (Nat.eqb_spec (pk x) (pk r)) as [E|E]; [|auto].
  exfalso. apply Hx. rewrite E. apply in_map. exact HIn.
Qed.

Lemma get_update_Some k f (t : list R) j r :
  (forall r, pk (f r) = pk r) ->
  get j t = Some r -> exists r', get j (update k f t) = Some r'.
Proof. intros Hpk E. rewrite get_update, E by exact Hpk. simpl. eauto. Qed.

Lemma get_add_Some row (t : list R) j r :
  get j t = Some r -> get j (add row t) = Some r.
Proof. intros E. rewrite get_add, E. reflexivity. Qed.
End Keys.

Lemma accepted_for_keys j l t :
  keys_distinct t -> keys_distinct (accepted_for j l t).
Proof.
  intros Hnd. unfold accepted_for.
  destruct (first_by _ t).
  - apply keys_distinct_update; [reflexivity|exact Hnd].
  - apply keys_distinct_add; [reflexivity|exact Hnd].
Qed.

Lemma reachable_assignment_keys d :
  reachable d -> keys_distinct (assignments d).
Proof.
  revert d.
  apply (reachable_ind_transition (fun d => keys_distinct (assignments d)));
    [constructor|].
  intros d0 r d' _ IH Ht.
  destruct Ht; cbn [assignments after_register after_reject after_accept
    after_assign after_confirm with_users with_jobs with_changes];
    try exact IH; try (apply accepted_for_keys; exact IH).
  - unfold after_view. destruct (first_by _ (views d0)); exact IH.
  - apply keys_distinct_update; [reflexivity|exact IH].
Qed.

(** ** Assignments in reachable states *)

Lemma accepted_for_In j l t a :
  In a (accepted_for j l t) ->
  a = Assignment.mk (next_pk t) j l true false
  \/ (exists a0, In a0 t /\
        (a = a0 \/ a = Assignment.set_accepted_by_farmer true a0)).
Proof.
  unfold accepted_for. destruct (first_by _ t) as [x|].
  - intros HIn. apply In_update in HIn as [a0 [HIn ->]]. right. exists a0.
    destruct (pk a0 =? Assignment.id x)%nat; auto.
  - intros HIn. apply In_add in HIn as [HIn| ->]; [|auto].
    right. exists a. auto.
Qed.

Lemma job_present_update d k f job_id :
  (forall j, Job.id (f j) = Job.id j) ->
  job_present d job_id ->
  exists j, get job_id (update k f (jobs d)) = Some j.
Proof.
  intros Hf [j Hj]. apply (get_update_Some k f (jobs d) job_id j); auto.
Qed.

Lemma transition_assignment_sound d r d' :
  transition d r d' ->
  (forall a, In a (assignments d) -> assignment_sound d a) ->
  forall a, In a (assignments d') -> assignment_sound d' a.
Proof.
  unfold assignment_sound, job_present.
  intros Ht IH. destruct Ht; intros a0 HIn;
    cbn [assignments jobs after_register after_reject after_accept
         after_assign after_confirm with_users with_jobs with_changes] in *;
    try (apply IH; exact HIn).
  - (* post_job *)
    destruct (IH a0 HIn) as [Hacc [j Hj]]. split; [exact Hacc|].
    exists j. apply get_add_Some. exact Hj.
  - (* job_view *)
    unfold after_view in *.
    destruct (first_by _ (views d)); apply IH; exact HIn.
  - (* accept *)
    apply accepted_for_In in HIn as [->|[a1 [HIn [->| ->]]]]; cbn.
    + split; [reflexivity|].
      eapply get_update_Some; [apply accepted_job_id|eassumption].
    + destruct (IH a1 HIn) as [Hacc [j1 Hj1]]. split; [exact Hacc|].
      eapply get_update_Some; [apply accepted_job_id|eassumption].
    + destruct (IH a1 HIn) as [Hacc [j1 Hj1]]. split; [reflexivity|].
      eapply get_update_Some; [apply accepted_job_id|eassumption].
  - (* assign *)
    apply accepted_for_In in HIn as [->|[a1 [HIn [->| ->]]]]; cbn.
    + split; [reflexivity|].
      eapply get_update_Some; [reflexivity|eassumption].
    + destruct (IH a1 HIn) as [Hacc [j1 Hj1]]. split; [exact Hacc|].
      eapply get_update_Some; [reflexivity|eassumption].
    + destruct (IH a1 HIn) as [Hacc [j1 Hj1]]. split; [reflexivity|].
      eapply get_update_Some; [reflexivity|eassumption].
  - (* confirm *)
    apply In_update in HIn as [a1 [HIn ->]].
    destruct (IH a1 HIn) as [Hacc [j1 Hj1]].
    assert (Hj' : exists j,
      get (Assignment.job_id a1)
          (if Assignment.accepted_by_farmer a
           then update (Assignment.job_id a) (Job.set_status "confirmed") (jobs d)
           else jobs d) = Some j).
    { destruct (Assignment.accepted_by_farmer a); [|eauto].
      eapply get_update_Some; [reflexivity|eassumption]. }
    destruct (pk a1 =? Assignment.id a)%nat; cbn; auto.
Qed.

Lemma reachable_assignment_sound d :
  reachable d -> forall a, In a (assignments d) -> assignment_sound d a.
Proof.
  revert d.
  apply (reachable_ind_transition
           (fun d => forall a, In a (assignments d) -> assignment_sound d a)).
  - intros a [].
  - intros d0 r d' _ IH Ht. exact (transition_assignment_sound d0 r d' Ht IH).
Qed.

(** ** Job status *)

Lemma get_update_at k f (t : list Job.t) j :
  (forall r, Job.id (f r) = Job.id r) ->
  get j (update k f t)
  = if (j =? k)%nat then option_map f (get j t) else get j t.
Proof.
  intros Hf. rewrite get_update by exact Hf.
  destruct (get j t) as [r|] eqn:E; [|destruct (j =? k)%nat; reflexivity].
  apply get_In in E as [_ Hpk]. cbn [option_map]. rewrite Hpk.
  destruct (j =? k)%nat; reflexivity.
Qed.

Lemma job_status_update d d' k f job_id :
  (forall r, Job.id (f r) = Job.id r) ->
  jobs d' = update k f (jobs d) ->
  job_status d' job_id
  = if (job_id =? k)%nat
    then option_map (fun r => Job.status (f r)) (get job_id (jobs d))
    else job_status d job_id.
Proof.
  intros Hf E. unfold job_status. rewrite E, get_update_at by exact Hf.
  destruct (job_id =? k)%nat; [|reflexivity].
  destruct (get job_id (jobs d)); reflexivity.
Qed.

Lemma job_status_same d d' job_id :
  jobs d' = jobs d -> job_status d' job_id = job_status d job_id.
Proof. unfold job_status. intros ->. reflexivity. Qed.

Lemma after_view_jobs j l d : jobs (after_view j l d) = jobs d.
Proof. unfold after_view. destruct (first_by _ (views d)); reflexivity. Qed.

Lemma after_view_assignments j l d :
  assignments (after_view j l d) = assignments d.
Proof. unfold after_view. destruct (first_by _ (views d)); reflexivity. Qed.

Lemma accepted_job_status cr j : Job.status (accepted_job cr j) = "assigned".
Proof. reflexivity. Qed.

(** How a transition changes the status of a job that exists: it stays, or
    it is written as assigned or as confirmed. *)
Lemma transition_job_status d r d' job_id s :
  transition d r d' ->
  job_status d job_id = Some s ->
  exists s', job_status d' job_id = Some s'
             /\ (s' = s \/ s' = "assigned" \/ s' = "confirmed").
Proof.
  intros Ht Hs.
  assert (Hkeep : forall d1, jobs d1 = jobs d ->
            exists s', job_status d1 job_id = Some s'
                       /\ (s' = s \/ s' = "assigned" \/ s' = "confirmed")).
  { intros d1 E. exists s. rewrite (job_status_same d d1) by exact E. auto. }
  assert (Hupd : forall d1 k f v,
            (forall r, Job.id (f r) = Job.id r) ->
            (forall r, Job.status (f r) = v) ->
            v = "assigned" \/ v = "confirmed" ->
            jobs d1 = update k f (jobs d) ->
            exists s', job_status d1 job_id = Some s'
                       /\ (s' = s \/ s' = "assigned" \/ s' = "confirmed")).
  { intros d1 k f v Hid Hst Hv E.
    rewrite (job_status_update d d1 k f) by assumption.
    destruct (job_id =? k)%nat; [|eauto].
    unfold job_status in Hs.
    destruct (get job_id (jobs d)) as [j|]; [|discriminate].
    cbn. rewrite Hst. exists v. split; [reflexivity|tauto]. }
  destruct Ht; try (apply Hkeep; reflexivity).
  - exists s. split; [|auto]. unfold job_status in *. cbn [jobs with_jobs].
    destruct (get job_id (jobs d)) as [j|] eqn:E; [|discriminate].
    rewrite (get_add_Some _ _ _ _ E). exact Hs.
  - apply Hkeep. apply after_view_jobs.
  - apply (Hupd _ (ChangeRequest.job_id cr) (accepted_job cr) "assigned");
      auto using accepted_job_id.
  - apply (Hupd _ job_id0 (Job.set_status "assigned") "assigned"); auto.
  - destruct (Assignment.accepted_by_farmer a) eqn:Hacc.
    + apply (Hupd _ (Assignment.job_id a) (Job.set_status "confirmed")
               "confirmed"); auto.
      unfold after_confirm. rewrite Hacc. reflexivity.
    + apply Hkeep. unfold after_confirm. rewrite Hacc. reflexivity.
Qed.

(** Only a labourer's confirmation of an assignment that the farmer has
    accepted writes the status confirmed. *)
Lemma transition_into_confirmed d r d' job_id :
  transition d r d' ->
  job_status d' job_id = Some "confirmed" ->
  job_status d job_id <> Some "confirmed" ->
  exists uid assign_id u a,
    r = ConfirmAssignment uid assign_id
    /\ acting d uid = Some u
    /\ get assign_id (assignments d) = Some a
    /\ Assignment.labour_id a = User.id u
    /\ Assignment.job_id a = job_id
    /\ Assignment.accepted_by_farmer a = true
    /\ d' = after_confirm a d.
Proof.
  intros Ht Hc Hn.
  assert (Hkeep : forall d1, jobs d1 = jobs d ->
            job_status d1 job_id = Some "confirmed" -> False).
  { intros d1 E. rewrite (job_status_same d d1) by exact E. exact Hn. }
  assert (Hupd : forall d1 k f,
            (forall r, Job.id (f r) = Job.id r) ->
            (forall r, Job.status (f r) = "assigned") ->
            jobs d1 = update k f (jobs d) ->
            job_status d1 job_id = Some "confirmed" -> False).
  { intros d1 k f Hid Hst E.
    rewrite (job_status_update d d1 k f) by assumption.
    destruct (job_id =? k)%nat; [|exact Hn].
    destruct (get job_id (jobs d)) as [j|]; cbn; [|discriminate].
    rewrite Hst. discriminate. }
  destruct Ht;
    try (exfalso;
         match type of Hc with
         | job_status ?d1 _ = _ => exact (Hkeep d1 eq_refl Hc)
         end).
  - exfalso. unfold job_status in *. cbn [jobs with_jobs] in Hc.
    rewrite get_add in Hc.
    destruct (get job_id (jobs d)) as [j|]; [exact (Hn Hc)|].
    destruct (_ =? job_id)%nat; discriminate.
  - exfalso. exact (Hkeep _ (after_view_jobs _ _ _) Hc).
  - exfalso.
    apply (Hupd (after_accept cr d) (ChangeRequest.job_id cr)
             (accepted_job cr)
             (accepted_job_id cr) (accepted_job_status cr) eq_refl Hc).
  - exfalso.
    apply (Hupd (after_assign job_id0 labour_id d) job_id0
             (Job.set_status "assigned")
             (fun _ => eq_refl) (fun _ => eq_refl) eq_refl Hc).
  - destruct (Assignment.accepted_by_farmer a) eqn:Hacc.
    + exists uid, assign_id, u, a. repeat split; auto.
      rewrite (job_status_update d _ (Assignment.job_id a)
                 (Job.set_status "confirmed")) in Hc;
        [|reflexivity|unfold after_confirm; rewrite Hacc; reflexivity].
      destruct (Nat.eqb_spec job_id (Assignment.job_id a)); [auto|].
      contradiction.
    + exfalso. apply (Hkeep (after_confirm a d)); [|exact Hc].
      unfold after_confirm. rewrite Hacc. reflexivity.
Qed.

Lemma transition_status_listed d r d' :
  transition d r d' ->
  (forall j, In j (jobs d) -> status_listed (Job.status j)) ->
  forall j, In j (jobs d') -> status_listed (Job.status j).
Proof.
  unfold status_listed.
  intros Ht IH.
  assert (Hupd : forall k f v,
            (forall r, Job.status (f r) = v) ->
            v = "assigned" \/ v = "confirmed" ->
            forall j, In j (update k f (jobs d)) ->
            status_listed (Job.status j)).
  { intros k f v Hst Hv j HIn. unfold status_listed.
    apply In_update in HIn as [j0 [HIn ->]].
    destruct (pk j0 =? k)%nat; [rewrite Hst; tauto|apply IH; exact HIn]. }
  destruct Ht; intros j0 HIn; try (apply IH; exact HIn).
  - cbn [jobs with_jobs] in HIn. apply In_add in HIn as [HIn| ->];
      [apply IH; exact HIn|cbn; auto].
  - rewrite after_view_jobs in HIn. apply IH; exact HIn.
  - apply (Hupd (ChangeRequest.job_id cr) (accepted_job cr) "assigned");
      auto.
  - apply (Hupd job_id (Job.set_status "assigned") "assigned"); auto.
  - cbn [jobs after_confirm] in HIn.
    destruct (Assignment.accepted_by_farmer a); [|apply IH; exact HIn].
    apply (Hupd (Assignment.job_id a) (Job.set_status "confirmed")
             "confirmed"); auto.
Qed.

Lemma governed_accepted_for d d' j l job_id :
  assignments d' = accepted_for j l (assignments d) ->
  governed d job_id -> governed d' job_id.
Proof.
  unfold governed. intros E [a [HIn [Hj [Hacc Hconf]]]]. rewrite E.
  unfold accepted_for. destruct (first_by _ (assignments d)) as [x|].
  - exists (if (pk a =? Assignment.id x)%nat
            then Assignment.set_accepted_by_farmer true a else a).
    split; [apply (In_update_intro _ _ _ _ HIn)|].
    destruct (pk a =? Assignment.id x)%nat; cbn; auto.
  - exists a. split; [apply In_add; auto|auto].
Qed.

Lemma governed_same d d' job_id :
  assignments d' = assignments d -> governed d job_id -> governed d' job_id.
Proof. unfold governed. intros ->. auto. Qed.

Lemma transition_governed d r d' :
  transition d r d' ->
  (forall j, In j (jobs d) -> Job.status j = "confirmed" ->
             governed d (Job.id j)) ->
  forall j, In j (jobs d') -> Job.status j = "confirmed" ->
            governed d' (Job.id j).
Proof.
  intros Ht IH.
  assert (Hupd : forall d1 k f j l,
            (forall r, Job.id (f r) = Job.id r) ->
            (forall r, Job.status (f r) = "assigned") ->
            jobs d1 = update k f (jobs d) ->
            assignments d1 = accepted_for j l (assignments d) ->
            forall j0, In j0 (jobs d1) -> Job.status j0 = "confirmed" ->
                       governed d1 (Job.id j0)).
  { intros d1 k f j l Hid Hst Ej Ea j0 HIn Hc.
    rewrite Ej in HIn. apply In_update in HIn as [j1 [HIn ->]].
    destruct (pk j1 =? k)%nat; [rewrite Hst in Hc; discriminate|].
    apply (governed_accepted_for d d1 j l _ Ea). apply IH; assumption. }
  destruct Ht; intros j0 HIn Hc;
    try (apply (governed_same d); [reflexivity|apply IH; assumption]).
  - cbn [jobs with_jobs] in HIn. apply In_add in HIn as [HIn| ->];
      [|discriminate].
    apply (governed_same d); [reflexivity|apply IH; assumption].
  - rewrite after_view_jobs in HIn.
    apply (governed_same d); [apply after_view_assignments|].
    apply IH; assumption.
  - apply (Hupd _ (ChangeRequest.job_id cr) (accepted_job cr)
             (ChangeRequest.job_id cr) (ChangeRequest.labour_id cr));
      auto using accepted_job_id.
  - apply (Hupd _ job_id (Job.set_status "assigned") job_id labour_id); auto.
  - pose proof (get_In _ _ _ H1) as [HaIn Hapk].
    assert (Hold : forall j1, In j1 (jobs d) -> Job.status j1 = "confirmed" ->
              governed (after_confirm a d) (Job.id j1)).
    { intros j1 HIn1 Hc1. destruct (IH j1 HIn1 Hc1) as [b [HbIn [Hbj [Hba Hbc]]]].
      exists (if (pk b =? Assignment.id a)%nat
              then Assignment.set_confirmed_by_labour true b else b).
      split; [apply (In_update_intro _ _ _ _ HbIn)|].
      destruct (pk b =? Assignment.id a)%nat; cbn; auto. }
    cbn [jobs after_confirm] in HIn.
    destruct (Assignment.accepted_by_farmer a) eqn:Hacc; [|auto].
    apply In_update in HIn as [j1 [HIn ->]].
    destruct (Nat.eqb_spec (pk j1) (Assignment.job_id a)) as [Ek|Ek];
      [|auto].
    exists (Assignment.set_confirmed_by_labour true a).
    split; [|cbn; auto].
    cbn [assignments after_confirm].
    pose proof (In_update_intro (Assignment.id a)
      (Assignment.set_confirmed_by_labour true) _ _ HaIn) as Hin.
    cbn [pk Assignment_Model] in Hin. rewrite Nat.eqb_refl in Hin. exact Hin.
Qed.

(** ** Deciding a change request *)

Lemma first_by_filter_nil {R} (p : R -> bool) t :
  filter p t = [] -> first_by p t = None.
Proof.
  unfold first_by. induction t as [|x t IH]; simpl; [reflexivity|].
  destruct (p x); [discriminate|exact IH].
Qed.

Lemma accepted_for_head j l t :
  exists a rest,
    filter (assignment_of j l) (accepted_for j l t) = a :: rest
    /\ Assignment.accepted_by_farmer a = true.
Proof.
  unfold accepted_for.
  destruct (first_by (assignment_of j l) t) as [a|] eqn:E.
  - destruct (first_by_Some_filter _ _ _ E) as [rest Hf].
    rewrite filter_update by apply assignment_of_set_accepted.
    rewrite Hf. unfold update. simpl map.
    eexists. eexists. split; [rewrite Nat.eqb_refl; reflexivity|reflexivity].
  - rewrite filter_add, (first_by_None_filter _ _ E).
    assert (Hp : assignment_of j l
                   (Assignment.mk (next_pk t) j l true false) = true)
      by (apply assignment_of_eq; auto).
    rewrite Hp. eexists. eexists. split; reflexivity.
Qed.

Lemma accepted_for_created j l t :
  filter (assignment_of j l) t = [] ->
  accepted_for j l t = t ++ [Assignment.mk (next_pk t) j l true false].
Proof.
  intros E. unfold accepted_for. rewrite (first_by_filter_nil _ _ E).
  reflexivity.
Qed.

Lemma accepted_for_updated j l t :
  filter (assignment_of j l) t <> [] ->
  List.length (accepted_for j l t) = List.length t.
Proof.
  intros E. unfold accepted_for.
  destruct (first_by (assignment_of j l) t) as [a|] eqn:Ef.
  - apply update_length.
  - apply first_by_None_filter in Ef. contradiction.
Qed.

Lemma change_status_decided cr v change_id t :
  get change_id t = Some cr ->
  option_map ChangeRequest.status
    (get change_id (update (ChangeRequest.id cr) (ChangeRequest.set_status v) t))
  = Some v.
Proof.
  intros E. rewrite get_update, E by reflexivity.
  apply get_In in E as [_ Hpk]. cbn [pk ChangeRequest_Model] in *.
  cbn [option_map]. rewrite Nat.eqb_refl. reflexivity.
Qed.

(** C1.  A farmer accepts a pending change request.  When the request's job
    exists, the committed state has all four effects together: the request
    is accepted; the assignment of the (job, labourer) pair exists with
    [accepted_by_farmer] set, created if the pair had none and otherwise
    updated in place; the job carries exactly the truthy overrides among
    days, wage and stay, every other field as before; and the job's status
    is assigned.  When the job does not exist nothing at all is committed:
    no state with only some of the effects is ever observable. *)
Theorem decide_accept_effects d uid u change_id cr :
  acting d uid = Some u -> User.role u = "farmer" ->
  get change_id (changes d) = Some cr ->
  ChangeRequest.status cr = "pending" ->
  let job_id := ChangeRequest.job_id cr in
  let labour_id := ChangeRequest.labour_id cr in
  let d' := step d (DecideChange uid change_id (Some "accept")) in
  (forall j, get job_id (jobs d) = Some j ->
     change_status d' change_id = Some "accepted"
     /\ (exists a rest,
           assignments_for d' job_id labour_id = a :: rest
           /\ Assignment.accepted_by_farmer a = true)
     /\ (assignments_for d job_id labour_id = [] ->
         assignments d'
         = assignments d
           ++ [Assignment.mk (next_pk (assignments d)) job_id labour_id
                             true false])
     /\ (assignments_for d job_id labour_id <> [] ->
         List.length (assignments d') = List.length (assignments d))
     /\ (exists j',
           get job_id (jobs d') = Some j'
           /\ Job.status j' = "assigned"
           /\ Job.days j'
              = match ChangeRequest.requested_days cr with
                | Some v => if Z.eqb v 0 then Job.days j else v
                | None => Job.days j
                end
           /\ Job.wage j'
              = (if Py.truthy_str (ChangeRequest.requested_wage cr)
                 then ChangeRequest.requested_wage cr else Job.wage j)
           /\ Job.stay_info j'
              = (if Py.truthy_str (ChangeRequest.requested_stay cr)
                 then ChangeRequest.requested_stay cr else Job.stay_info j)
           /\ Job.id j' = Job.id j
           /\ Job.farmer_id j' = Job.farmer_id j
           /\ Job.title j' = Job.title j
           /\ Job.work_type j' = Job.work_type j
           /\ Job.location j' = Job.location j
           /\ Job.contact j' = Job.contact j))
  /\ (get job_id (jobs d) = None -> d' = d).
Proof.
  intros Hu Hrole Hcr _ job_id labour_id d'. subst job_id labour_id d'.
  unfold step. cbn [route]. split.
  - intros j Hj.
    rewrite (decide_accept_run d uid u Hu Hrole change_id (Some "accept")
               cr j Hcr eq_refl Hj).
    cbn [fst]. unfold change_status, assignments_for.
    cbn [changes assignments jobs after_accept].
    split; [apply change_status_decided; exact Hcr|].
    split; [apply accepted_for_head|].
    split; [apply accepted_for_created|].
    split; [apply accepted_for_updated|].
    exists (accepted_job cr j). split.
    + rewrite get_update_at, Nat.eqb_refl, Hj by apply accepted_job_id.
      reflexivity.
    + unfold accepted_job, override_stay, override_wage, override_days.
      destruct (ChangeRequest.requested_days cr) as [v|];
        [cbn [Py.truthy_int]; destruct (Z.eqb v 0)|];
      (destruct (ChangeRequest.requested_wage cr) as [w|];
        [destruct (Py.truthy_str (Some w))|]);
      (destruct (ChangeRequest.requested_stay cr) as [x|];
        [destruct (Py.truthy_str (Some x))|]);
      cbn; repeat split; reflexivity.
  - intros Hj.
    rewrite (decide_accept_nojob_run d uid u Hu Hrole change_id
               (Some "accept") cr Hcr eq_refl Hj).
    reflexivity.
Qed.

Lemma get_update_other {R} `{Model R} k (f : R -> R) (t : list R) j :
  (forall r, pk (f r) = pk r) ->
  j <> k -> get j (update k f t) = get j t.
Proof.
  intros Hpk Hne. rewrite get_update by exact Hpk.
  destruct (get j t) as [r|] eqn:E; [|reflexivity].
  apply get_In in E as [_ Er]. cbn [option_map].
  destruct (Nat.eqb_spec (pk r) k); [congruence|reflexivity].
Qed.

Lemma get_update_hit {R} `{Model R} (f : R -> R) (t : list R) j r :
  (forall r, pk (f r) = pk r) ->
  get j t = Some r -> get j (update (pk r) f t) = Some (f r).
Proof.
  intros Hpk E. rewrite get_update, E by exact Hpk.
  cbn [option_map]. rewrite Nat.eqb_refl. reflexivity.
Qed.

(** ** The run, step by step *)

Lemma scenario_reachable :
  reachable registered /\ reachable posted /\ reachable viewed
  /\ reachable requested /\ reachable accepted /\ reachable confirmed.
Proof.
  assert (H1 : reachable registered) by apply reachable_run.
  assert (H2 : reachable posted) by (apply reachable_step; exact H1).
  assert (H3 : reachable viewed) by (apply reachable_step; exact H2).
  assert (H4 : reachable requested) by (apply reachable_step; exact H3).
  assert (H5 : reachable accepted) by (apply reachable_step; exact H4).
  assert (H6 : reachable confirmed) by (apply reachable_step; exact H5).
  tauto.
Qed.

Example scenario_end :
  confirmed
  = mkDB [user_F; user_L]
         [Job.mk 1 1 "Harvest" None 5 None (Some "500/day") None None
                 "confirmed"]
         [ViewNotification.mk 1 1 2 false]
         [change_1 "accepted"]
         [assignment_1 true].
Proof. reflexivity. Qed.

Lemma decide_accept_effects_witness :
  change_status (step requested (DecideChange (Some 1) 1 (Some "accept"))) 1
  = Some "accepted".
Proof.
  assert (Hu : acting requested (Some 1) = Some user_F) by reflexivity.
  assert (Hrole : User.role user_F = "farmer") by reflexivity.
  assert (Hcr : get 1 (changes requested) = Some (change_1 "pending"))
    by reflexivity.
  assert (Hst : ChangeRequest.status (change_1 "pending") = "pending")
    by reflexivity.
  assert (Hj : get 1 (jobs requested) = Some job_1) by reflexivity.
  exact (proj1 (proj1 (decide_accept_effects requested (Some 1) user_F 1
                         (change_1 "pending") Hu Hrole Hcr Hst) job_1 Hj)).
Defined.

(** C7.  A farmer rejects a pending change request: the request's row
    becomes the same row with status rejected, and nothing else changes: no
    job, no assignment, no user, no view, no other change request. *)
Theorem decide_reject_frame d uid u change_id cr :
  acting d uid = Some u -> User.role u = "farmer" ->
  get change_id (changes d) = Some cr ->
  ChangeRequest.status cr = "pending" ->
  let d' := step d (DecideChange uid change_id (Some "reject")) in
  get change_id (changes d') = Some (ChangeRequest.set_status "rejected" cr)
  /\ change_status d' change_id = Some "rejected"
  /\ jobs d' = jobs d
  /\ assignments d' = assignments d
  /\ users d' = users d
  /\ views d' = views d
  /\ (forall k, k <> change_id -> get k (changes d') = get k (changes d)).
Proof.
  intros Hu Hrole Hcr _ d'. subst d'. unfold step. cbn [route].
  rewrite (decide_reject_run d uid u Hu Hrole change_id (Some "reject") cr
             Hcr eq_refl).
  cbn [fst]. unfold change_status, after_reject.
  cbn [changes jobs assignments users views with_changes].
  pose proof (get_In _ _ _ Hcr) as [_ Hpk]. cbn [pk ChangeRequest_Model] in Hpk.
  assert (Hrow : get change_id
            (update (ChangeRequest.id cr) (ChangeRequest.set_status "rejected")
                    (changes d))
          = Some (ChangeRequest.set_status "rejected" cr)).
  { exact (get_update_hit (ChangeRequest.set_status "rejected")
             (changes d) change_id cr (fun _ => eq_refl) Hcr). }
  rewrite Hrow. repeat split.
  intros k Hk. apply get_update_other; [reflexivity|congruence].
Qed.

Lemma decide_reject_frame_witness :
  jobs (step requested (DecideChange (Some 1) 1 (Some "reject")))
  = jobs requested
  /\ assignments (step requested (DecideChange (Some 1) 1 (Some "reject")))
     = assignments requested.
Proof.
  assert (Hu : acting requested (Some 1) = Some user_F) by reflexivity.
  assert (Hrole : User.role user_F = "farmer") by reflexivity.
  assert (Hcr : get 1 (changes requested) = Some (change_1 "pending"))
    by reflexivity.
  assert (Hst : ChangeRequest.status (change_1 "pending") = "pending")
    by reflexivity.
  pose proof (decide_reject_frame requested (Some 1) user_F 1
                (change_1 "pending") Hu Hrole Hcr Hst) as H.
  split; [exact (proj1 (proj2 (proj2 H)))
         |exact (proj1 (proj2 (proj2 (proj2 H))))].
Defined.

(** C6, as the code has it.  Deciding a change request that does not exist
    ends in a 404 and writes nothing.  A request that exists is decided
    whatever its current status, pending, accepted or rejected alike.  Any
    decision other than accept answers with the redirect of a rejection,
    makes the request's row the same row with status rejected and changes
    nothing else: no job, no assignment, no user, no view, no other change
    request.  Accept, the job existing, answers with the redirect of an
    acceptance and has all the effects of accepting a pending request: the
    request is accepted, the assignment of the pair exists with the
    farmer's flag, created or updated in place, the job carries the truthy
    overrides and its status is assigned.  Accept, the job missing, ends in
    the error of the dereferenced [None] with nothing committed. *)
Theorem decide_ignores_status d uid u change_id :
  acting d uid = Some u -> User.role u = "farmer" ->
  (get change_id (changes d) = None ->
   forall decision,
     serve (decide_change uid change_id decision) d = (d, NotFound))
  /\ (forall cr decision,
        get change_id (changes d) = Some cr ->
        is_accept decision = false ->
        let d' := step d (DecideChange uid change_id decision) in
        snd (serve (decide_change uid change_id decision) d)
        = Redirect "farmer_dashboard" (Some "Change request rejected.")
        /\ get change_id (changes d')
           = Some (ChangeRequest.set_status "rejected" cr)
        /\ change_status d' change_id = Some "rejected"
        /\ jobs d' = jobs d
        /\ assignments d' = assignments d
        /\ users d' = users d
        /\ views d' = views d
        /\ (forall k, k <> change_id ->
                      get k (changes d') = get k (changes d)))
  /\ (forall cr decision,
        get change_id (changes d) = Some cr ->
        is_accept decision = true ->
        let job_id := ChangeRequest.job_id cr in
        let labour_id := ChangeRequest.labour_id cr in
        let d' := step d (DecideChange uid change_id decision) in
        (forall j, get job_id (jobs d) = Some j ->
           snd (serve (decide_change uid change_id decision) d)
           = Redirect "farmer_dashboard"
               (Some "Change accepted and labour assigned (awaiting labour confirmation).")
           /\ change_status d' change_id = Some "accepted"
           /\ (exists a rest,
                 assignments_for d' job_id labour_id = a :: rest
                 /\ Assignment.accepted_by_farmer a = true)
           /\ (assignments_for d job_id labour_id = [] ->
               assignments d'
               = assignments d
                 ++ [Assignment.mk (next_pk (assignments d)) job_id labour_id
                                   true false])
           /\ (assignments_for d job_id labour_id <> [] ->
               List.length (assignments d') = List.length (assignments d))
           /\ (exists j',
                 get job_id (jobs d') = Some j'
                 /\ Job.status j' = "assigned"
                 /\ Job.days j'
                    = match ChangeRequest.requested_days cr with
                      | Some v => if Z.eqb v 0 then Job.days j else v
                      | None => Job.days j
                      end
                 /\ Job.wage j'
                    = (if Py.truthy_str (ChangeRequest.requested_wage cr)
                       then ChangeRequest.requested_wage cr else Job.wage j)
                 /\ Job.stay_info j'
                    = (if Py.truthy_str (ChangeRequest.requested_stay cr)
                       then ChangeRequest.requested_stay cr
                       else Job.stay_info j)
                 /\ Job.id j' = Job.id j
                 /\ Job.farmer_id j' = Job.farmer_id j
                 /\ Job.title j' = Job.title j
                 /\ Job.work_type j' = Job.work_type j
                 /\ Job.location j' = Job.location j
                 /\ Job.contact j' = Job.contact j))
        /\ (get job_id (jobs d) = None ->
            serve (decide_change uid change_id decision) d
            = (d, NoneDereference)
            /\ d' = d)).
Proof.
  intros Hu Hrole. split; [|split].
  - intros Hcr decision. apply (decide_missing_run d uid u Hu Hrole). exact Hcr.
  - intros cr decision Hcr Hdec d'. subst d'. unfold step. cbn [route].
    rewrite (decide_reject_run d uid u Hu Hrole change_id decision cr Hcr Hdec).
    cbn [fst snd]. unfold change_status, after_reject.
    cbn [changes jobs assignments users views with_changes].
    pose proof (get_In _ _ _ Hcr) as [_ Hpk].
    cbn [pk ChangeRequest_Model] in Hpk.
    assert (Hrow : get change_id
              (update (ChangeRequest.id cr)
                      (ChangeRequest.set_status "rejected") (changes d))
            = Some (ChangeRequest.set_status "rejected" cr)).
    { exact (get_update_hit (ChangeRequest.set_status "rejected")
               (changes d) change_id cr (fun _ => eq_refl) Hcr). }
    rewrite Hrow. repeat split.
    intros k Hk. apply get_update_other; [reflexivity|congruence].
  - intros cr decision Hcr Hdec job_id labour_id d'.
    subst job_id labour_id d'. unfold step. cbn [route]. split.
    + intros j Hj.
      rewrite (decide_accept_run d uid u Hu Hrole change_id decision
                 cr j Hcr Hdec Hj).
      cbn [fst snd]. unfold change_status, assignments_for.
      cbn [changes assignments jobs after_accept].
      split; [reflexivity|].
      split; [apply change_status_decided; exact Hcr|].
      split; [apply accepted_for_head|].
      split; [apply accepted_for_created|].
      split; [apply accepted_for_updated|].
      exists (accepted_job cr j). split.
      * rewrite get_update_at, Nat.eqb_refl, Hj by apply accepted_job_id.
        reflexivity.
      * unfold accepted_job, override_stay, override_wage, override_days.
        destruct (ChangeRequest.requested_days cr) as [v|];
          [cbn [Py.truthy_int]; destruct (Z.eqb v 0)|];
        (destruct (ChangeRequest.requested_wage cr) as [w|];
          [destruct (Py.truthy_str (Some w))|]);
        (destruct (ChangeRequest.requested_stay cr) as [x|];
          [destruct (Py.truthy_str (Some x))|]);
        cbn; repeat split; reflexivity.
    + intros Hj.
      rewrite (decide_accept_nojob_run d uid u Hu Hrole change_id
                 decision cr Hcr Hdec Hj).
      split; reflexivity.
Qed.

Lemma decide_ignores_status_witness :
  jobs (step accepted (DecideChange (Some 1) 1 (Some "reject")))
  = jobs accepted
  /\ change_status (step accepted (DecideChange (Some 1) 1 (Some "reject"))) 1
     = Some "rejected"
  /\ change_status (step confirmed (DecideChange (Some 1) 1 (Some "accept"))) 1
     = Some "accepted".
Proof.
  assert (Hu : acting accepted (Some 1) = Some user_F) by reflexivity.
  assert (Hrole : User.role user_F = "farmer") by reflexivity.
  assert (Hcr : get 1 (changes accepted) = Some (change_1 "accepted"))
    by reflexivity.
  assert (Hdec : is_accept (Some "reject") = false) by reflexivity.
  pose proof (proj1 (proj2 (decide_ignores_status accepted (Some 1) user_F 1
                              Hu Hrole))
                    (change_1 "accepted") (Some "reject") Hcr Hdec) as Hrej.
  assert (Hu' : acting confirmed (Some 1) = Some user_F) by reflexivity.
  assert (Hcr' : get 1 (changes confirmed) = Some (change_1 "accepted"))
    by reflexivity.
  assert (Hj' : get 1 (jobs confirmed)
                = Some (Job.mk 1 1 "Harvest" None 5 None (Some "500/day")
                               None None "confirmed")) by reflexivity.
  pose proof (proj1 (proj2 (proj2 (decide_ignores_status confirmed (Some 1)
                                     user_F 1 Hu' Hrole))
                           (change_1 "accepted") (Some "accept") Hcr' eq_refl)
                    _ Hj') as Hacc.
  split; [exact (proj1 (proj2 (proj2 (proj2 Hrej))))|].
  split; [exact (proj1 (proj2 (proj2 Hrej)))|].
  exact (proj1 (proj2 Hacc)).
Defined.

(** C6, as stated, fails: request 1 is accepted, the farmer then rejects it,
    and instead of an error the route answers with its usual redirect and
    the resolved request now reads rejected.  Likewise a rejected request
    is accepted afterwards, with the assignment created and the job
    assigned. *)
Lemma resolved_request_decided_again :
  reachable accepted
  /\ change_status accepted 1 = Some "accepted"
  /\ snd (serve (decide_change (Some 1) 1 (Some "reject")) accepted)
     = Redirect "farmer_dashboard" (Some "Change request rejected.")
  /\ change_status (step accepted (DecideChange (Some 1) 1 (Some "reject"))) 1
     = Some "rejected"
  /\ change_status (step requested (DecideChange (Some 1) 1 (Some "reject"))) 1
     = Some "rejected"
  /\ snd (serve (decide_change (Some 1) 1 (Some "accept"))
                (step requested (DecideChange (Some 1) 1 (Some "reject"))))
     = Redirect "farmer_dashboard"
         (Some "Change accepted and labour assigned (awaiting labour confirmation).")
  /\ run requested [DecideChange (Some 1) 1 (Some "reject");
                    DecideChange (Some 1) 1 (Some "accept")]
     = accepted.
Proof.
  split; [apply scenario_reachable|].
  repeat split.
Qed.

(** ** Confirming an assignment *)

(** The labourer of an accepted assignment confirms it. *)
Lemma confirm_accepted_run d uid u assign_id a j :
  acting d uid = Some u -> User.role u = "labour" ->
  get assign_id (assignments d) = Some a ->
  Assignment.labour_id a = User.id u ->
  Assignment.accepted_by_farmer a = true ->
  get (Assignment.job_id a) (jobs d) = Some j ->
  let d' := step d (ConfirmAssignment uid assign_id) in
  get assign_id (assignments d')
  = Some (Assignment.set_confirmed_by_labour true a)
  /\ job_status d' (Assignment.job_id a) = Some "confirmed".
Proof.
  intros Hu Hrole Ha He Hacc Hj d'. subst d'. unfold step. cbn [route].
  rewrite (confirm_run d uid u Hu Hrole assign_id a Ha).
  rewrite He, Nat.eqb_refl, Hacc, Hj. cbn [negb fst]. split.
  - cbn [assignments after_confirm].
    exact (get_update_hit (Assignment.set_confirmed_by_labour true)
             (assignments d) assign_id a (fun _ => eq_refl) Ha).
  - rewrite (job_status_update d _ (Assignment.job_id a)
               (Job.set_status "confirmed"));
      [|reflexivity|unfold after_confirm; rewrite Hacc; reflexivity].
    rewrite Nat.eqb_refl, Hj. reflexivity.
Qed.

(** C2.  A labourer confirms an assignment.  If the assignment is another
    labourer's the answer is Forbidden and nothing is written.  Otherwise
    [confirmed_by_labour] is set, and the job's status becomes confirmed
    exactly when [accepted_by_farmer] is set as well.  No other request ever
    turns a job's status into confirmed, and after the one that does, the
    assignment carries both flags. *)
Theorem confirm_handshake d uid u assign_id a :
  acting d uid = Some u -> User.role u = "labour" ->
  get assign_id (assignments d) = Some a ->
  let d' := step d (ConfirmAssignment uid assign_id) in
  (Assignment.labour_id a <> User.id u ->
   serve (confirm_assignment uid assign_id) d = (d, Forbidden))
  /\ (Assignment.labour_id a = User.id u ->
      (Assignment.accepted_by_farmer a = false ->
       get assign_id (assignments d')
       = Some (Assignment.set_confirmed_by_labour true a)
       /\ jobs d' = jobs d)
      /\ (Assignment.accepted_by_farmer a = true ->
          forall j, get (Assignment.job_id a) (jobs d) = Some j ->
          get assign_id (assignments d')
          = Some (Assignment.set_confirmed_by_labour true a)
          /\ job_status d' (Assignment.job_id a) = Some "confirmed"))
  /\ (forall d0 r job_id,
        job_status (step d0 r) job_id = Some "confirmed" ->
        job_status d0 job_id <> Some "confirmed" ->
        exists uid0 assign_id0 a0,
          r = ConfirmAssignment uid0 assign_id0
          /\ get assign_id0 (assignments d0) = Some a0
          /\ Assignment.job_id a0 = job_id
          /\ Assignment.accepted_by_farmer a0 = true
          /\ get assign_id0 (assignments (step d0 r))
             = Some (Assignment.set_confirmed_by_labour true a0)).
Proof.
  intros Hu Hrole Ha d'. subst d'.
  assert (Hrow : forall d1 a1 k,
            get k (assignments d1) = Some a1 ->
            get k (assignments (after_confirm a1 d1))
            = Some (Assignment.set_confirmed_by_labour true a1)).
  { intros d1 a1 k E. cbn [assignments after_confirm].
    exact (get_update_hit (Assignment.set_confirmed_by_labour true)
             (assignments d1) k a1 (fun _ => eq_refl) E). }
  split; [|split].
  - intros Hne. rewrite (confirm_run d uid u Hu Hrole assign_id a Ha).
    destruct (Nat.eqb_spec (Assignment.labour_id a) (User.id u));
      [contradiction|reflexivity].
  - intros He. split.
    + intros Hacc. unfold step. cbn [route].
      rewrite (confirm_run d uid u Hu Hrole assign_id a Ha).
      rewrite He, Nat.eqb_refl, Hacc. cbn [negb fst].
      split; [apply Hrow; exact Ha|].
      unfold after_confirm. rewrite Hacc. reflexivity.
    + intros Hacc j Hj.
      exact (confirm_accepted_run d uid u assign_id a j
               Hu Hrole Ha He Hacc Hj).
  - intros d0 r job_id Hc Hn.
    destruct (transition_into_confirmed d0 r (step d0 r) job_id
                (step_transition d0 r) Hc Hn)
      as [uid0 [k [u0 [a0 [Er [_ [Ea [_ [Ej [Hacc Ed]]]]]]]]]].
    exists uid0, k, a0. repeat split; auto.
    rewrite Ed. apply Hrow. exact Ea.
Qed.

Lemma confirm_handshake_witness :
  job_status (step accepted (ConfirmAssignment (Some 2) 1)) 1
  = Some "confirmed".
Proof.
  assert (Hu : acting accepted (Some 2) = Some user_L) by reflexivity.
  assert (Hrole : User.role user_L = "labour") by reflexivity.
  assert (Ha : get 1 (assignments accepted) = Some (assignment_1 false))
    by reflexivity.
  assert (Hj : get 1 (jobs accepted)
               = Some (Job.mk 1 1 "Harvest" None 5 None (Some "500/day")
                              None None "assigned")) by reflexivity.
  exact (proj2 (proj2 (proj1 (proj2
           (confirm_handshake accepted (Some 2) user_L 1 (assignment_1 false)
              Hu Hrole Ha)) eq_refl) eq_refl _ Hj)).
Defined.

(** ** Posting a job *)

(** C8, as the code has it.  A farmer posts a job with a title.  The job is
    created with status open.  Its days are 1 when the days field is missing
    or empty, and otherwise the integer that [int()] reads from the field,
    stored as it is when it fits SQLite's 64 bits: no value is coerced.  A
    field that [int()] refuses, or an integer outside the 64 bits, creates
    nothing. *)
Theorem post_job_days d uid u form title :
  acting d uid = Some u -> User.role u = "farmer" ->
  form_title form = Some title ->
  let d' := step d (PostJob uid POST form) in
  let created n :=
    Job.mk (next_pk (jobs d)) (User.id u) title (form_work_type form) n
           (form_stay_info form) (form_wage form) (form_location form)
           (form_contact form) "open" in
  (form_days form = None \/ form_days form = Some "" ->
   jobs d' = jobs d ++ [created 1%Z])
  /\ (forall s n,
        form_days form = Some s -> s <> "" -> Py.int s = Some n ->
        sqlite_integer n = true ->
        jobs d' = jobs d ++ [created n])
  /\ (forall s,
        form_days form = Some s -> s <> "" -> Py.int s = None ->
        serve (post_job uid POST form) d = (d, Uncaught "ValueError")
        /\ d' = d)
  /\ (forall s n,
        form_days form = Some s -> s <> "" -> Py.int s = Some n ->
        sqlite_integer n = false ->
        serve (post_job uid POST form) d = (d, Uncaught "OverflowError")
        /\ d' = d).
Proof.
  intros Hu Hrole Ht d' created. subst d' created. unfold step. cbn [route].
  rewrite (post_job_run d uid u Hu Hrole form), Ht.
  assert (Hne : forall s, s <> "" -> Py.truthy_str (Some s) = true).
  { intros s Hs. unfold Py.truthy_str.
    destruct (String.eqb_spec s ""); [contradiction|reflexivity]. }
  split; [|split; [|split]].
  - intros [E|E]; rewrite E; reflexivity.
  - intros s n E Hs Hn Hfit. rewrite E. unfold days_input.
    rewrite (Hne s Hs), Hn, Hfit. reflexivity.
  - intros s E Hs Hn. rewrite E. unfold days_input.
    rewrite (Hne s Hs), Hn. split; reflexivity.
  - intros s n E Hs Hn Hfit. rewrite E. unfold days_input.
    rewrite (Hne s Hs), Hn, Hfit. split; reflexivity.
Qed.

Lemma post_job_days_witness :
  jobs (step registered (PostJob (Some 1) POST (harvest (Some "3"))))
  = jobs registered
    ++ [Job.mk 1 1 "Harvest" None 3 None (Some "500/day") None None "open"].
Proof.
  assert (Hu : acting registered (Some 1) = Some user_F) by reflexivity.
  assert (Hrole : User.role user_F = "farmer") by reflexivity.
  assert (Ht : form_title (harvest (Some "3")) = Some "Harvest")
    by reflexivity.
  assert (Hs : "3" <> "") by discriminate.
  exact (proj1 (proj2 (post_job_days registered (Some 1) user_F
                         (harvest (Some "3")) "Harvest" Hu Hrole Ht))
               "3" 3%Z eq_refl Hs eq_refl eq_refl).
Defined.

(** C8, as stated, fails: a days field of 0, or of -2, is not coerced to 1;
    the job is created with 0, or -2, days. *)
Lemma post_job_nonpositive_days :
  jobs (step registered (PostJob (Some 1) POST (harvest (Some "0"))))
  = [Job.mk 1 1 "Harvest" None 0 None (Some "500/day") None None "open"]
  /\ jobs (step registered (PostJob (Some 1) POST (harvest (Some "-2"))))
     = [Job.mk 1 1 "Harvest" None (-2) None (Some "500/day") None None "open"]
  /\ ~ (0 >= 1)%Z /\ ~ (-2 >= 1)%Z.
Proof. repeat split; lia. Qed.

(** ** Requests for a job that does not exist *)

(** C10.  [request_change] stores the request (its days, if any, fitting
    SQLite's 64 bits) whether or not the job exists, so from any reachable
    state with a labourer a request for a missing job is reachable.
    Accepting such a request, and assigning a labourer to a missing job, end
    in the [AttributeError] of a [None] job, not in a 404, and write
    nothing.  When the job exists both routes answer with their redirect. *)
Theorem missing_job_dereferenced d fid f lid l :
  acting d fid = Some f -> User.role f = "farmer" ->
  acting d lid = Some l -> User.role l = "labour" ->
  (forall job_id form days,
     requested_days_input (form_requested_days form) = Some days ->
     storable days = true ->
     let d1 := step d (RequestChange lid job_id form) in
     changes d1
     = changes d
       ++ [submitted_change l job_id days form (next_pk (changes d))]
     /\ jobs d1 = jobs d
     /\ (reachable d -> reachable d1))
  /\ (forall change_id cr decision,
        get change_id (changes d) = Some cr ->
        is_accept decision = true ->
        get (ChangeRequest.job_id cr) (jobs d) = None ->
        serve (decide_change fid change_id decision) d
        = (d, NoneDereference))
  /\ (forall job_id labour_id,
        get job_id (jobs d) = None ->
        serve (assign_labour fid job_id labour_id) d = (d, NoneDereference))
  /\ NoneDereference <> NotFound
  /\ (forall change_id cr decision j,
        get change_id (changes d) = Some cr ->
        is_accept decision = true ->
        get (ChangeRequest.job_id cr) (jobs d) = Some j ->
        snd (serve (decide_change fid change_id decision) d)
        = Redirect "farmer_dashboard"
            (Some "Change accepted and labour assigned (awaiting labour confirmation)."))
  /\ (forall job_id labour_id j,
        get job_id (jobs d) = Some j ->
        snd (serve (assign_labour fid job_id labour_id) d)
        = Redirect "farmer_dashboard"
            (Some "Labour accepted for job. Waiting for labour confirmation."))
  /\ (forall job_id,
        reachable d -> get job_id (jobs d) = None ->
        exists d1 cr,
          reachable d1
          /\ In cr (changes d1)
          /\ ChangeRequest.job_id cr = job_id
          /\ get job_id (jobs d1) = None).
Proof.
  intros Hf Hfr Hl Hlr.
  assert (Hstore : forall job_id form days,
     requested_days_input (form_requested_days form) = Some days ->
     storable days = true ->
     let d1 := step d (RequestChange lid job_id form) in
     changes d1
     = changes d
       ++ [submitted_change l job_id days form (next_pk (changes d))]
     /\ jobs d1 = jobs d
     /\ (reachable d -> reachable d1)).
  { intros job_id form days Hdays Hfit d1. subst d1. unfold step.
    cbn [route].
    rewrite (request_change_run d lid l Hl Hlr job_id form), Hdays, Hfit.
    repeat split. intros Hd.
    pose proof (reachable_step d (RequestChange lid job_id form) Hd) as Hr.
    unfold step in Hr. cbn [route] in Hr.
    rewrite (request_change_run d lid l Hl Hlr job_id form), Hdays, Hfit
      in Hr.
    exact Hr. }
  split; [exact Hstore|].
  split; [|split; [|split; [|split; [|split]]]].
  - intros change_id cr decision Hcr Hdec Hj.
    apply (decide_accept_nojob_run d fid f Hf Hfr change_id decision cr);
      assumption.
  - intros job_id labour_id Hj.
    apply (assign_nojob_run d fid f Hf Hfr); assumption.
  - discriminate.
  - intros change_id cr decision j Hcr Hdec Hj.
    rewrite (decide_accept_run d fid f Hf Hfr change_id decision cr j
               Hcr Hdec Hj). reflexivity.
  - intros job_id labour_id j Hj.
    rewrite (assign_run d fid f Hf Hfr job_id labour_id j Hj). reflexivity.
  - intros job_id Hd Hj.
    destruct (Hstore job_id (mkChangeForm None None None None) None
                eq_refl eq_refl) as [Hc [Hjobs Hreach]].
    exists (step d (RequestChange lid job_id
                      (mkChangeForm None None None None))).
    exists (submitted_change l job_id None (mkChangeForm None None None None)
              (next_pk (changes d))).
    split; [exact (Hreach Hd)|]. split.
    + rewrite Hc. apply in_or_app. right. left. reflexivity.
    + split; [reflexivity|]. rewrite Hjobs. exact Hj.
Qed.

Lemma missing_job_dereferenced_witness :
  reachable dangling
  /\ get 1 (changes dangling)
     = Some (ChangeRequest.mk 1 7 2 (Some 5%Z) None None "" "pending")
  /\ get 7 (jobs dangling) = None
  /\ serve (decide_change (Some 1) 1 (Some "accept")) dangling
     = (dangling, NoneDereference)
  /\ serve (assign_labour (Some 1) 7 2) dangling = (dangling, NoneDereference).
Proof.
  assert (Hf : acting dangling (Some 1) = Some user_F) by reflexivity.
  assert (Hfr : User.role user_F = "farmer") by reflexivity.
  assert (Hl : acting dangling (Some 2) = Some user_L) by reflexivity.
  assert (Hlr : User.role user_L = "labour") by reflexivity.
  pose proof (missing_job_dereferenced dangling (Some 1) user_F (Some 2) user_L
                Hf Hfr Hl Hlr) as [_ [Hdec [Hasg _]]].
  split; [apply reachable_step; apply scenario_reachable|].
  split; [reflexivity|]. split; [reflexivity|]. split.
  - apply (Hdec 1 (ChangeRequest.mk 1 7 2 (Some 5%Z) None None "" "pending")
             (Some "accept")); reflexivity.
  - apply Hasg. reflexivity.
Defined.

(** ** View notifications *)

Lemma first_by_add_hit {R} `{Model R} (p : R -> bool) row (t : list R) :
  p (row (next_pk t)) = true -> exists r, first_by p (add row t) = Some r.
Proof.
  intros Hp. unfold first_by, add.
  destruct (find p (t ++ [row (next_pk t)])) as [r|] eqn:E; [eauto|].
  exfalso.
  assert (Hin : In (row (next_pk t)) (t ++ [row (next_pk t)]))
    by (apply in_app_iff; simpl; auto).
  rewrite (find_none _ _ E _ Hin) in Hp. discriminate.
Qed.

Lemma after_view_twice j l d : after_view j l (after_view j l d) = after_view j l d.
Proof.
  unfold after_view.
  destruct (first_by (view_of j l) (views d)) as [v|] eqn:E.
  - rewrite E. reflexivity.
  - cbn [views with_views].
    destruct (first_by_add_hit (view_of j l)
                (fun k => ViewNotification.mk k j l false) (views d))
      as [r Hr].
    + apply view_of_eq. auto.
    + rewrite Hr. reflexivity.
Qed.

Lemma after_view_users j l d : users (after_view j l d) = users d.
Proof. unfold after_view. destruct (first_by _ (views d)); reflexivity. Qed.

Lemma acting_users d d' uid : users d' = users d -> acting d' uid = acting d uid.
Proof. unfold acting. intros ->. reflexivity. Qed.

(** C5.  Recording a view is idempotent: viewing a job a second time leaves
    the database as the first view left it.  A labourer's view of an
    existing job inserts one row when the pair has none and is a no-op when
    it has one, and in every reachable state a (job, labourer) pair has at
    most one view row. *)
Theorem job_view_idempotent :
  (forall d uid job_id,
     step (step d (JobView uid job_id)) (JobView uid job_id)
     = step d (JobView uid job_id))
  /\ (forall d uid u job_id j,
        acting d uid = Some u -> User.role u = "labour" ->
        get job_id (jobs d) = Some j ->
        (views_for d job_id (User.id u) = [] ->
         views (step d (JobView uid job_id))
         = views d
           ++ [ViewNotification.mk (next_pk (views d)) job_id (User.id u)
                                   false])
        /\ (views_for d job_id (User.id u) <> [] ->
            step d (JobView uid job_id) = d))
  /\ (forall d, reachable d ->
      forall job_id labour_id,
        List.length (views_for d job_id labour_id) <= 1).
Proof.
  split; [|split].
  - intros d uid job_id. unfold step. cbn [route]. rewrite !job_view_run.
    destruct (get job_id (jobs d)) as [j|] eqn:Hj; cbn [fst];
      [|rewrite Hj; reflexivity].
    destruct (acting d uid) as [u|] eqn:Hu; [|rewrite Hj, Hu; reflexivity].
    destruct (String.eqb (User.role u) "labour") eqn:Hr;
      [|rewrite Hj, Hu, Hr; reflexivity].
    rewrite after_view_jobs, Hj.
    rewrite (acting_users d _ uid (after_view_users _ _ d)), Hu, Hr.
    cbn [fst]. apply after_view_twice.
  - intros d uid u job_id j Hu Hrole Hj. unfold step. cbn [route].
    rewrite job_view_run, Hj, Hu, Hrole, String.eqb_refl. cbn [fst].
    unfold after_view, views_for. split.
    + intros E. rewrite (first_by_filter_nil _ _ E). reflexivity.
    + intros E. destruct (first_by _ (views d)) as [v|] eqn:Ef; [reflexivity|].
      apply first_by_None_filter in Ef. contradiction.
  - intros d Hd job_id labour_id. revert d Hd.
    apply (reachable_ind_transition
             (fun d => List.length (views_for d job_id labour_id) <= 1)).
    + simpl. lia.
    + intros d r d' _ IH Ht.
      exact (transition_views_count d r d' job_id labour_id Ht IH).
Qed.

Lemma job_view_idempotent_witness :
  views (step posted (JobView (Some 2) 1)) = [ViewNotification.mk 1 1 2 false]
  /\ step viewed (JobView (Some 2) 1) = viewed
  /\ List.length (views_for (step viewed (JobView (Some 2) 1)) 1 2) <= 1.
Proof.
  destruct job_view_idempotent as [_ [Hview Hcount]].
  assert (Hu : acting posted (Some 2) = Some user_L) by reflexivity.
  assert (Hu' : acting viewed (Some 2) = Some user_L) by reflexivity.
  assert (Hrole : User.role user_L = "labour") by reflexivity.
  assert (Hj : get 1 (jobs posted) = Some job_1) by reflexivity.
  assert (Hj' : get 1 (jobs viewed) = Some job_1) by reflexivity.
  split; [|split].
  - apply (proj1 (Hview posted (Some 2) user_L 1 job_1 Hu Hrole Hj)).
    reflexivity.
  - apply (proj2 (Hview viewed (Some 2) user_L 1 job_1 Hu' Hrole Hj')).
    discriminate.
  - apply Hcount. apply reachable_step. apply scenario_reachable.
Defined.

(** ** The assignment ledger *)

(** C4.  In every reachable state a (job, labourer) pair has at most one
    assignment row.  Both routes that accept a labourer find the pair's row
    and set its flag: when the pair has a row, direct assignment and the
    acceptance of a change request leave the number of rows as it was. *)
Theorem assignment_unique d :
  reachable d ->
  (forall job_id labour_id,
     List.length (assignments_for d job_id labour_id) <= 1)
  /\ (forall uid u job_id labour_id j,
        acting d uid = Some u -> User.role u = "farmer" ->
        get job_id (jobs d) = Some j ->
        assignments_for d job_id labour_id <> [] ->
        List.length (assignments (step d (AssignLabour uid job_id labour_id)))
        = List.length (assignments d))
  /\ (forall uid u change_id cr j,
        acting d uid = Some u -> User.role u = "farmer" ->
        get change_id (changes d) = Some cr ->
        get (ChangeRequest.job_id cr) (jobs d) = Some j ->
        assignments_for d (ChangeRequest.job_id cr)
                        (ChangeRequest.labour_id cr) <> [] ->
        List.length
          (assignments (step d (DecideChange uid change_id (Some "accept"))))
        = List.length (assignments d)).
Proof.
  intros Hd. split; [|split].
  - intros job_id labour_id. revert d Hd.
    apply (reachable_ind_transition
             (fun d => List.length (assignments_for d job_id labour_id) <= 1)).
    + simpl. lia.
    + intros d r d' _ IH Ht.
      exact (transition_assignments_count d r d' job_id labour_id Ht IH).
  - intros uid u job_id labour_id j Hu Hrole Hj Hne. unfold step. cbn [route].
    rewrite (assign_run d uid u Hu Hrole job_id labour_id j Hj).
    apply accepted_for_updated. exact Hne.
  - intros uid u change_id cr j Hu Hrole Hcr Hj Hne. unfold step. cbn [route].
    rewrite (decide_accept_run d uid u Hu Hrole change_id (Some "accept")
               cr j Hcr eq_refl Hj).
    apply accepted_for_updated. exact Hne.
Qed.

Lemma assignment_unique_witness :
  List.length
    (assignments_for (step confirmed (AssignLabour (Some 1) 1 2)) 1 2) <= 1
  /\ List.length (assignments (step confirmed (AssignLabour (Some 1) 1 2)))
     = List.length (assignments confirmed).
Proof.
  split.
  - apply assignment_unique. apply reachable_step. apply scenario_reachable.
  - apply (proj1 (proj2 (assignment_unique confirmed
                           (proj2 (proj2 (proj2 (proj2 (proj2
                              scenario_reachable)))))))
             (Some 1) user_F 1 2
             (Job.mk 1 1 "Harvest" None 5 None (Some "500/day") None None
                     "confirmed")); try reflexivity.
    discriminate.
Defined.

(** C9.  In every reachable state every assignment row has
    [accepted_by_farmer] set, and when its own labourer confirms it the
    job's status becomes confirmed. *)
Theorem accepted_flag_always d :
  reachable d ->
  forall a, In a (assignments d) ->
    Assignment.accepted_by_farmer a = true
    /\ (forall uid u,
          acting d uid = Some u -> User.role u = "labour" ->
          Assignment.labour_id a = User.id u ->
          job_status (step d (ConfirmAssignment uid (Assignment.id a)))
                     (Assignment.job_id a)
          = Some "confirmed").
Proof.
  intros Hd a HIn.
  destruct (reachable_assignment_sound d Hd a HIn) as [Hacc [j Hj]].
  split; [exact Hacc|].
  intros uid u Hu Hrole Hl.
  pose proof (get_of_In (assignments d) a
                (reachable_assignment_keys d Hd) HIn) as Ha.
  cbn [pk Assignment_Model] in Ha.
  exact (proj2 (confirm_accepted_run d uid u (Assignment.id a) a j
                  Hu Hrole Ha Hl Hacc Hj)).
Qed.

Lemma accepted_flag_always_witness :
  Assignment.accepted_by_farmer (assignment_1 false) = true
  /\ job_status (step accepted (ConfirmAssignment (Some 2) 1)) 1
     = Some "confirmed".
Proof.
  assert (Hd : reachable accepted) by apply scenario_reachable.
  assert (HIn : In (assignment_1 false) (assignments accepted))
    by (left; reflexivity).
  destruct (accepted_flag_always accepted Hd (assignment_1 false) HIn)
    as [Hacc Hconf].
  split; [exact Hacc|].
  apply (Hconf (Some 2) user_L); reflexivity.
Defined.

(** ** The job lifecycle *)

Lemma status_rank_inv s n :
  status_rank s = Some n ->
  (s = "open" /\ n = 0) \/ (s = "assigned" /\ n = 1)
  \/ (s = "confirmed" /\ n = 2).
Proof.
  unfold status_rank.
  destruct (String.eqb_spec s "open");
    [intros [= <-]; auto|].
  destruct (String.eqb_spec s "assigned");
    [intros [= <-]; auto|].
  destruct (String.eqb_spec s "confirmed");
    [intros [= <-]; auto|discriminate].
Qed.

Lemma reachable_status_listed d :
  reachable d -> forall j, In j (jobs d) -> status_listed (Job.status j).
Proof.
  revert d.
  apply (reachable_ind_transition
           (fun d => forall j, In j (jobs d) -> status_listed (Job.status j))).
  - intros j [].
  - intros d r d' _ IH Ht. exact (transition_status_listed d r d' Ht IH).
Qed.

Lemma reachable_governed d :
  reachable d ->
  forall j, In j (jobs d) -> Job.status j = "confirmed" ->
            governed d (Job.id j).
Proof.
  revert d.
  apply (reachable_ind_transition
           (fun d => forall j, In j (jobs d) -> Job.status j = "confirmed" ->
                               governed d (Job.id j))).
  - intros j [].
  - intros d r d' _ IH Ht. exact (transition_governed d r d' Ht IH).
Qed.

(** As [transition_job_status], with the request that wrote assigned. *)
Lemma transition_job_status_cause d r d' job_id s :
  transition d r d' ->
  job_status d job_id = Some s ->
  exists s', job_status d' job_id = Some s'
             /\ (s' = s
                 \/ (s' = "assigned" /\ moved_back d r job_id)
                 \/ s' = "confirmed").
Proof.
  intros Ht Hs.
  assert (Hkeep : forall d1, jobs d1 = jobs d ->
            exists s', job_status d1 job_id = Some s'
                       /\ (s' = s
                           \/ (s' = "assigned" /\ moved_back d r job_id)
                           \/ s' = "confirmed")).
  { intros d1 E. exists s. rewrite (job_status_same d d1) by exact E. auto. }
  assert (Hupd : forall d1 k f v,
            (forall x, Job.id (f x) = Job.id x) ->
            (forall x, Job.status (f x) = v) ->
            (v = "assigned" /\ (job_id = k -> moved_back d r job_id))
            \/ v = "confirmed" ->
            jobs d1 = update k f (jobs d) ->
            exists s', job_status d1 job_id = Some s'
                       /\ (s' = s
                           \/ (s' = "assigned" /\ moved_back d r job_id)
                           \/ s' = "confirmed")).
  { intros d1 k f v Hid Hst Hv E.
    rewrite (job_status_update d d1 k f) by assumption.
    destruct (Nat.eqb_spec job_id k) as [Ek|Ek]; [|eauto].
    unfold job_status in Hs.
    destruct (get job_id (jobs d)) as [j|]; [|discriminate].
    cbn. rewrite Hst. exists v. split; [reflexivity|].
    destruct Hv as [[-> Hm]| ->]; auto. }
  destruct Ht; try (apply Hkeep; reflexivity).
  - exists s. split; [|auto]. unfold job_status in *. cbn [jobs with_jobs].
    destruct (get job_id (jobs d)) as [j|] eqn:E; [|discriminate].
    rewrite (get_add_Some _ _ _ _ E). exact Hs.
  - apply Hkeep. apply after_view_jobs.
  - apply (Hupd _ (ChangeRequest.job_id cr) (accepted_job cr) "assigned");
      auto using accepted_job_id.
    left. split; [reflexivity|]. intros ->. right.
    exists uid, change_id, decision, cr. auto.
  - apply (Hupd _ job_id0 (Job.set_status "assigned") "assigned"); auto.
    left. split; [reflexivity|]. intros ->. left. eauto.
  - destruct (Assignment.accepted_by_farmer a) eqn:Hacc.
    + apply (Hupd _ (Assignment.job_id a) (Job.set_status "confirmed")
               "confirmed"); auto.
      unfold after_confirm. rewrite Hacc. reflexivity.
    + apply Hkeep. unfold after_confirm. rewrite Hacc. reflexivity.
Qed.

(** Direct assignment and the acceptance of a change request write assigned
    whatever the job's status was. *)
Lemma assigned_written d uid u job_id j :
  acting d uid = Some u -> User.role u = "farmer" ->
  get job_id (jobs d) = Some j ->
  (forall labour_id,
     job_status (step d (AssignLabour uid job_id labour_id)) job_id
     = Some "assigned")
  /\ (forall change_id decision cr,
        get change_id (changes d) = Some cr ->
        ChangeRequest.job_id cr = job_id ->
        is_accept decision = true ->
        job_status (step d (DecideChange uid change_id decision)) job_id
        = Some "assigned").
Proof.
  intros Hu Hrole Hj. split.
  - intros labour_id. unfold step. cbn [route].
    rewrite (assign_run d uid u Hu Hrole job_id labour_id j Hj). cbn [fst].
    rewrite (job_status_update d _ job_id (Job.set_status "assigned"))
      by reflexivity.
    rewrite Nat.eqb_refl, Hj. reflexivity.
  - intros change_id decision cr Hcr <- Hdec. unfold step. cbn [route].
    rewrite (decide_accept_run d uid u Hu Hrole change_id decision cr j
               Hcr Hdec Hj). cbn [fst].
    rewrite (job_status_update d _ (ChangeRequest.job_id cr) (accepted_job cr))
      by (try apply accepted_job_id; reflexivity).
    rewrite Nat.eqb_refl, Hj. reflexivity.
Qed.

(** C3, as the code has it.  In every reachable state every job's status is
    one of open, assigned, confirmed, closed.  A request never removes a job
    and moves its status forward in the order open < assigned < confirmed,
    with one exception: a confirmed job goes back to assigned, and only by a
    direct assignment to that job or by the acceptance of a change request
    for that job.  No request writes open over another status.  Those two
    requests do write assigned whatever the job's status was, confirmed
    included.  A confirmed job has an assignment with both flags set. *)
Theorem job_status_lifecycle d :
  reachable d ->
  (forall j, In j (jobs d) -> status_listed (Job.status j))
  /\ (forall r job_id s,
        job_status d job_id = Some s ->
        exists s',
          job_status (step d r) job_id = Some s'
          /\ (forall n n',
                status_rank s = Some n -> status_rank s' = Some n' ->
                n <= n'
                \/ (s = "confirmed" /\ s' = "assigned"
                    /\ moved_back d r job_id))
          /\ (s <> "open" -> s' <> "open"))
  /\ (forall uid u job_id j,
        acting d uid = Some u -> User.role u = "farmer" ->
        get job_id (jobs d) = Some j ->
        (forall labour_id,
           job_status (step d (AssignLabour uid job_id labour_id)) job_id
           = Some "assigned")
        /\ (forall change_id decision cr,
              get change_id (changes d) = Some cr ->
              ChangeRequest.job_id cr = job_id ->
              is_accept decision = true ->
              job_status (step d (DecideChange uid change_id decision)) job_id
              = Some "assigned"))
  /\ (forall j, In j (jobs d) -> Job.status j = "confirmed" ->
                governed d (Job.id j)).
Proof.
  intros Hd. split; [exact (reachable_status_listed d Hd)|].
  split; [|split; [exact (assigned_written d)|exact (reachable_governed d Hd)]].
  intros r job_id s Hs.
  destruct (transition_job_status_cause d r (step d r) job_id s
              (step_transition d r) Hs) as [s' [Hs' Hcase]].
  exists s'. split; [exact Hs'|]. split.
  - intros n n' Hn Hn'.
    destruct Hcase as [->|[[-> Hm]| ->]].
    + left. rewrite Hn in Hn'. injection Hn' as <-. lia.
    + cbn in Hn'. injection Hn' as <-.
      destruct (status_rank_inv s n Hn) as [[_ ->]|[[_ ->]|[-> _]]];
        [left; lia|left; lia|right; auto].
    + cbn in Hn'. injection Hn' as <-.
      destruct (status_rank_inv s n Hn) as [[_ ->]|[[_ ->]|[_ ->]]];
        left; lia.
  - intros Hne. destruct Hcase as [->|[[-> _]| ->]];
      [exact Hne|discriminate|discriminate].
Qed.

Lemma job_status_lifecycle_witness :
  status_listed "confirmed"
  /\ (exists s', job_status (step confirmed (AssignLabour (Some 1) 1 3)) 1
                 = Some s' /\ s' <> "open")
  /\ job_status (step confirmed (AssignLabour (Some 1) 1 3)) 1
     = Some "assigned"
  /\ governed confirmed 1.
Proof.
  assert (Hd : reachable confirmed) by apply scenario_reachable.
  destruct (job_status_lifecycle confirmed Hd)
    as [Hlisted [Hmove [Hback Hgov]]].
  assert (HIn : In (Job.mk 1 1 "Harvest" None 5 None (Some "500/day")
                           None None "confirmed") (jobs confirmed))
    by (left; reflexivity).
  split; [exact (Hlisted _ HIn)|]. split; [|split].
  - destruct (Hmove (AssignLabour (Some 1) 1 3) 1 "confirmed" eq_refl)
      as [s' [Hs' [_ Hopen]]].
    exists s'. split; [exact Hs'|]. apply Hopen. discriminate.
  - exact (proj1 (Hback (Some 1) user_F 1 _ eq_refl eq_refl eq_refl) 3).
  - exact (Hgov _ HIn eq_refl).
Defined.

(** C3, as stated, fails twice.  Job 1 is confirmed, the farmer then
    assigns labourer 3 to it, and the job's status goes back to assigned.
    Labourer 2 then confirms the own assignment again: job 1 is confirmed
    once more, while its assignment to labourer 3 lacks the labourer's
    flag, so that not every assignment of a confirmed job has both flags. *)
Lemma confirmed_job_moves_back :
  reachable confirmed
  /\ job_status confirmed 1 = Some "confirmed"
  /\ job_status (step confirmed (AssignLabour (Some 1) 1 3)) 1
     = Some "assigned"
  /\ ~ forward confirmed (AssignLabour (Some 1) 1 3)
  /\ reachable reconfirmed
  /\ job_status reconfirmed 1 = Some "confirmed"
  /\ In (Assignment.mk 2 1 3 true false) (assignments reconfirmed).
Proof.
  split; [apply scenario_reachable|].
  split; [reflexivity|]. split; [reflexivity|].
  split.
  - intros Hf.
    specialize (Hf 1 "confirmed" "assigned" 2 1 eq_refl eq_refl eq_refl eq_refl).
    lia.
  - split; [|split; [reflexivity|right; left; reflexivity]].
    unfold reconfirmed. cbn [run fold_left].
    apply reachable_step, reachable_step, scenario_reachable.
Qed.

(** ** Registration *)

Lemma register_full role register_ep login_ep template m form d :
  serve (register role register_ep login_ep template m form) d
  = match m with
    | GET => (d, Render template)
    | POST =>
        match reg_name form, reg_phone form, reg_password form with
        | Some name, Some phone, Some _ =>
            match first_by (fun u => String.eqb (User.phone u) phone) (users d)
            with
            | Some _ =>
                (d, Redirect register_ep (Some "Phone already registered"))
            | None =>
                (after_register role name phone d,
                 Redirect login_ep (Some "Registered! Please login."))
            end
        | _, _, _ => (d, Abort 400)
        end
    end.
Proof.
  unfold register, after_register. destruct m; [reflexivity|].
  destruct (reg_name form) as [name|]; mrun; [|reflexivity].
  destruct (reg_phone form) as [phone|]; mrun; [|reflexivity].
  destruct (reg_password form) as [pw|]; mrun; [|reflexivity].
  destruct (first_by _ (users d)); reflexivity.
Qed.

Lemma first_by_found {R} (p : R -> bool) (t : list R) r :
  In r t -> p r = true -> exists r', first_by p t = Some r'.
Proof.
  intros HIn Hp. unfold first_by.
  destruct (find p t) as [r'|] eqn:E; [eauto|].
  rewrite (find_none _ _ E r HIn) in Hp. discriminate.
Qed.

(** Only registration writes to the users table. *)
Lemma transition_users d r d' :
  transition d r d' -> route_role r <> None -> users d' = users d.
Proof.
  intros Ht Hr. destruct Ht; try reflexivity;
    try (exfalso; apply Hr; reflexivity).
  apply after_view_users.
Qed.

(** What a request can do to the users table: nothing, or append one user
    with a phone that no user has yet. *)
Lemma step_users d r :
  users (step d r) = users d
  \/ exists role name phone,
       (role = "farmer" \/ role = "labour")
       /\ first_by (fun u => String.eqb (User.phone u) phone) (users d) = None
       /\ users (step d r)
          = users d ++ [User.mk (next_pk (users d)) name phone role].
Proof.
  assert (Hreg : forall role rep lep tpl m form,
            role = "farmer" \/ role = "labour" ->
            users (fst (serve (register role rep lep tpl m form) d)) = users d
            \/ exists role' name phone,
                 (role' = "farmer" \/ role' = "labour")
                 /\ first_by (fun u => String.eqb (User.phone u) phone)
                             (users d) = None
                 /\ users (fst (serve (register role rep lep tpl m form) d))
                    = users d ++ [User.mk (next_pk (users d)) name phone role']).
  { intros role rep lep tpl m form Hrole. rewrite register_full.
    destruct m; [left; reflexivity|].
    destruct (reg_name form) as [name|]; [|left; reflexivity].
    destruct (reg_phone form) as [phone|]; [|left; reflexivity].
    destruct (reg_password form) as [pw|]; [|left; reflexivity].
    destruct (first_by _ (users d)) eqn:E; [left; reflexivity|].
    right. exists role, name, phone. repeat split; auto. }
  destruct r; try (apply Hreg; auto); left;
    apply (transition_users d _ _ (step_transition d _)); discriminate.
Qed.

Lemma NoDup_map_eq {A B} (f : A -> B) (l : list A) x y :
  NoDup (map f l) -> In x l -> In y l -> f x = f y -> x = y.
Proof.
  induction l as [|a l IH]; simpl; intros Hnd Hx Hy E; [contradiction|].
  inversion Hnd as [|? ? Ha Hnd']; subst.
  destruct Hx as [->|Hx], Hy as [->|Hy]; auto.
  - exfalso. apply Ha. rewrite E. apply in_map. exact Hy.
  - exfalso. apply Ha. rewrite <- E. apply in_map. exact Hx.
Qed.

Lemma reachable_users_sound d : reachable d -> users_sound d.
Proof.
  unfold users_sound.
  induction 1 as [|d r Hd [Hkeys [Hphones Hrows]]].
  - split; [constructor|split; [constructor|intros u []]].
  - destruct (step_users d r)
      as [E|[role [name [phone [Hrole [Hfresh E]]]]]]; rewrite E.
    + auto.
    + split; [|split].
      * apply (keys_distinct_add (fun k => User.mk k name phone role));
          [reflexivity|exact Hkeys].
      * rewrite map_app. simpl.
        apply NoDup_app; [exact Hphones|repeat constructor; simpl; tauto|].
        intros p Hp [<-|[]].
        apply in_map_iff in Hp as [u [Eu Hu]].
        pose proof (find_none _ _ Hfresh u Hu) as Hne. cbn in Hne.
        rewrite Eu, String.eqb_refl in Hne. discriminate.
      * intros u Hu. apply in_app_iff in Hu as [Hu|[<-|[]]]; [auto|].
        cbn. split; [unfold next_pk; lia|exact Hrole].
Qed.

(** X1.  No two registered users share a phone, whatever their roles. *)
Theorem phones_unique d :
  reachable d ->
  forall u v, In u (users d) -> In v (users d) ->
              User.phone u = User.phone v -> u = v.
Proof.
  intros Hd u v Hu Hv E.
  destruct (reachable_users_sound d Hd) as [_ [Hphones _]].
  exact (NoDup_map_eq User.phone (users d) u v Hphones Hu Hv E).
Qed.

Lemma phones_unique_witness :
  User.mk 2 "L" "222" "labour" = user_L.
Proof.
  apply (phones_unique registered (proj1 scenario_reachable)
           (User.mk 2 "L" "222" "labour") user_L);
    [right; left; reflexivity|right; left; reflexivity|reflexivity].
Defined.

Lemma acting_registered d u :
  reachable d -> In u (users d) ->
  acting d (Some (User.id u)) = Some u
  /\ (User.role u = "farmer" \/ User.role u = "labour").
Proof.
  intros Hd Hu.
  destruct (reachable_users_sound d Hd) as [Hkeys [_ Hrows]].
  destruct (Hrows u Hu) as [Hid Hrole]. split; [|exact Hrole].
  pose proof (get_of_In (users d) u Hkeys Hu) as Hget.
  cbn [pk User_Model] in Hget. unfold acting.
  destruct (User.id u) as [|k]; [lia|exact Hget].
Qed.

(** X2.  A session that holds the id of a registered user resolves to that
    user, and the user's role is farmer or labour: no user has id 0, which
    [current_user] reads as logged out, and no two users share an id. *)
Theorem session_resolves d :
  reachable d ->
  forall u, In u (users d) ->
    acting d (Some (User.id u)) = Some u
    /\ (User.role u = "farmer" \/ User.role u = "labour").
Proof.
  intros Hd u Hu. exact (acting_registered d u Hd Hu).
Qed.

Lemma session_resolves_witness :
  acting confirmed (Some (User.id user_L)) = Some user_L.
Proof.
  apply (session_resolves confirmed); [apply scenario_reachable|].
  right. left. reflexivity.
Defined.

(** X3.  Registering with a phone that some user already has, of either
    role, is turned away by both registration routes with the message
    'Phone already registered', and nothing is written. *)
Theorem register_rejects_known_phone d form name phone password u :
  reg_name form = Some name -> reg_phone form = Some phone ->
  reg_password form = Some password ->
  In u (users d) -> User.phone u = phone ->
  serve (farmer_register POST form) d
  = (d, Redirect "farmer_register" (Some "Phone already registered"))
  /\ serve (labour_register POST form) d
     = (d, Redirect "labour_register" (Some "Phone already registered")).
Proof.
  intros Hn Hp Hpw Hu Eu.
  destruct (first_by_found (fun v => String.eqb (User.phone v) phone)
              (users d) u Hu) as [v Hv].
  { rewrite Eu. apply String.eqb_refl. }
  unfold farmer_register, labour_register.
  rewrite !register_full, Hn, Hp, Hpw, Hv. auto.
Qed.

Lemma register_rejects_known_phone_witness :
  serve (farmer_register POST
           (mkRegisterForm (Some "G") (Some "222") (Some "x"))) registered
  = (registered, Redirect "farmer_register" (Some "Phone already registered")).
Proof.
  apply (register_rejects_known_phone registered
           (mkRegisterForm (Some "G") (Some "222") (Some "x"))
           "G" "222" "x" user_L); try reflexivity.
  right. left. reflexivity.
Defined.

(** X4.  Registering with all three fields and a phone that no user has
    appends exactly one user, with the route's role and a fresh id, answers
    with the redirect to the login page, and a session holding the new id
    resolves to the new user. *)
Theorem register_then_resolve d form name phone password :
  reg_name form = Some name -> reg_phone form = Some phone ->
  reg_password form = Some password ->
  (forall u, In u (users d) -> User.phone u <> phone) ->
  let id := next_pk (users d) in
  (serve (farmer_register POST form) d
   = (with_users (fun t => t ++ [User.mk id name phone "farmer"]) d,
      Redirect "farmer_login" (Some "Registered! Please login."))
   /\ acting (step d (FarmerRegister POST form)) (Some id)
      = Some (User.mk id name phone "farmer"))
  /\ (serve (labour_register POST form) d
      = (with_users (fun t => t ++ [User.mk id name phone "labour"]) d,
         Redirect "labour_login" (Some "Registered! Please login."))
      /\ acting (step d (LabourRegister POST form)) (Some id)
         = Some (User.mk id name phone "labour")).
Proof.
  intros Hn Hp Hpw Hfresh id. subst id.
  assert (Hnone : first_by (fun u => String.eqb (User.phone u) phone)
                           (users d) = None).
  { destruct (first_by _ (users d)) as [u|] eqn:E; [|reflexivity].
    apply first_by_In in E as [Hu Hq]. apply String.eqb_eq in Hq.
    exfalso. exact (Hfresh u Hu Hq). }
  assert (Hget : forall role,
            acting (with_users
                      (fun t => t ++ [User.mk (next_pk (users d)) name phone role])
                      d)
                   (Some (next_pk (users d)))
            = Some (User.mk (next_pk (users d)) name phone role)).
  { intros role. unfold acting. cbn [users with_users].
    change (next_pk (users d)) with (S (list_max (map pk (users d)))) at 1.
    change (users d ++ [User.mk (next_pk (users d)) name phone role])
      with (add (fun k => User.mk k name phone role) (users d)).
    rewrite get_add.
    change (S (list_max (map pk (users d)))) with (next_pk (users d)).
    rewrite get_None_fresh. cbn [pk User_Model User.id].
    rewrite Nat.eqb_refl. reflexivity. }
  unfold step. cbn [route]. unfold farmer_register, labour_register.
  rewrite !register_full, Hn, Hp, Hpw, Hnone. cbn [fst].
  unfold after_register, add. repeat split; apply Hget.
Qed.

Lemma register_then_resolve_witness :
  acting (step registered
            (FarmerRegister POST
               (mkRegisterForm (Some "G") (Some "333") (Some "x"))))
         (Some 3)
  = Some (User.mk 3 "G" "333" "farmer").
Proof.
  apply (register_then_resolve registered
           (mkRegisterForm (Some "G") (Some "333") (Some "x"))
           "G" "333" "x"); try reflexivity.
  intros u [<-|[<-|[]]]; discriminate.
Defined.

(** X5.  A registration form that lacks the name, the phone or the password
    is answered with a 400 by both routes, and nothing is written. *)
Theorem register_missing_field d form :
  reg_name form = None \/ reg_phone form = None \/ reg_password form = None ->
  serve (farmer_register POST form) d = (d, Abort 400)
  /\ serve (labour_register POST form) d = (d, Abort 400).
Proof.
  intros H. unfold farmer_register, labour_register. rewrite !register_full.
  destruct (reg_name form), (reg_phone form), (reg_password form);
    auto; destruct H as [H|[H|H]]; discriminate.
Qed.

Lemma register_missing_field_witness :
  serve (farmer_register POST (mkRegisterForm (Some "G") None (Some "x")))
        registered
  = (registered, Abort 400).
Proof.
  apply (register_missing_field registered
           (mkRegisterForm (Some "G") None (Some "x"))).
  right. left. reflexivity.
Defined.

(** ** Login *)

Lemma login_full check role dashboard template m form c d :
  serve_with (login check role dashboard template m form c) d
  = (d,
     match m with
     | GET => inr (mkLoginOutcome (Render template) c None)
     | POST =>
         match login_phone form, login_password form with
         | Some phone, Some password =>
             match first_by (fun u => String.eqb (User.phone u) phone
                                      && String.eqb (User.role u) role)
                            (users d) with
             | Some u =>
                 if check u password
                 then inr (mkLoginOutcome (Redirect dashboard None)
                             (Cookie.mk (Some (User.id u)) (Some role)) None)
                 else inr (mkLoginOutcome (Render template) c
                             (Some "Invalid credentials"))
             | None =>
                 inr (mkLoginOutcome (Render template) c
                        (Some "Invalid credentials"))
             end
         | _, _ => inl (Abort 400)
         end
     end).
Proof.
  unfold serve_with, login. destruct m; [reflexivity|].
  destruct (login_phone form) as [phone|]; mrun; [|reflexivity].
  destruct (login_password form) as [password|]; mrun; [|reflexivity].
  destruct (first_by _ (users d)) as [u|]; [|reflexivity].
  destruct (check u password); reflexivity.
Qed.

(** X6.  A login route starts a session only for a user of its own role
    whose phone is the one typed and whose password checks: the session then
    holds that user's id and the route's role, and resolves to that user.
    Every other outcome leaves the session as it was.  The database is never
    written. *)
Theorem login_scoped check role dashboard template m form c d d' o :
  reachable d ->
  serve_with (login check role dashboard template m form c) d = (d', inr o) ->
  d' = d
  /\ (login_response o = Redirect dashboard None ->
      exists u phone password,
        login_phone form = Some phone
        /\ login_password form = Some password
        /\ In u (users d)
        /\ User.phone u = phone /\ User.role u = role
        /\ check u password = true
        /\ login_cookie o = Cookie.mk (Some (User.id u)) (Some role)
        /\ acting d (Cookie.user_id (login_cookie o)) = Some u)
  /\ (login_response o <> Redirect dashboard None -> login_cookie o = c).
Proof.
  intros Hd. rewrite login_full. intros [= <- Ho]. split; [reflexivity|].
  destruct m.
  { injection Ho as <-. cbn. split; [discriminate|reflexivity]. }
  destruct (login_phone form) as [phone|]; [|discriminate].
  destruct (login_password form) as [password|]; [|discriminate].
  destruct (first_by _ (users d)) as [u|] eqn:Eu.
  - apply first_by_In in Eu as [Hu Hp].
    apply andb_true_iff in Hp as [Hphone Hrole].
    apply String.eqb_eq in Hphone, Hrole.
    destruct (check u password) eqn:Hc; injection Ho as <-; cbn.
    + split; [|intros Hne; exfalso; apply Hne; reflexivity].
      intros _. exists u, phone, password. repeat split; auto.
      apply (acting_registered d u Hd Hu).
    + split; [discriminate|reflexivity].
  - injection Ho as <-. cbn. split; [discriminate|reflexivity].
Qed.

Lemma login_scoped_witness :
  exists u, In u (users registered)
            /\ User.role u = "farmer"
            /\ acting registered (Some 1) = Some u.
Proof.
  pose (check := fun (_ : User.t) (pw : string) => String.eqb pw "pw").
  pose (o := mkLoginOutcome (Redirect "farmer_dashboard" None)
               (Cookie.mk (Some 1) (Some "farmer")) None).
  assert (Hrun : serve_with
                   (login check "farmer" "farmer_dashboard" "farmer_login.html"
                      POST (mkLoginForm (Some "111") (Some "pw")) Cookie.empty)
                   registered
                 = (registered, inr o)) by reflexivity.
  destruct (login_scoped check "farmer" "farmer_dashboard" "farmer_login.html"
              POST (mkLoginForm (Some "111") (Some "pw")) Cookie.empty
              registered registered o (proj1 scenario_reachable) Hrun)
    as [_ [Hok _]].
  destruct (Hok eq_refl) as [u [_ [_ [_ [_ [Hu [_ [Hrole [_ [_ Hact]]]]]]]]]].
  exists u. auto.
Defined.

(** X7.  A phone registered under one role cannot log in through the other
    role's login route, whatever password is typed and however passwords
    are checked: the route answers 'Invalid credentials' and the session
    stays as it was. *)
Theorem login_other_role check role dashboard template form c d u password :
  reachable d ->
  In u (users d) -> User.role u <> role ->
  login_phone form = Some (User.phone u) ->
  login_password form = Some password ->
  serve_with (login check role dashboard template POST form c) d
  = (d, inr (mkLoginOutcome (Render template) c (Some "Invalid credentials"))).
Proof.
  intros Hd Hu Hrole Hp Hpw. rewrite login_full, Hp, Hpw.
  destruct (first_by _ (users d)) as [v|] eqn:Ev; [|reflexivity].
  exfalso. apply first_by_In in Ev as [Hv Hq].
  apply andb_true_iff in Hq as [Hphone Hvrole].
  apply String.eqb_eq in Hphone, Hvrole.
  destruct (reachable_users_sound d Hd) as [_ [Hphones _]].
  pose proof (NoDup_map_eq User.phone (users d) v u Hphones Hv Hu Hphone)
    as E.
  subst v. contradiction.
Qed.

Lemma login_other_role_witness :
  serve_with (farmer_login (fun _ _ => true) POST
                (mkLoginForm (Some "222") (Some "pw")) Cookie.empty)
             registered
  = (registered,
     inr (mkLoginOutcome (Render "farmer_login.html") Cookie.empty
            (Some "Invalid credentials"))).
Proof.
  apply (login_other_role (fun _ _ => true) "farmer" "farmer_dashboard"
           "farmer_login.html" (mkLoginForm (Some "222") (Some "pw"))
           Cookie.empty registered user_L "pw");
    try reflexivity.
  - apply scenario_reachable.
  - right. left. reflexivity.
  - discriminate.
Defined.

(** ** Who may write *)

(** X8.  Apart from registration, a request writes nothing unless its
    session resolves to a user of the role its route asks for: farmer for
    posting a job, deciding a change request and assigning a labourer;
    labour for recording a view, requesting a change and confirming. *)
Theorem unauthorised_writes_nothing d r role :
  route_role r = Some role ->
  (forall u, acting d (request_uid r) = Some u -> User.role u <> role) ->
  step d r = d.
Proof.
  intros Hr Hdeny. unfold step.
  assert (Hgate : forall denied k,
            serve (user <- current_user (request_uid r) ;;
                   require_role role denied user k) d = (d, denied)).
  { intros denied k. rewrite serve_gate.
    destruct (acting d (request_uid r)) as [u|]; [|reflexivity].
    destruct (String.eqb_spec (User.role u) role) as [E|E]; [|reflexivity].
    exfalso. exact (Hdeny u eq_refl E). }
  destruct r; cbn [route_role] in Hr; try discriminate;
    injection Hr as <-; cbn [route request_uid] in *.
  - unfold post_job. rewrite Hgate. reflexivity.
  - rewrite job_view_run.
    destruct (get job_id (jobs d)); [|reflexivity]. cbn [fst].
    destruct (acting d uid) as [u|]; [|reflexivity].
    destruct (String.eqb_spec (User.role u) "labour") as [E|E];
      [|reflexivity].
    exfalso. exact (Hdeny u eq_refl E).
  - unfold request_change. rewrite Hgate. reflexivity.
  - unfold decide_change. rewrite Hgate. reflexivity.
  - unfold assign_labour. rewrite Hgate. reflexivity.
  - unfold confirm_assignment. rewrite Hgate. reflexivity.
Qed.

Lemma unauthorised_writes_nothing_witness :
  step accepted (ConfirmAssignment (Some 1) 1) = accepted
  /\ step requested (DecideChange None 1 (Some "accept")) = requested.
Proof.
  split.
  - apply (unauthorised_writes_nothing accepted
             (ConfirmAssignment (Some 1) 1) "labour"); [reflexivity|].
    intros u [= <-]. discriminate.
  - apply (unauthorised_writes_nothing requested
             (DecideChange None 1 (Some "accept")) "farmer"); [reflexivity|].
    intros u [=].
Defined.

(** ** Rows that point at users and jobs *)

Lemma acting_get d uid u :
  acting d uid = Some u -> get (User.id u) (users d) = Some u.
Proof.
  unfold acting. destruct uid as [[|k]|]; try discriminate.
  intros E. pose proof (get_In _ _ _ E) as [_ Hpk].
  cbn [pk User_Model] in Hpk. rewrite Hpk. exact E.
Qed.

(** No transition removes or changes a user. *)
Lemma transition_get_user d r d' k u :
  transition d r d' ->
  get k (users d) = Some u -> get k (users d') = Some u.
Proof.
  intros Ht E. destruct Ht; try exact E.
  - apply get_add_Some. exact E.
  - apply get_add_Some. exact E.
  - rewrite after_view_users. exact E.
Qed.

(** No transition removes a job. *)
Lemma transition_job_present d r d' k :
  transition d r d' -> job_present d k -> job_present d' k.
Proof.
  unfold job_present. intros Ht [j Hj]. destruct Ht; eauto.
  - exists j. apply get_add_Some. exact Hj.
  - rewrite after_view_jobs. eauto.
  - eapply get_update_Some; [apply accepted_job_id|eassumption].
  - eapply get_update_Some; [reflexivity|eassumption].
  - cbn [jobs after_confirm].
    destruct (Assignment.accepted_by_farmer a); [|eauto].
    eapply get_update_Some; [reflexivity|eassumption].
Qed.

Lemma transition_view_sound d r d' :
  transition d r d' ->
  (forall v, In v (views d) -> view_sound d v) ->
  forall v, In v (views d') -> view_sound d' v.
Proof.
  intros Ht IH.
  assert (Hkeep : forall v, view_sound d v -> view_sound d' v).
  { intros v [Hseen [Hjob [u [Hu Hrole]]]]. split; [exact Hseen|].
    split; [exact (transition_job_present d r d' _ Ht Hjob)|].
    exists u. split; [exact (transition_get_user d r d' _ u Ht Hu)|exact Hrole]. }
  destruct Ht; intros v HIn; try (apply Hkeep; apply IH; exact HIn).
  unfold after_view in HIn |- *.
  destruct (first_by _ (views d)) eqn:E; [apply IH; exact HIn|].
  cbn [views with_views] in HIn. apply In_add in HIn as [HIn| ->].
  - destruct (IH v HIn) as [Hseen [Hjob Huser]]. repeat split; auto.
  - split; [reflexivity|]. split; [exists j; assumption|].
    exists u. split; [apply (acting_get d uid); assumption|assumption].
Qed.

Lemma reachable_view_sound d :
  reachable d -> forall v, In v (views d) -> view_sound d v.
Proof.
  revert d.
  apply (reachable_ind_transition
           (fun d => forall v, In v (views d) -> view_sound d v)).
  - intros v [].
  - intros d r d' _ IH Ht. exact (transition_view_sound d r d' Ht IH).
Qed.

Lemma transition_change_sound d r d' :
  transition d r d' ->
  (forall cr, In cr (changes d) -> change_sound d cr) ->
  forall cr, In cr (changes d') -> change_sound d' cr.
Proof.
  intros Ht IH.
  assert (Hkeep : forall cr, change_sound d cr -> change_sound d' cr).
  { intros cr [u [Hu Hrole]]. exists u.
    split; [exact (transition_get_user d r d' _ u Ht Hu)|exact Hrole]. }
  assert (Hupd : forall k v cr,
            In cr (update k (ChangeRequest.set_status v) (changes d)) ->
            change_sound d cr).
  { intros k v cr HIn. apply In_update in HIn as [c0 [HIn ->]].
    destruct (IH c0 HIn) as [u [Hu Hrole]].
    exists u. destruct (pk c0 =? k)%nat; auto. }
  destruct Ht; intros c HIn; try (apply Hkeep; apply IH; exact HIn).
  - apply Hkeep. apply IH.
    unfold after_view in HIn. destruct (first_by _ (views d)); exact HIn.
  - cbn [changes with_changes] in HIn. apply In_add in HIn as [HIn| ->].
    + apply IH. exact HIn.
    + exists u. split; [apply (acting_get d uid); assumption|assumption].
  - exact (Hupd _ _ c HIn).
  - exact (Hupd _ _ c HIn).
Qed.

Lemma reachable_change_sound d :
  reachable d -> forall cr, In cr (changes d) -> change_sound d cr.
Proof.
  revert d.
  apply (reachable_ind_transition
           (fun d => forall cr, In cr (changes d) -> change_sound d cr)).
  - intros cr [].
  - intros d r d' _ IH Ht. exact (transition_change_sound d r d' Ht IH).
Qed.

(** X9.  The [seen] flag of a view notification is never set: every view
    row of every reachable state has [seen = False]. *)
Theorem seen_never_set d :
  reachable d ->
  forall v, In v (views d) -> ViewNotification.seen v = false.
Proof.
  intros Hd v Hv. exact (proj1 (reachable_view_sound d Hd v Hv)).
Qed.

Lemma seen_never_set_witness :
  ViewNotification.seen (ViewNotification.mk 1 1 2 false) = false.
Proof.
  apply (seen_never_set confirmed); [apply scenario_reachable|].
  left. reflexivity.
Defined.

(** X10.  Every view row points at a job that exists and at a user who
    exists and is a labourer; every change request points at a user who
    exists and is a labourer (its job may be missing). *)
Theorem rows_resolve d :
  reachable d ->
  (forall v, In v (views d) ->
     (exists j, get (ViewNotification.job_id v) (jobs d) = Some j)
     /\ exists u, get (ViewNotification.labour_id v) (users d) = Some u
                  /\ User.role u = "labour")
  /\ (forall cr, In cr (changes d) ->
        exists u, get (ChangeRequest.labour_id cr) (users d) = Some u
                  /\ User.role u = "labour").
Proof.
  intros Hd. split.
  - intros v Hv. exact (proj2 (reachable_view_sound d Hd v Hv)).
  - intros cr Hcr. exact (reachable_change_sound d Hd cr Hcr).
Qed.

Lemma rows_resolve_witness :
  exists u, get 2 (users dangling) = Some u /\ User.role u = "labour".
Proof.
  assert (Hd : reachable dangling)
    by (apply reachable_step; apply scenario_reachable).
  apply (proj2 (rows_resolve dangling Hd)
           (ChangeRequest.mk 1 7 2 (Some 5%Z) None None "" "pending")).
  left. reflexivity.
Defined.

(** ** The pages that only read *)

(** A loop whose body only reads runs to its end and leaves the session as
    it was. *)
Lemma for_each_reads {A B} (f : A -> M B) (l : list A) (s : Session) :
  (forall x, In x l -> exists y, f x s = (inr y, s)) ->
  exists ys, for_each f l s = (inr ys, s).
Proof.
  induction l as [|x l IH]; intros Hf; simpl.
  - eexists. reflexivity.
  - destruct (Hf x (or_introl eq_refl)) as [y Hy].
    destruct IH as [ys Hys]; [intros z Hz; apply Hf; right; exact Hz|].
    exists (y :: ys). unfold bind. rewrite Hy, Hys. reflexivity.
Qed.

(** A loop whose body reads or raises one response raises it as soon as
    some element does. *)
Lemma for_each_raises {A B} (f : A -> M B) (l : list A) (s : Session) e x :
  In x l -> f x s = (inl e, s) ->
  (forall z, In z l ->
     (exists y, f z s = (inr y, s)) \/ f z s = (inl e, s)) ->
  for_each f l s = (inl e, s).
Proof.
  induction l as [|a l IH]; intros HIn Hx Hall; [contradiction|].
  simpl. unfold bind.
  destruct (Hall a (or_introl eq_refl)) as [[y Hy]|Ha];
    [|rewrite Ha; reflexivity].
  rewrite Hy. destruct HIn as [->|HIn]; [congruence|].
  rewrite IH; [reflexivity|exact HIn|exact Hx|].
  intros z Hz. apply Hall. right. exact Hz.
Qed.

Lemma notifications_views_read (d : DB) (l : list ViewNotification.t) :
  exists ys,
    for_each (fun v =>
      labour <- query (fun d => get (ViewNotification.labour_id v) (users d)) ;;
      job <- query (fun d => get (ViewNotification.job_id v) (jobs d)) ;;
      ret (v, labour, job)) l (mkSession d d)
    = (inr ys, mkSession d d).
Proof.
  apply for_each_reads. intros v _. eexists. reflexivity.
Qed.

Lemma bind_run {A B} (m : M A) (k : A -> M B) (s : Session) :
  bind m k s
  = match m s with
    | (inl e, s') => (inl e, s')
    | (inr a, s') => k a s'
    end.
Proof. reflexivity. Qed.

Lemma query_run {A} (q : DB -> A) (s : Session) :
  query q s = (inr (q (pending s)), s).
Proof. reflexivity. Qed.

(** X11.  In a reachable state the notifications page of a farmer is always
    rendered and writes nothing: the labourer of every change request it
    lists exists.  The lookup itself is unguarded: in a state where a listed
    change request had no such user the page would end in the
    [AttributeError] of a [None] user. *)
Theorem notifications_render d uid u :
  acting d uid = Some u -> User.role u = "farmer" ->
  (reachable d ->
   serve (farmer_notifications uid) d = (d, Render "notifications.html"))
  /\ (forall cr,
        In cr (changes d) ->
        owns (User.id u) (ChangeRequest.job_id cr) d = true ->
        get (ChangeRequest.labour_id cr) (users d) = None ->
        serve (farmer_notifications uid) d = (d, NoneDereference)).
Proof.
  intros Hu Hrole.
  unfold farmer_notifications. rewrite serve_gate, Hu, Hrole.
  rewrite String.eqb_refl.
  unfold serve, notifications_context.
  set (body := fun cr : ChangeRequest.t =>
    labour <- query (fun d0 => get (ChangeRequest.labour_id cr) (users d0)) ;;
    l <- deref labour ;;
    ret (ChangeInfo.mk (ChangeRequest.id cr) (ChangeRequest.job_id cr)
           (ChangeRequest.requested_days cr) (ChangeRequest.requested_wage cr)
           (ChangeRequest.requested_stay cr) (ChangeRequest.message cr)
           (ChangeRequest.status cr) (User.name l) (User.phone l))).
  assert (Hbody : forall cr,
            body cr (mkSession d d)
            = match get (ChangeRequest.labour_id cr) (users d) with
              | Some l =>
                  (inr (ChangeInfo.mk (ChangeRequest.id cr)
                          (ChangeRequest.job_id cr)
                          (ChangeRequest.requested_days cr)
                          (ChangeRequest.requested_wage cr)
                          (ChangeRequest.requested_stay cr)
                          (ChangeRequest.message cr)
                          (ChangeRequest.status cr) (User.name l)
                          (User.phone l)), mkSession d d)
              | None => (inl NoneDereference, mkSession d d)
              end).
  { intros cr. unfold body, bind, query, deref, ret, raise. cbn [pending].
    destruct (get (ChangeRequest.labour_id cr) (users d)); reflexivity. }
  destruct (notifications_views_read d
              (filter (fun v => owns (User.id u) (ViewNotification.job_id v) d)
                      (views d))) as [ys Hys].
  rewrite !bind_run, query_run. cbn [pending].
  rewrite !bind_run, Hys, !bind_run, query_run. cbn [pending].
  rewrite bind_run.
  split.
  - intros Hd.
    destruct (for_each_reads body
                (filter (fun cr => owns (User.id u) (ChangeRequest.job_id cr) d)
                        (changes d)) (mkSession d d)) as [zs Hzs].
    { intros cr Hcr. apply filter_In in Hcr as [Hcr _].
      destruct (reachable_change_sound d Hd cr Hcr) as [l [Hl _]].
      rewrite Hbody, Hl. eexists. reflexivity. }
    rewrite Hzs. reflexivity.
  - intros cr Hcr Hown Hnone.
    rewrite (for_each_raises body _ (mkSession d d) NoneDereference cr).
    + reflexivity.
    + apply filter_In. auto.
    + rewrite Hbody, Hnone. reflexivity.
    + intros z _. rewrite Hbody.
      destruct (get (ChangeRequest.labour_id z) (users d));
        [left; eexists; reflexivity|right; reflexivity].
Qed.

Lemma notifications_render_witness :
  serve (farmer_notifications (Some 1)) accepted
  = (accepted, Render "notifications.html").
Proof.
  apply (proj1 (notifications_render accepted (Some 1) user_F
                  eq_refl eq_refl)).
  apply scenario_reachable.
Defined.

(** Every status that a route writes satisfies [P]; so every job does. *)
Lemma transition_status_among (P : string -> Prop) d r d' :
  P "open" -> P "assigned" -> P "confirmed" ->
  transition d r d' ->
  (forall j, In j (jobs d) -> P (Job.status j)) ->
  forall j, In j (jobs d') -> P (Job.status j).
Proof.
  intros Hopen Hassigned Hconfirmed Ht IH.
  assert (Hupd : forall k f v,
            (forall x, Job.status (f x) = v) -> P v ->
            forall j, In j (update k f (jobs d)) -> P (Job.status j)).
  { intros k f v Hst Hv j HIn.
    apply In_update in HIn as [j0 [HIn ->]].
    destruct (pk j0 =? k)%nat; [rewrite Hst; exact Hv|apply IH; exact HIn]. }
  destruct Ht; intros j0 HIn; try (apply IH; exact HIn).
  - cbn [jobs with_jobs] in HIn. apply In_add in HIn as [HIn| ->];
      [apply IH; exact HIn|exact Hopen].
  - rewrite after_view_jobs in HIn. apply IH; exact HIn.
  - apply (Hupd (ChangeRequest.job_id cr) (accepted_job cr) "assigned");
      auto.
  - apply (Hupd job_id (Job.set_status "assigned") "assigned"); auto.
  - cbn [jobs after_confirm] in HIn.
    destruct (Assignment.accepted_by_farmer a); [|apply IH; exact HIn].
    apply (Hupd (Assignment.job_id a) (Job.set_status "confirmed")
             "confirmed"); auto.
Qed.

Lemma reachable_never_closed d :
  reachable d -> forall j, In j (jobs d) -> Job.status j <> "closed".
Proof.
  revert d.
  apply (reachable_ind_transition
           (fun d => forall j, In j (jobs d) -> Job.status j <> "closed")).
  - intros j [].
  - intros d r d' _ IH Ht.
    apply (transition_status_among (fun s => s <> "closed") d r d');
      try discriminate; assumption.
Qed.

Lemma filter_all {A} (p : A -> bool) (l : list A) :
  (forall x, In x l -> p x = true) -> filter p l = l.
Proof.
  induction l as [|x l IH]; intros H; [reflexivity|].
  cbn [filter]. rewrite (H x (or_introl eq_refl)), IH; [reflexivity|].
  intros y Hy. apply H. right. exact Hy.
Qed.

(** X12.  No route ever closes a job: no job of a reachable state has
    status closed, so the filter of the labourer's dashboard drops nothing.
    Whatever the ordering by [date_posted] is, the page receives that
    ordering of all the jobs of the database, and the labourer's own
    assignments in table order; the database is left as it was. *)
Theorem labour_dashboard_lists_all
  (order_by_date_posted_desc : list Job.t -> list Job.t) d u :
  reachable d ->
  (forall j, In j (jobs d) -> Job.status j <> "closed")
  /\ serve_with (labour_dashboard_context order_by_date_posted_desc u) d
     = (d, inr (order_by_date_posted_desc (jobs d),
                filter (fun a => (Assignment.labour_id a =? User.id u)%nat)
                       (assignments d))).
Proof.
  intros Hd. split; [exact (reachable_never_closed d Hd)|].
  unfold serve_with, labour_dashboard_context.
  rewrite !bind_run, query_run. cbn [pending].
  rewrite bind_run, query_run. cbn [pending ret committed].
  rewrite filter_all; [reflexivity|].
  intros j Hj.
  destruct (String.eqb_spec (Job.status j) "closed") as [Ec|Ec];
    [|reflexivity].
  exfalso. exact (reachable_never_closed d Hd j Hj Ec).
Qed.

Lemma labour_dashboard_lists_all_witness :
  serve_with (labour_dashboard_context (@rev Job.t) user_L) confirmed
  = (confirmed,
     inr (rev (jobs confirmed),
          filter (fun a => (Assignment.labour_id a =? User.id user_L)%nat)
                 (assignments confirmed))).
Proof.
  exact (proj2 (labour_dashboard_lists_all (@rev Job.t) confirmed user_L
                  (proj2 (proj2 (proj2 (proj2 (proj2 scenario_reachable))))))).
Defined.

(** ** Jobs that have an assignment *)

Lemma transition_assigned_not_open d r d' :
  transition d r d' ->
  (forall a, In a (assignments d) -> assignment_sound d a) ->
  assigned_not_open d -> assigned_not_open d'.
Proof.
  unfold assigned_not_open. intros Ht Hsound IH.
  assert (Hupd : forall k l f,
            (forall x, Job.status (f x) <> "open") ->
            forall a j,
              In a (accepted_for k l (assignments d)) ->
              In j (update k f (jobs d)) ->
              Job.id j = Assignment.job_id a -> Job.status j <> "open").
  { intros k l f Hst a j Ha Hj E.
    apply In_update in Hj as [j0 [Hj0 ->]].
    destruct (Nat.eqb_spec (pk j0) k) as [Ek|Ek]; [apply Hst|].
    apply accepted_for_In in Ha as [->|[a0 [Ha0 [->| ->]]]]; cbn in E.
    - contradiction.
    - exact (IH a0 j0 Ha0 Hj0 E).
    - exact (IH a0 j0 Ha0 Hj0 E). }
  destruct Ht; intros a0 j0 Ha Hj E; try exact (IH a0 j0 Ha Hj E).
  - cbn [jobs with_jobs assignments] in *.
    apply In_add in Hj as [Hj| ->]; [exact (IH a0 j0 Ha Hj E)|].
    exfalso. cbn in E.
    destruct (Hsound a0 Ha) as [_ [j1 Hj1]].
    apply get_In in Hj1 as [Hj1 Hpk].
    apply next_pk_fresh in Hj1. lia.
  - rewrite after_view_jobs in Hj. rewrite after_view_assignments in Ha.
    exact (IH a0 j0 Ha Hj E).
  - apply (Hupd (ChangeRequest.job_id cr) (ChangeRequest.labour_id cr)
             (accepted_job cr)) with (a := a0); auto.
    intros x. rewrite accepted_job_status. discriminate.
  - apply (Hupd job_id labour_id (Job.set_status "assigned")) with (a := a0);
      auto.
    intros x. discriminate.
  - cbn [jobs assignments after_confirm] in *.
    apply In_update in Ha as [a1 [Ha1 ->]].
    assert (Ej : Job.id j0 = Assignment.job_id a1)
      by (destruct (pk a1 =? Assignment.id a)%nat; exact E).
    destruct (Assignment.accepted_by_farmer a);
      [|exact (IH a1 j0 Ha1 Hj Ej)].
    apply In_update in Hj as [j1 [Hj1 ->]].
    destruct (pk j1 =? Assignment.job_id a)%nat; [discriminate|].
    exact (IH a1 j1 Ha1 Hj1 Ej).
Qed.

Lemma reachable_assigned_not_open d : reachable d -> assigned_not_open d.
Proof.
  revert d. apply (reachable_ind_transition assigned_not_open).
  - intros a j [].
  - intros d r d' Hd IH Ht.
    exact (transition_assigned_not_open d r d' Ht
             (reachable_assignment_sound d Hd) IH).
Qed.

(** X13.  A job that has an assignment is never open: in every reachable
    state the job of every assignment exists and its status is assigned or
    confirmed. *)
Theorem assignment_job_not_open d :
  reachable d ->
  forall a, In a (assignments d) ->
    exists s, job_status d (Assignment.job_id a) = Some s
              /\ (s = "assigned" \/ s = "confirmed").
Proof.
  intros Hd a Ha.
  destruct (reachable_assignment_sound d Hd a Ha) as [_ [j Hj]].
  pose proof (get_In _ _ _ Hj) as [HIn Hpk]. cbn [pk Job_Model] in Hpk.
  exists (Job.status j). unfold job_status. rewrite Hj. split; [reflexivity|].
  pose proof (reachable_assigned_not_open d Hd a j Ha HIn Hpk) as Hopen.
  pose proof (reachable_never_closed d Hd j HIn) as Hclosed.
  destruct (reachable_status_listed d Hd j HIn) as [E|[E|[E|E]]];
    [contradiction|auto|auto|contradiction].
Qed.

Lemma assignment_job_not_open_witness :
  exists s, job_status accepted 1 = Some s
            /\ (s = "assigned" \/ s = "confirmed").
Proof.
  apply (assignment_job_not_open accepted
           (proj1 (proj2 (proj2 (proj2 (proj2 scenario_reachable)))))
           (assignment_1 false)).
  left. reflexivity.
Defined.

(** ** Repeating a request *)

Section Repeat.
Context {R : Type} `{Model R}.

Lemma update_idem k (f : R -> R) (t : list R) :
  (forall r, pk (f r) = pk r) -> (forall r, f (f r) = f r) ->
  update k f (update k f t) = update k f t.
Proof.
  intros Hpk Hf. rewrite update_update by exact Hpk.
  unfold update. apply map_ext. intros r.
  destruct (pk r =? k)%nat; [apply Hf|reflexivity].
Qed.

Lemma update_untouched k (f : R -> R) (t : list R) :
  (forall r, In r t -> pk r = k -> f r = r) -> update k f t = t.
Proof.
  intros Hf. unfold update. rewrite <- (map_id t) at 2.
  apply map_ext_in. intros r Hr.
  destruct (Nat.eqb_spec (pk r) k); [apply Hf; assumption|reflexivity].
Qed.

Lemma first_by_update (p : R -> bool) k (f : R -> R) (t : list R) :
  (forall r, p (f r) = p r) ->
  first_by p (update k f t)
  = option_map (fun r => if (pk r =? k)%nat then f r else r) (first_by p t).
Proof.
  intros Hp. unfold first_by, update.
  induction t as [|x t IH]; simpl; [reflexivity|].
  assert (E : p (if (pk x =? k)%nat then f x else x) = p x)
    by (destruct (pk x =? k)%nat; auto).
  rewrite E. destruct (p x); [reflexivity|exact IH].
Qed.

Lemma first_by_add_new (p : R -> bool) row (t : list R) :
  first_by p t = None -> p (row (next_pk t)) = true ->
  first_by p (add row t) = Some (row (next_pk t)).
Proof.
  intros Hnone Hp. unfold first_by, add in *.
  induction t as [|x t IH] in Hnone, row, Hp |- *; simpl in *.
  - rewrite Hp. reflexivity.
  - destruct (p x); [discriminate|].
    generalize dependent (row (next_pk (x :: t))). intros r Hr.
    clear IH. induction t as [|y t IH]; simpl in *; [rewrite Hr; reflexivity|].
    destruct (p y); [discriminate|]. apply IH. exact Hnone.
Qed.
End Repeat.

Lemma accepted_for_idem j l t :
  accepted_for j l (accepted_for j l t) = accepted_for j l t.
Proof.
  destruct (first_by (assignment_of j l) t) as [a|] eqn:E.
  - assert (E1 : accepted_for j l t
                 = update (Assignment.id a)
                          (Assignment.set_accepted_by_farmer true) t)
      by (unfold accepted_for; rewrite E; reflexivity).
    rewrite E1. unfold accepted_for.
    rewrite first_by_update, E by apply assignment_of_set_accepted.
    cbn [option_map pk Assignment_Model]. rewrite Nat.eqb_refl.
    cbn [Assignment.id Assignment.set_accepted_by_farmer].
    apply update_idem; reflexivity.
  - assert (E1 : accepted_for j l t
                 = add (fun k => Assignment.mk k j l true false) t)
      by (unfold accepted_for; rewrite E; reflexivity).
    rewrite E1. unfold accepted_for.
    rewrite (first_by_add_new (assignment_of j l)
               (fun k => Assignment.mk k j l true false) t E)
      by (apply assignment_of_eq; auto).
    cbn [Assignment.id]. apply update_untouched.
    intros r Hr Hk. apply In_add in Hr as [Hr| ->]; [|reflexivity].
    apply next_pk_fresh in Hr. cbn [pk Assignment_Model] in *. lia.
Qed.

Lemma accepted_job_idem cr j :
  accepted_job cr (accepted_job cr j) = accepted_job cr j.
Proof.
  unfold accepted_job, override_stay, override_wage, override_days.
  destruct (ChangeRequest.requested_days cr) as [v|];
    [destruct (Py.truthy_int (Some v))|];
  (destruct (ChangeRequest.requested_wage cr) as [w|];
    [destruct (Py.truthy_str (Some w))|]);
  (destruct (ChangeRequest.requested_stay cr) as [x|];
    [destruct (Py.truthy_str (Some x))|]); reflexivity.
Qed.

Lemma after_accept_twice cr d :
  after_accept (ChangeRequest.set_status "accepted" cr) (after_accept cr d)
  = after_accept cr d.
Proof.
  unfold after_accept.
  cbn [users jobs views changes assignments ChangeRequest.job_id
       ChangeRequest.labour_id ChangeRequest.id ChangeRequest.set_status].
  change (accepted_job (ChangeRequest.set_status "accepted" cr))
    with (accepted_job cr).
  rewrite accepted_for_idem.
  rewrite (update_idem (ChangeRequest.job_id cr) (accepted_job cr))
    by (intros; first [apply accepted_job_id|apply accepted_job_idem]).
  rewrite (update_idem (ChangeRequest.id cr)
             (ChangeRequest.set_status "accepted")) by reflexivity.
  reflexivity.
Qed.

Lemma after_reject_twice cr d :
  after_reject (ChangeRequest.set_status "rejected" cr) (after_reject cr d)
  = after_reject cr d.
Proof.
  unfold after_reject, with_changes.
  cbn [users jobs views changes assignments ChangeRequest.id
       ChangeRequest.set_status].
  rewrite (update_idem (ChangeRequest.id cr)
             (ChangeRequest.set_status "rejected")) by reflexivity.
  reflexivity.
Qed.

Lemma after_assign_twice j l d :
  after_assign j l (after_assign j l d) = after_assign j l d.
Proof.
  unfold after_assign. cbn [users jobs views changes assignments].
  rewrite accepted_for_idem.
  rewrite (update_idem j (Job.set_status "assigned")) by reflexivity.
  reflexivity.
Qed.

Lemma after_confirm_twice a d :
  after_confirm (Assignment.set_confirmed_by_labour true a) (after_confirm a d)
  = after_confirm a d.
Proof.
  unfold after_confirm.
  cbn [users jobs views changes assignments Assignment.id Assignment.job_id
       Assignment.accepted_by_farmer Assignment.set_confirmed_by_labour].
  rewrite (update_idem (Assignment.id a)
             (Assignment.set_confirmed_by_labour true)) by reflexivity.
  destruct (Assignment.accepted_by_farmer a); [|reflexivity].
  rewrite (update_idem (Assignment.job_id a) (Job.set_status "confirmed"))
    by reflexivity.
  reflexivity.
Qed.

Lemma fixed_twice d r : step d r = d -> step (step d r) r = step d r.
Proof. intros E. rewrite E, E. reflexivity. Qed.

Lemma register_twice role register_ep login_ep template m form d :
  let h := register role register_ep login_ep template m form in
  fst (serve h (fst (serve h d))) = fst (serve h d).
Proof.
  intros h. subst h. rewrite (register_full _ _ _ _ m form d).
  destruct m; [cbn [fst]; rewrite register_full; reflexivity|].
  destruct (reg_name form) as [name|] eqn:Hn;
    [|cbn [fst]; rewrite register_full, Hn; reflexivity].
  destruct (reg_phone form) as [phone|] eqn:Hp;
    [|cbn [fst]; rewrite register_full, Hn, Hp; reflexivity].
  destruct (reg_password form) as [pw|] eqn:Hpw;
    [|cbn [fst]; rewrite register_full, Hn, Hp, Hpw; reflexivity].
  destruct (first_by _ (users d)) as [u|] eqn:E; cbn [fst];
    rewrite register_full, Hn, Hp, Hpw.
  - rewrite E. reflexivity.
  - destruct (first_by_found (fun u => String.eqb (User.phone u) phone)
                (users (after_register role name phone d))
                (User.mk (next_pk (users d)) name phone role)) as [v Hv].
    + unfold after_register, add. cbn [users with_users].
      apply in_app_iff. right. left. reflexivity.
    + apply String.eqb_refl.
    + rewrite Hv. reflexivity.
Qed.

Lemma job_view_twice d uid job_id :
  step (step d (JobView uid job_id)) (JobView uid job_id)
  = step d (JobView uid job_id).
Proof.
  unfold step. cbn [route]. rewrite !job_view_run.
  destruct (get job_id (jobs d)) as [j|] eqn:Hj; cbn [fst];
    [|rewrite Hj; reflexivity].
  destruct (acting d uid) as [u|] eqn:Hu; [|rewrite Hj, Hu; reflexivity].
  destruct (String.eqb (User.role u) "labour") eqn:Hr;
    [|rewrite Hj, Hu, Hr; reflexivity].
  rewrite after_view_jobs, Hj.
  rewrite (acting_users d _ uid (after_view_users _ _ d)), Hu, Hr.
  cbn [fst]. apply after_view_twice.
Qed.

Lemma decide_twice d uid change_id decision :
  step (step d (DecideChange uid change_id decision))
       (DecideChange uid change_id decision)
  = step d (DecideChange uid change_id decision).
Proof.
  by_role d uid "farmer".
  - destruct (get change_id (changes d)) as [cr|] eqn:Hcr.
    + destruct (is_accept decision) eqn:Hdec.
      * destruct (get (ChangeRequest.job_id cr) (jobs d)) as [j|] eqn:Hj.
        -- assert (E1 : step d (DecideChange uid change_id decision)
                        = after_accept cr d).
           { unfold step. cbn [route].
             rewrite (decide_accept_run d uid u Hu Hrole change_id decision
                        cr j Hcr Hdec Hj). reflexivity. }
           rewrite E1. unfold step. cbn [route].
           assert (Hcr1 : get change_id (changes (after_accept cr d))
                          = Some (ChangeRequest.set_status "accepted" cr)).
           { exact (get_update_hit (ChangeRequest.set_status "accepted")
                      (changes d) change_id cr (fun _ => eq_refl) Hcr). }
           assert (Hj1 : get (ChangeRequest.job_id
                                (ChangeRequest.set_status "accepted" cr))
                             (jobs (after_accept cr d))
                         = Some (accepted_job cr j)).
           { cbn [jobs after_accept ChangeRequest.job_id
                  ChangeRequest.set_status].
             rewrite get_update_at, Nat.eqb_refl, Hj by apply accepted_job_id.
             reflexivity. }
           rewrite (decide_accept_run (after_accept cr d) uid u Hu Hrole
                      change_id decision _ _ Hcr1 Hdec Hj1).
           cbn [fst]. apply after_accept_twice.
        -- apply fixed_twice. unfold step. cbn [route].
           rewrite (decide_accept_nojob_run d uid u Hu Hrole change_id
                      decision cr Hcr Hdec Hj). reflexivity.
      * assert (E1 : step d (DecideChange uid change_id decision)
                     = after_reject cr d).
        { unfold step. cbn [route].
          rewrite (decide_reject_run d uid u Hu Hrole change_id decision
                     cr Hcr Hdec). reflexivity. }
        rewrite E1. unfold step. cbn [route].
        assert (Hcr1 : get change_id (changes (after_reject cr d))
                       = Some (ChangeRequest.set_status "rejected" cr)).
        { exact (get_update_hit (ChangeRequest.set_status "rejected")
                   (changes d) change_id cr (fun _ => eq_refl) Hcr). }
        rewrite (decide_reject_run (after_reject cr d) uid u Hu Hrole
                   change_id decision _ Hcr1 Hdec).
        cbn [fst]. apply after_reject_twice.
    + apply fixed_twice. unfold step. cbn [route].
      rewrite (decide_missing_run d uid u Hu Hrole change_id decision Hcr).
      reflexivity.
  - apply fixed_twice. unfold step. cbn [route]. unfold decide_change.
    rewrite (denied_run d uid u Hu) by assumption. reflexivity.
  - apply fixed_twice. unfold step. cbn [route]. unfold decide_change.
    rewrite serve_gate, Hu. reflexivity.
Qed.

Lemma assign_twice d uid job_id labour_id :
  step (step d (AssignLabour uid job_id labour_id))
       (AssignLabour uid job_id labour_id)
  = step d (AssignLabour uid job_id labour_id).
Proof.
  by_role d uid "farmer".
  - destruct (get job_id (jobs d)) as [j|] eqn:Hj.
    + assert (E1 : step d (AssignLabour uid job_id labour_id)
                   = after_assign job_id labour_id d).
      { unfold step. cbn [route].
        rewrite (assign_run d uid u Hu Hrole job_id labour_id j Hj).
        reflexivity. }
      rewrite E1. unfold step. cbn [route].
      assert (Hj1 : get job_id (jobs (after_assign job_id labour_id d))
                    = Some (Job.set_status "assigned" j)).
      { cbn [jobs after_assign].
        rewrite get_update_at, Nat.eqb_refl, Hj by reflexivity.
        reflexivity. }
      rewrite (assign_run (after_assign job_id labour_id d) uid u Hu Hrole
                 job_id labour_id _ Hj1).
      cbn [fst]. apply after_assign_twice.
    + apply fixed_twice. unfold step. cbn [route].
      rewrite (assign_nojob_run d uid u Hu Hrole job_id labour_id Hj).
      reflexivity.
  - apply fixed_twice. unfold step. cbn [route]. unfold assign_labour.
    rewrite (denied_run d uid u Hu) by assumption. reflexivity.
  - apply fixed_twice. unfold step. cbn [route]. unfold assign_labour.
    rewrite serve_gate, Hu. reflexivity.
Qed.

Lemma confirm_twice d uid assign_id :
  step (step d (ConfirmAssignment uid assign_id))
       (ConfirmAssignment uid assign_id)
  = step d (ConfirmAssignment uid assign_id).
Proof.
  by_role d uid "labour".
  - destruct (get assign_id (assignments d)) as [a|] eqn:Ha.
    + assert (Ha1 : get assign_id (assignments (after_confirm a d))
                    = Some (Assignment.set_confirmed_by_labour true a)).
      { exact (get_update_hit (Assignment.set_confirmed_by_labour true)
                 (assignments d) assign_id a (fun _ => eq_refl) Ha). }
      pose proof (confirm_run d uid u Hu Hrole assign_id a Ha) as Hrun.
      pose proof (confirm_run (after_confirm a d) uid u Hu Hrole assign_id
                    _ Ha1) as Hrun1.
      cbn [Assignment.labour_id Assignment.accepted_by_farmer
           Assignment.job_id Assignment.set_confirmed_by_labour] in Hrun1.
      destruct (negb (Assignment.labour_id a =? User.id u)%nat).
      { apply fixed_twice. unfold step. cbn [route]. rewrite Hrun.
        reflexivity. }
      destruct (Assignment.accepted_by_farmer a) eqn:Hacc.
      * destruct (get (Assignment.job_id a) (jobs d)) as [j|] eqn:Hj.
        -- assert (E1 : step d (ConfirmAssignment uid assign_id)
                        = after_confirm a d)
             by (unfold step; cbn [route]; rewrite Hrun; reflexivity).
           rewrite E1. unfold step. cbn [route]. rewrite Hrun1.
           assert (Hj1 : get (Assignment.job_id a) (jobs (after_confirm a d))
                         = Some (Job.set_status "confirmed" j)).
           { cbn [jobs after_confirm]. rewrite Hacc.
             rewrite get_update_at, Nat.eqb_refl, Hj by reflexivity.
             reflexivity. }
           rewrite Hj1. cbn [fst]. apply after_confirm_twice.
        -- apply fixed_twice. unfold step. cbn [route]. rewrite Hrun.
           reflexivity.
      * assert (E1 : step d (ConfirmAssignment uid assign_id)
                     = after_confirm a d)
          by (unfold step; cbn [route]; rewrite Hrun; reflexivity).
        rewrite E1. unfold step. cbn [route]. rewrite Hrun1.
        cbn [fst]. apply after_confirm_twice.
    + apply fixed_twice. unfold step. cbn [route].
      rewrite (confirm_missing_run d uid u Hu Hrole assign_id Ha).
      reflexivity.
  - apply fixed_twice. unfold step. cbn [route]. unfold confirm_assignment.
    rewrite (denied_run d uid u Hu) by assumption. reflexivity.
  - apply fixed_twice. unfold step. cbn [route]. unfold confirm_assignment.
    rewrite serve_gate, Hu. reflexivity.
Qed.

(** X14.  Every request except posting a job and requesting a change can be
    repeated without further effect: sending it a second time leaves the
    database exactly as the first time left it.  This holds in every state,
    for registration (the second attempt finds the phone taken), views,
    decisions on change requests, direct assignments and confirmations. *)
Theorem repeat_is_noop d r :
  appends r = false -> step (step d r) r = step d r.
Proof.
  intros Hr. destruct r; try discriminate.
  - unfold step. cbn [route]. unfold farmer_register. apply register_twice.
  - unfold step. cbn [route]. unfold labour_register. apply register_twice.
  - apply job_view_twice.
  - apply decide_twice.
  - apply assign_twice.
  - apply confirm_twice.
Qed.

Lemma repeat_is_noop_witness :
  step (step posted (AssignLabour (Some 1) 1 2)) (AssignLabour (Some 1) 1 2)
  = step posted (AssignLabour (Some 1) 1 2).
Proof.
  apply (repeat_is_noop posted (AssignLabour (Some 1) 1 2)). reflexivity.
Defined.

(** ** What a request leaves alone *)

Lemma get_update_cases {R} `{Model R} k (f : R -> R) (t : list R) j r :
  (forall x, pk (f x) = pk x) ->
  get j t = Some r ->
  get j (update k f t) = Some r \/ get j (update k f t) = Some (f r).
Proof.
  intros Hpk E. rewrite get_update, E by exact Hpk. cbn [option_map].
  destruct (pk r =? k)%nat; auto.
Qed.

Lemma get_accepted_for j l t k a :
  get k t = Some a ->
  get k (accepted_for j l t) = Some a
  \/ get k (accepted_for j l t)
     = Some (Assignment.set_accepted_by_farmer true a).
Proof.
  intros E. unfold accepted_for. destruct (first_by _ t) as [x|].
  - apply get_update_cases; [reflexivity|exact E].
  - left. apply get_add_Some. exact E.
Qed.

(** X15.  Once a job is posted, no request changes its id, its farmer, its
    title, its work type, its location or its contact, and no request
    removes it: only days, wage, stay and status are ever rewritten. *)
Theorem job_fields_fixed d r job_id j :
  get job_id (jobs d) = Some j ->
  exists j',
    get job_id (jobs (step d r)) = Some j'
    /\ Job.id j' = Job.id j
    /\ Job.farmer_id j' = Job.farmer_id j
    /\ Job.title j' = Job.title j
    /\ Job.work_type j' = Job.work_type j
    /\ Job.location j' = Job.location j
    /\ Job.contact j' = Job.contact j.
Proof.
  intros Hj.
  assert (Hsame : forall d1, jobs d1 = jobs d ->
            exists j', get job_id (jobs d1) = Some j'
              /\ Job.id j' = Job.id j /\ Job.farmer_id j' = Job.farmer_id j
              /\ Job.title j' = Job.title j
              /\ Job.work_type j' = Job.work_type j
              /\ Job.location j' = Job.location j
              /\ Job.contact j' = Job.contact j).
  { intros d1 E. rewrite E. exists j. repeat split. exact Hj. }
  assert (Hupd : forall k f,
            (forall x, Job.id (f x) = Job.id x
                       /\ Job.farmer_id (f x) = Job.farmer_id x
                       /\ Job.title (f x) = Job.title x
                       /\ Job.work_type (f x) = Job.work_type x
                       /\ Job.location (f x) = Job.location x
                       /\ Job.contact (f x) = Job.contact x) ->
            exists j', get job_id (update k f (jobs d)) = Some j'
              /\ Job.id j' = Job.id j /\ Job.farmer_id j' = Job.farmer_id j
              /\ Job.title j' = Job.title j
              /\ Job.work_type j' = Job.work_type j
              /\ Job.location j' = Job.location j
              /\ Job.contact j' = Job.contact j).
  { intros k f Hf.
    assert (Hpk : forall x : Job.t, pk (f x) = pk x)
      by (intros x; apply Hf).
    destruct (get_update_cases k f (jobs d) job_id j Hpk Hj) as [E|E].
    - exists j. repeat split. exact E.
    - exists (f j). split; [exact E|apply Hf]. }
  assert (Hacc : forall cr x,
            Job.id (accepted_job cr x) = Job.id x
            /\ Job.farmer_id (accepted_job cr x) = Job.farmer_id x
            /\ Job.title (accepted_job cr x) = Job.title x
            /\ Job.work_type (accepted_job cr x) = Job.work_type x
            /\ Job.location (accepted_job cr x) = Job.location x
            /\ Job.contact (accepted_job cr x) = Job.contact x).
  { intros cr x.
    unfold accepted_job, override_stay, override_wage, override_days.
    destruct (ChangeRequest.requested_days cr) as [v|];
      [destruct (Py.truthy_int (Some v))|];
    (destruct (ChangeRequest.requested_wage cr) as [w|];
      [destruct (Py.truthy_str (Some w))|]);
    (destruct (ChangeRequest.requested_stay cr) as [y|];
      [destruct (Py.truthy_str (Some y))|]); repeat split. }
  destruct (step_transition d r); try (apply Hsame; reflexivity).
  - exists j. repeat split. cbn [jobs with_jobs].
    apply get_add_Some. exact Hj.
  - apply Hsame. apply after_view_jobs.
  - apply (Hupd (ChangeRequest.job_id cr) (accepted_job cr) (Hacc cr)).
  - apply (Hupd job_id0 (Job.set_status "assigned")).
    intros x. repeat split.
  - cbn [jobs after_confirm].
    destruct (Assignment.accepted_by_farmer a); [|apply (Hsame d); reflexivity].
    apply (Hupd (Assignment.job_id a) (Job.set_status "confirmed")).
    intros x. repeat split.
Qed.

Lemma job_fields_fixed_witness :
  exists j', get 1 (jobs (step requested
                            (DecideChange (Some 1) 1 (Some "accept"))))
             = Some j'
             /\ Job.title j' = "Harvest" /\ Job.farmer_id j' = 1.
Proof.
  destruct (job_fields_fixed requested
              (DecideChange (Some 1) 1 (Some "accept")) 1 job_1 eq_refl)
    as [j' [Hj [_ [Hf [Ht _]]]]].
  exists j'. auto.
Defined.

(** X16.  No request removes an assignment, moves it to another job or
    labourer, or clears a flag: an [accepted_by_farmer] or
    [confirmed_by_labour] that is set stays set. *)
Theorem flags_never_cleared d r assign_id a :
  get assign_id (assignments d) = Some a ->
  exists a',
    get assign_id (assignments (step d r)) = Some a'
    /\ Assignment.id a' = Assignment.id a
    /\ Assignment.job_id a' = Assignment.job_id a
    /\ Assignment.labour_id a' = Assignment.labour_id a
    /\ (Assignment.accepted_by_farmer a = true ->
        Assignment.accepted_by_farmer a' = true)
    /\ (Assignment.confirmed_by_labour a = true ->
        Assignment.confirmed_by_labour a' = true).
Proof.
  intros Ha.
  assert (Hsame : forall d1, assignments d1 = assignments d ->
            exists a', get assign_id (assignments d1) = Some a'
              /\ Assignment.id a' = Assignment.id a
              /\ Assignment.job_id a' = Assignment.job_id a
              /\ Assignment.labour_id a' = Assignment.labour_id a
              /\ (Assignment.accepted_by_farmer a = true ->
                  Assignment.accepted_by_farmer a' = true)
              /\ (Assignment.confirmed_by_labour a = true ->
                  Assignment.confirmed_by_labour a' = true)).
  { intros d1 E. rewrite E. exists a. repeat split; auto. }
  assert (Hacc : forall d1 j l,
            assignments d1 = accepted_for j l (assignments d) ->
            exists a', get assign_id (assignments d1) = Some a'
              /\ Assignment.id a' = Assignment.id a
              /\ Assignment.job_id a' = Assignment.job_id a
              /\ Assignment.labour_id a' = Assignment.labour_id a
              /\ (Assignment.accepted_by_farmer a = true ->
                  Assignment.accepted_by_farmer a' = true)
              /\ (Assignment.confirmed_by_labour a = true ->
                  Assignment.confirmed_by_labour a' = true)).
  { intros d1 j l E. rewrite E.
    destruct (get_accepted_for j l (assignments d) assign_id a Ha) as [E1|E1];
      rewrite E1; eexists; repeat split; auto. }
  destruct (step_transition d r); try (apply Hsame; reflexivity).
  - apply Hsame. apply after_view_assignments.
  - apply (Hacc _ (ChangeRequest.job_id cr) (ChangeRequest.labour_id cr)).
    reflexivity.
  - apply (Hacc _ job_id labour_id). reflexivity.
  - cbn [assignments after_confirm].
    assert (Hpk : forall x : Assignment.t,
              pk (Assignment.set_confirmed_by_labour true x) = pk x)
      by reflexivity.
    destruct (get_update_cases (Assignment.id a0)
                (Assignment.set_confirmed_by_labour true) (assignments d)
                assign_id a Hpk Ha) as [E1|E1];
      rewrite E1; eexists; repeat split; auto.
Qed.

Lemma flags_never_cleared_witness :
  exists a', get 1 (assignments (step confirmed (AssignLabour (Some 1) 1 3)))
             = Some a'
             /\ Assignment.confirmed_by_labour a' = true.
Proof.
  destruct (flags_never_cleared confirmed (AssignLabour (Some 1) 1 3) 1
              (assignment_1 true) eq_refl) as [a' [Ha [_ [_ [_ [_ Hc]]]]]].
  exists a'. split; [exact Ha|apply Hc; reflexivity].
Defined.

(** X17.  A change request is stored once and for all: no request removes
    it or rewrites its job, its labourer, its requested days, wage or stay,
    or its message; only its status is ever rewritten. *)
Theorem change_request_content_fixed d r change_id cr :
  get change_id (changes d) = Some cr ->
  exists status,
    get change_id (changes (step d r))
    = Some (ChangeRequest.set_status status cr).
Proof.
  intros Hcr.
  assert (Heta : ChangeRequest.set_status (ChangeRequest.status cr) cr = cr)
    by (destruct cr; reflexivity).
  assert (Hsame : forall d1, changes d1 = changes d ->
            exists status, get change_id (changes d1)
                           = Some (ChangeRequest.set_status status cr)).
  { intros d1 E. exists (ChangeRequest.status cr). rewrite E, Heta.
    exact Hcr. }
  assert (Hupd : forall k v,
            exists status,
              get change_id (update k (ChangeRequest.set_status v) (changes d))
              = Some (ChangeRequest.set_status status cr)).
  { intros k v.
    assert (Hpk : forall x : ChangeRequest.t,
              pk (ChangeRequest.set_status v x) = pk x) by reflexivity.
    destruct (get_update_cases k (ChangeRequest.set_status v) (changes d)
                change_id cr Hpk Hcr) as [E|E].
    - exists (ChangeRequest.status cr). rewrite Heta. exact E.
    - exists v. exact E. }
  destruct (step_transition d r); try (apply Hsame; reflexivity).
  - apply Hsame. unfold after_view. destruct (first_by _ (views d));
      reflexivity.
  - exists (ChangeRequest.status cr). rewrite Heta.
    cbn [changes with_changes]. apply get_add_Some. exact Hcr.
  - apply Hupd.
  - apply Hupd.
Qed.

Lemma change_request_content_fixed_witness :
  exists status,
    get 1 (changes (step requested (DecideChange (Some 1) 1 (Some "no"))))
    = Some (ChangeRequest.set_status status (change_1 "pending")).
Proof.
  apply (change_request_content_fixed requested
           (DecideChange (Some 1) 1 (Some "no")) 1 (change_1 "pending")).
  reflexivity.
Defined.

(** ** Submitting and accepting a change request *)

Lemma str_if_given_truthy v :
  Py.truthy_str (str_if_given v) = Py.truthy_str v
  /\ (Py.truthy_str v = true -> str_if_given v = v)
  /\ str_if_given v <> Some "".
Proof.
  unfold str_if_given. destruct v as [s|]; cbn; [|repeat split; discriminate].
  destruct (String.eqb_spec s "") as [->|Hne]; cbn.
  - repeat split; discriminate.
  - destruct (String.eqb_spec s ""); [contradiction|].
    repeat split. congruence.
Qed.

Lemma reachable_overrides_nonempty d :
  reachable d ->
  forall cr, In cr (changes d) ->
    ChangeRequest.requested_wage cr <> Some ""
    /\ ChangeRequest.requested_stay cr <> Some "".
Proof.
  revert d.
  apply (reachable_ind_transition
           (fun d => forall cr, In cr (changes d) ->
              ChangeRequest.requested_wage cr <> Some ""
              /\ ChangeRequest.requested_stay cr <> Some "")).
  - intros cr [].
  - intros d r d' _ IH Ht.
    assert (Hupd : forall k v cr,
              In cr (update k (ChangeRequest.set_status v) (changes d)) ->
              ChangeRequest.requested_wage cr <> Some ""
              /\ ChangeRequest.requested_stay cr <> Some "").
    { intros k v cr HIn. apply In_update in HIn as [c0 [HIn ->]].
      destruct (pk c0 =? k)%nat; apply (IH c0 HIn). }
    destruct Ht; intros c HIn; try (apply IH; exact HIn).
    + apply IH. unfold after_view in HIn.
      destruct (first_by _ (views d)); exact HIn.
    + cbn [changes with_changes] in HIn. apply In_add in HIn as [HIn| ->];
        [apply IH; exact HIn|].
      cbn. split; apply str_if_given_truthy.
    + exact (Hupd _ _ c HIn).
    + exact (Hupd _ _ c HIn).
Qed.

(** X18.  An empty wage or stay typed into the change form is stored as no
    override at all: no change request of a reachable state holds an empty
    string as requested wage or stay, so when a farmer accepts a request
    the job's wage and stay become the requested ones exactly when the
    request has them, and stay as they were otherwise. *)
Theorem overrides_never_empty d :
  reachable d ->
  (forall cr, In cr (changes d) ->
     ChangeRequest.requested_wage cr <> Some ""
     /\ ChangeRequest.requested_stay cr <> Some "")
  /\ (forall uid u change_id cr j,
        acting d uid = Some u -> User.role u = "farmer" ->
        get change_id (changes d) = Some cr ->
        get (ChangeRequest.job_id cr) (jobs d) = Some j ->
        exists j',
          get (ChangeRequest.job_id cr)
              (jobs (step d (DecideChange uid change_id (Some "accept"))))
          = Some j'
          /\ Job.wage j'
             = match ChangeRequest.requested_wage cr with
               | Some w => Some w
               | None => Job.wage j
               end
          /\ Job.stay_info j'
             = match ChangeRequest.requested_stay cr with
               | Some x => Some x
               | None => Job.stay_info j
               end).
Proof.
  intros Hd. split; [exact (reachable_overrides_nonempty d Hd)|].
  intros uid u change_id cr j Hu Hrole Hcr Hj.
  pose proof (get_In _ _ _ Hcr) as [HcrIn _].
  destruct (reachable_overrides_nonempty d Hd cr HcrIn) as [Hw Hs].
  exists (accepted_job cr j). split.
  - unfold step. cbn [route].
    rewrite (decide_accept_run d uid u Hu Hrole change_id (Some "accept")
               cr j Hcr eq_refl Hj).
    cbn [fst jobs after_accept].
    rewrite get_update_at, Nat.eqb_refl, Hj by apply accepted_job_id.
    reflexivity.
  - unfold accepted_job, override_stay, override_wage, override_days.
    assert (Ht : forall s, Some s <> Some "" -> Py.truthy_str (Some s) = true).
    { intros s Hne. cbn. destruct (String.eqb_spec s ""); [congruence|].
      reflexivity. }
    destruct (ChangeRequest.requested_days cr) as [v|];
      [destruct (Py.truthy_int (Some v))|];
    (destruct (ChangeRequest.requested_wage cr) as [w|];
      [rewrite (Ht w Hw)|]);
    (destruct (ChangeRequest.requested_stay cr) as [x|];
      [rewrite (Ht x Hs)|]); split; reflexivity.
Qed.

Lemma overrides_never_empty_witness :
  exists j',
    get 1 (jobs (run viewed
                   [RequestChange (Some 2) 1
                      (mkChangeForm None (Some "600/day") (Some "") None);
                    DecideChange (Some 1) 1 (Some "accept")]))
    = Some j'
    /\ Job.wage j' = Some "600/day"
    /\ Job.stay_info j' = None.
Proof.
  assert (Hd : reachable
                 (step viewed
                    (RequestChange (Some 2) 1
                       (mkChangeForm None (Some "600/day") (Some "") None))))
    by (apply reachable_step; apply scenario_reachable).
  exact (proj2 (overrides_never_empty _ Hd) (Some 1) user_F 1
           (ChangeRequest.mk 1 1 2 None (Some "600/day") None "" "pending")
           job_1 eq_refl eq_refl eq_refl eq_refl).
Defined.

Lemma next_pk_add {R} `{Model R} (row : nat -> R) (t : list R) :
  (forall k, pk (row k) = k) -> next_pk (add row t) = S (next_pk t).
Proof.
  intros Hrow. unfold next_pk, add.
  rewrite map_app, list_max_app. simpl. rewrite Hrow.
  unfold next_pk. lia.
Qed.

(** X19.  Neither posting a job nor requesting a change looks for an equal
    row: sending the same request twice, its days fitting SQLite's 64 bits,
    stores two rows that agree in every column that comes from the form or
    the session; their ids are consecutive (and their timestamps, which are
    not represented, are those of the two requests). *)
Theorem submissions_accumulate d fid f lid l :
  acting d fid = Some f -> User.role f = "farmer" ->
  acting d lid = Some l -> User.role l = "labour" ->
  (forall form title n,
     form_title form = Some title ->
     days_input (form_days form) = Some n ->
     sqlite_integer n = true ->
     jobs (run d [PostJob fid POST form; PostJob fid POST form])
     = jobs d ++ [posted_job f title n form (next_pk (jobs d));
                  posted_job f title n form (S (next_pk (jobs d)))])
  /\ (forall job_id form days,
        requested_days_input (form_requested_days form) = Some days ->
        storable days = true ->
        changes (run d [RequestChange lid job_id form;
                        RequestChange lid job_id form])
        = changes d
          ++ [submitted_change l job_id days form (next_pk (changes d));
              submitted_change l job_id days form (S (next_pk (changes d)))]).
Proof.
  intros Hf Hfr Hl Hlr. split.
  - intros form title n Ht Hn Hfit. unfold run. cbn [fold_left].
    assert (E1 : step d (PostJob fid POST form)
                 = with_jobs (add (posted_job f title n form)) d).
    { unfold step. cbn [route].
      rewrite (post_job_run d fid f Hf Hfr form), Ht, Hn, Hfit.
      reflexivity. }
    rewrite E1. unfold step. cbn [route].
    rewrite (post_job_run (with_jobs (add (posted_job f title n form)) d)
               fid f Hf Hfr form), Ht, Hn, Hfit.
    cbn [fst jobs with_jobs]. unfold add at 1.
    rewrite (next_pk_add (posted_job f title n form)) by reflexivity.
    unfold add. rewrite <- app_assoc. reflexivity.
  - intros job_id form days Hdays Hfit. unfold run. cbn [fold_left].
    assert (E1 : step d (RequestChange lid job_id form)
                 = with_changes (add (submitted_change l job_id days form)) d).
    { unfold step. cbn [route].
      rewrite (request_change_run d lid l Hl Hlr job_id form), Hdays, Hfit.
      reflexivity. }
    rewrite E1. unfold step. cbn [route].
    rewrite (request_change_run
               (with_changes (add (submitted_change l job_id days form)) d)
               lid l Hl Hlr job_id form), Hdays, Hfit.
    cbn [fst changes with_changes]. unfold add at 1.
    rewrite (next_pk_add (submitted_change l job_id days form))
      by reflexivity.
    unfold add. rewrite <- app_assoc. reflexivity.
Qed.

Lemma submissions_accumulate_witness :
  List.length
    (changes (run posted [RequestChange (Some 2) 1 five_days;
                          RequestChange (Some 2) 1 five_days]))
  = 2.
Proof.
  rewrite (proj2 (submissions_accumulate posted (Some 1) user_F (Some 2) user_L
                    eq_refl eq_refl eq_refl eq_refl)
             1 five_days (Some 5%Z) eq_refl eq_refl).
  reflexivity.
Defined.

Lemma accepted_job_fields cr j :
  Job.status (accepted_job cr j) = "assigned"
  /\ Job.days (accepted_job cr j)
     = match ChangeRequest.requested_days cr with
       | Some v => if Z.eqb v 0 then Job.days j else v
       | None => Job.days j
       end
  /\ Job.wage (accepted_job cr j)
     = (if Py.truthy_str (ChangeRequest.requested_wage cr)
        then ChangeRequest.requested_wage cr else Job.wage j)
  /\ Job.stay_info (accepted_job cr j)
     = (if Py.truthy_str (ChangeRequest.requested_stay cr)
        then ChangeRequest.requested_stay cr else Job.stay_info j).
Proof.
  unfold accepted_job, override_stay, override_wage, override_days.
  destruct (ChangeRequest.requested_days cr) as [v|];
    [cbn [Py.truthy_int]; destruct (Z.eqb v 0)|];
  (destruct (ChangeRequest.requested_wage cr) as [w|];
    [destruct (Py.truthy_str (Some w))|]);
  (destruct (ChangeRequest.requested_stay cr) as [x|];
    [destruct (Py.truthy_str (Some x))|]);
  cbn; repeat split; reflexivity.
Qed.

Lemma str_if_given_override v (old : option string) :
  (if Py.truthy_str (str_if_given v) then str_if_given v else old)
  = (if Py.truthy_str v then v else old).
Proof.
  destruct (str_if_given_truthy v) as [E [Hv _]]. rewrite E.
  destruct (Py.truthy_str v); [rewrite Hv; reflexivity|reflexivity].
Qed.

Lemma get_added {R} `{Model R} (row : nat -> R) (t : list R) :
  (forall k, pk (row k) = k) ->
  get (next_pk t) (add row t) = Some (row (next_pk t)).
Proof.
  intros Hrow. rewrite get_add, get_None_fresh, Hrow, Nat.eqb_refl.
  reflexivity.
Qed.

(** X20.  A labourer's change request for an existing job, stored (its days
    fitting SQLite's 64 bits) and accepted by a farmer right after,
    rewrites the job as the form was typed: the days when the field is read
    as a nonzero integer (zero and an empty field leave them as they were, a
    negative number is applied), the wage and the
    stay when they are not empty; the job becomes assigned, the request
    accepted, and the labourer has an assignment with the farmer's flag. *)
Theorem request_then_accept d fid f lid l job_id j form days :
  acting d fid = Some f -> User.role f = "farmer" ->
  acting d lid = Some l -> User.role l = "labour" ->
  get job_id (jobs d) = Some j ->
  requested_days_input (form_requested_days form) = Some days ->
  storable days = true ->
  let k := next_pk (changes d) in
  let d2 := run d [RequestChange lid job_id form;
                   DecideChange fid k (Some "accept")] in
  change_status d2 k = Some "accepted"
  /\ (exists a rest,
        assignments_for d2 job_id (User.id l) = a :: rest
        /\ Assignment.accepted_by_farmer a = true)
  /\ exists j',
       get job_id (jobs d2) = Some j'
       /\ Job.status j' = "assigned"
       /\ Job.days j'
          = match days with
            | Some v => if Z.eqb v 0 then Job.days j else v
            | None => Job.days j
            end
       /\ Job.wage j'
          = (if Py.truthy_str (form_requested_wage form)
             then form_requested_wage form else Job.wage j)
       /\ Job.stay_info j'
          = (if Py.truthy_str (form_requested_stay form)
             then form_requested_stay form else Job.stay_info j).
Proof.
  intros Hf Hfr Hl Hlr Hj Hdays Hfit k d2. subst k d2.
  unfold run. cbn [fold_left].
  pose (row := submitted_change l job_id days form).
  pose (d1 := with_changes (add row) d).
  pose (cr := row (next_pk (changes d))).
  assert (E1 : step d (RequestChange lid job_id form) = d1).
  { unfold step. cbn [route].
    rewrite (request_change_run d lid l Hl Hlr job_id form), Hdays, Hfit.
    reflexivity. }
  assert (Hcr : get (next_pk (changes d)) (changes d1) = Some cr).
  { exact (get_added row (changes d) (fun _ => eq_refl)). }
  assert (E2 : step d1 (DecideChange fid (next_pk (changes d)) (Some "accept"))
               = after_accept cr d1).
  { unfold step. cbn [route].
    rewrite (decide_accept_run d1 fid f Hf Hfr (next_pk (changes d))
               (Some "accept") cr j Hcr eq_refl Hj).
    reflexivity. }
  rewrite E1, E2.
  split; [|split].
  - unfold change_status. cbn [changes after_accept].
    apply change_status_decided. exact Hcr.
  - unfold assignments_for. cbn [assignments after_accept].
    apply (accepted_for_head job_id (User.id l)).
  - exists (accepted_job cr j). split.
    + cbn [jobs after_accept].
      change (ChangeRequest.job_id cr) with job_id.
      change (jobs d1) with (jobs d).
      rewrite get_update_at, Nat.eqb_refl, Hj by apply accepted_job_id.
      reflexivity.
    + destruct (accepted_job_fields cr j) as [Hst [Hd [Hw Hs]]].
      split; [exact Hst|]. split; [exact Hd|]. split.
      * rewrite Hw. apply str_if_given_override.
      * rewrite Hs. apply str_if_given_override.
Qed.

Lemma request_then_accept_witness :
  exists j',
    get 1 (jobs (run viewed [RequestChange (Some 2) 1 five_days;
                            DecideChange (Some 1) 1 (Some "accept")]))
    = Some j'
    /\ Job.status j' = "assigned" /\ Job.days j' = 5%Z.
Proof.
  destruct (request_then_accept viewed (Some 1) user_F (Some 2) user_L 1 job_1
              five_days (Some 5%Z) eq_refl eq_refl eq_refl eq_refl eq_refl
              eq_refl eq_refl) as [_ [_ [j' [Hj [Hst [Hd _]]]]]].
  exists j'. auto.
Defined.

(** ** Post, request, accept, confirm *)

(** In a reachable state no assignment names the job that will be posted
    next. *)
Lemma reachable_fresh_job_unassigned d l :
  reachable d ->
  first_by (assignment_of (next_pk (jobs d)) l) (assignments d) = None.
Proof.
  intros Hd.
  destruct (first_by _ (assignments d)) as [a|] eqn:E; [|reflexivity].
  exfalso. apply first_by_In in E as [Ha Hp].
  apply assignment_of_eq in Hp as [Ej _].
  destruct (reachable_assignment_sound d Hd a Ha) as [_ [j Hj]].
  rewrite Ej, get_None_fresh in Hj. discriminate.
Qed.

(** X21.  From any reachable state, a farmer who posts a job, a labourer
    who asks for a change of it (the days of both forms fitting SQLite's 64
    bits), the farmer who accepts and the labourer who confirms leave the
    new job confirmed, with the days asked for when they
    are a nonzero integer and the posted days otherwise; the request is
    accepted and the one new assignment carries both flags. *)
Theorem full_handshake d fid f lid l jform title n cform days :
  reachable d ->
  acting d fid = Some f -> User.role f = "farmer" ->
  acting d lid = Some l -> User.role l = "labour" ->
  form_title jform = Some title ->
  days_input (form_days jform) = Some n -> sqlite_integer n = true ->
  requested_days_input (form_requested_days cform) = Some days ->
  storable days = true ->
  let kj := next_pk (jobs d) in
  let kc := next_pk (changes d) in
  let ka := next_pk (assignments d) in
  let d4 := run d [PostJob fid POST jform;
                   RequestChange lid kj cform;
                   DecideChange fid kc (Some "accept");
                   ConfirmAssignment lid ka] in
  job_status d4 kj = Some "confirmed"
  /\ option_map Job.days (get kj (jobs d4))
     = Some (match days with
             | Some v => if Z.eqb v 0 then n else v
             | None => n
             end)
  /\ change_status d4 kc = Some "accepted"
  /\ assignments d4
     = assignments d ++ [Assignment.mk ka kj (User.id l) true true].
Proof.
  intros Hd Hf Hfr Hl Hlr Ht Hn Hnfit Hdays Hfit kj kc ka d4. subst d4.
  unfold run. cbn [fold_left].
  pose (jrow := posted_job f title n jform).
  pose (d1 := with_jobs (add jrow) d).
  pose (crow := submitted_change l kj days cform).
  pose (d2 := with_changes (add crow) d1).
  pose (cr := crow kc).
  pose (a0 := Assignment.mk ka kj (User.id l) true false).
  assert (E1 : step d (PostJob fid POST jform) = d1).
  { unfold step. cbn [route].
    rewrite (post_job_run d fid f Hf Hfr jform), Ht, Hn, Hnfit.
    reflexivity. }
  assert (Hj1 : get kj (jobs d1) = Some (jrow kj)).
  { exact (get_added jrow (jobs d) (fun _ => eq_refl)). }
  assert (E2 : step d1 (RequestChange lid kj cform) = d2).
  { unfold step. cbn [route].
    rewrite (request_change_run d1 lid l Hl Hlr kj cform), Hdays, Hfit.
    reflexivity. }
  assert (Hcr : get kc (changes d2) = Some cr).
  { exact (get_added crow (changes d) (fun _ => eq_refl)). }
  assert (E3 : step d2 (DecideChange fid kc (Some "accept"))
               = after_accept cr d2).
  { unfold step. cbn [route].
    rewrite (decide_accept_run d2 fid f Hf Hfr kc (Some "accept") cr (jrow kj)
               Hcr eq_refl Hj1).
    reflexivity. }
  assert (Hasg : assignments (after_accept cr d2) = assignments d ++ [a0]).
  { cbn [assignments after_accept]. unfold accepted_for.
    change (ChangeRequest.job_id cr) with kj.
    change (ChangeRequest.labour_id cr) with (User.id l).
    change (assignments d2) with (assignments d).
    unfold kj. rewrite (reachable_fresh_job_unassigned d (User.id l) Hd).
    reflexivity. }
  assert (Ha : get ka (assignments (after_accept cr d2)) = Some a0).
  { rewrite Hasg.
    exact (get_added (fun k => Assignment.mk k kj (User.id l) true false)
             (assignments d) (fun _ => eq_refl)). }
  assert (Hj3 : get kj (jobs (after_accept cr d2))
                = Some (accepted_job cr (jrow kj))).
  { cbn [jobs after_accept]. change (ChangeRequest.job_id cr) with kj.
    change (jobs d2) with (jobs d1).
    rewrite get_update_at, Nat.eqb_refl, Hj1 by apply accepted_job_id.
    reflexivity. }
  assert (E4 : step (after_accept cr d2) (ConfirmAssignment lid ka)
               = after_confirm a0 (after_accept cr d2)).
  { unfold step. cbn [route].
    rewrite (confirm_run (after_accept cr d2) lid l Hl Hlr ka a0 Ha).
    cbn [Assignment.labour_id Assignment.accepted_by_farmer
         Assignment.job_id a0].
    rewrite Nat.eqb_refl, Hj3. reflexivity. }
  rewrite E1, E2, E3, E4.
  assert (Hj4 : get kj (jobs (after_confirm a0 (after_accept cr d2)))
                = Some (Job.set_status "confirmed"
                          (accepted_job cr (jrow kj)))).
  { cbn [jobs after_confirm Assignment.accepted_by_farmer Assignment.job_id
         a0].
    rewrite get_update_at, Nat.eqb_refl, Hj3 by reflexivity. reflexivity. }
  split; [|split; [|split]].
  - unfold job_status. rewrite Hj4. reflexivity.
  - rewrite Hj4. cbn [option_map Job.days Job.set_status].
    destruct (accepted_job_fields cr (jrow kj)) as [_ [Hdy _]].
    rewrite Hdy. reflexivity.
  - unfold change_status. cbn [changes after_confirm after_accept].
    apply change_status_decided. exact Hcr.
  - cbn [assignments after_confirm]. rewrite Hasg.
    unfold update. rewrite map_app. cbn [map Assignment.id a0].
    cbn [pk Assignment_Model Assignment.id]. rewrite Nat.eqb_refl.
    f_equal. rewrite <- (map_id (assignments d)) at 2.
    apply map_ext_in. intros a Hain.
    apply next_pk_fresh in Hain. cbn [pk Assignment_Model] in Hain.
    destruct (Nat.eqb_spec (Assignment.id a) ka); [unfold ka in *; lia|].
    reflexivity.
Qed.

Lemma full_handshake_witness :
  job_status
    (run registered [PostJob (Some 1) POST (harvest (Some "3"));
                     RequestChange (Some 2) 1 five_days;
                     DecideChange (Some 1) 1 (Some "accept");
                     ConfirmAssignment (Some 2) 1]) 1
  = Some "confirmed".
Proof.
  exact (proj1 (full_handshake registered (Some 1) user_F (Some 2) user_L
                  (harvest (Some "3")) "Harvest" 3%Z five_days (Some 5%Z)
                  (proj1 scenario_reachable)
                  eq_refl eq_refl eq_refl eq_refl eq_refl eq_refl eq_refl
                  eq_refl eq_refl)).
Defined.

(** ** What the assigning routes do not check *)

(** X22.  Neither deciding a change request nor assigning a labourer looks
    at who owns the job: for a farmer who does not own it, each of the two
    routes gives the very response and the very database that it gives for
    the owner, and the request succeeds: the labourer is assigned, the
    change request accepted with all its effects or rejected. *)
Theorem ownership_not_checked d uid u oid o job_id j :
  acting d uid = Some u -> User.role u = "farmer" ->
  acting d oid = Some o -> User.role o = "farmer" ->
  get job_id (jobs d) = Some j ->
  Job.farmer_id j = User.id o -> User.id u <> User.id o ->
  (forall labour_id,
     serve (assign_labour uid job_id labour_id) d
     = serve (assign_labour oid job_id labour_id) d
     /\ serve (assign_labour uid job_id labour_id) d
        = (after_assign job_id labour_id d,
           Redirect "farmer_dashboard"
             (Some "Labour accepted for job. Waiting for labour confirmation.")))
  /\ (forall change_id cr decision,
        get change_id (changes d) = Some cr ->
        ChangeRequest.job_id cr = job_id ->
        serve (decide_change uid change_id decision) d
        = serve (decide_change oid change_id decision) d
        /\ serve (decide_change uid change_id decision) d
           = if is_accept decision
             then (after_accept cr d,
                   Redirect "farmer_dashboard"
                     (Some "Change accepted and labour assigned (awaiting labour confirmation)."))
             else (after_reject cr d,
                   Redirect "farmer_dashboard"
                     (Some "Change request rejected."))).
Proof.
  intros Hu Hrole Ho Horole Hj _ _. split.
  - intros labour_id.
    rewrite (assign_run d uid u Hu Hrole job_id labour_id j Hj).
    rewrite (assign_run d oid o Ho Horole job_id labour_id j Hj).
    split; reflexivity.
  - intros change_id cr decision Hcr Ej. subst job_id.
    destruct (is_accept decision) eqn:Hdec.
    + rewrite (decide_accept_run d uid u Hu Hrole change_id decision
                 cr j Hcr Hdec Hj).
      rewrite (decide_accept_run d oid o Ho Horole change_id decision
                 cr j Hcr Hdec Hj).
      split; reflexivity.
    + rewrite (decide_reject_run d uid u Hu Hrole change_id decision
                 cr Hcr Hdec).
      rewrite (decide_reject_run d oid o Ho Horole change_id decision
                 cr Hcr Hdec).
      split; reflexivity.
Qed.

Lemma ownership_not_checked_witness :
  serve (assign_labour (Some 3) 1 2)
        (step requested
           (FarmerRegister POST
              (mkRegisterForm (Some "G") (Some "333") (Some "x"))))
  = serve (assign_labour (Some 1) 1 2)
          (step requested
             (FarmerRegister POST
                (mkRegisterForm (Some "G") (Some "333") (Some "x"))))
  /\ serve (decide_change (Some 3) 1 (Some "accept"))
           (step requested
              (FarmerRegister POST
                 (mkRegisterForm (Some "G") (Some "333") (Some "x"))))
     = serve (decide_change (Some 1) 1 (Some "accept"))
             (step requested
                (FarmerRegister POST
                   (mkRegisterForm (Some "G") (Some "333") (Some "x")))).
Proof.
  assert (Hne : User.id (User.mk 3 "G" "333" "farmer") <> User.id user_F)
    by discriminate.
  pose proof (ownership_not_checked
                (step requested
                   (FarmerRegister POST
                      (mkRegisterForm (Some "G") (Some "333") (Some "x"))))
                (Some 3) (User.mk 3 "G" "333" "farmer") (Some 1) user_F
                1 job_1 eq_refl eq_refl eq_refl eq_refl eq_refl eq_refl Hne)
    as [Hassign Hdecide].
  split.
  - exact (proj1 (Hassign 2)).
  - exact (proj1 (Hdecide 1 (change_1 "pending") (Some "accept")
                    eq_refl eq_refl)).
Defined.

(** X23.  [assign_labour] does not look the labourer up: for an id that no
    labourer has (no user at all, or a farmer) the assignment is still
    created with the farmer's flag and the job becomes assigned; and in the
    resulting state no session can confirm that assignment. *)
Theorem labourer_not_checked d uid u job_id j labour_id :
  acting d uid = Some u -> User.role u = "farmer" ->
  get job_id (jobs d) = Some j ->
  (forall w, get labour_id (users d) = Some w -> User.role w <> "labour") ->
  let d' := step d (AssignLabour uid job_id labour_id) in
  (exists a rest,
     assignments_for d' job_id labour_id = a :: rest
     /\ Assignment.accepted_by_farmer a = true)
  /\ job_status d' job_id = Some "assigned"
  /\ (forall uid' assign_id a,
        get assign_id (assignments d') = Some a ->
        Assignment.labour_id a = labour_id ->
        step d' (ConfirmAssignment uid' assign_id) = d').
Proof.
  intros Hu Hrole Hj Hnone d'.
  assert (E : d' = after_assign job_id labour_id d).
  { subst d'. unfold step. cbn [route].
    rewrite (assign_run d uid u Hu Hrole job_id labour_id j Hj).
    reflexivity. }
  rewrite E. clear E d'. split; [|split].
  - unfold assignments_for. cbn [assignments after_assign].
    apply accepted_for_head.
  - rewrite (job_status_update d _ job_id (Job.set_status "assigned"))
      by reflexivity.
    rewrite Nat.eqb_refl, Hj. reflexivity.
  - intros uid' assign_id a Ha El.
    set (d1 := after_assign job_id labour_id d) in *.
    by_role d1 uid' "labour".
    + unfold step. cbn [route].
      rewrite (confirm_run d1 uid' u0 Hu0 Hrole0 assign_id a Ha).
      destruct (Nat.eqb_spec (Assignment.labour_id a) (User.id u0)) as [Eq|Ne];
        [|reflexivity].
      exfalso. apply (Hnone u0); [|exact Hrole0].
      rewrite <- El, Eq. exact (acting_get d1 uid' u0 Hu0).
    + unfold step. cbn [route]. unfold confirm_assignment.
      rewrite (denied_run d1 uid' u0 Hu0) by assumption. reflexivity.
    + unfold step. cbn [route]. unfold confirm_assignment.
      rewrite serve_gate, Hu0. reflexivity.
Qed.

Lemma labourer_not_checked_witness :
  job_status (step posted (AssignLabour (Some 1) 1 9)) 1 = Some "assigned"
  /\ step (step posted (AssignLabour (Some 1) 1 9))
          (ConfirmAssignment (Some 2) 1)
     = step posted (AssignLabour (Some 1) 1 9).
Proof.
  destruct (labourer_not_checked posted (Some 1) user_F 1 job_1 9
              eq_refl eq_refl eq_refl)
    as [_ [Hst Hconf]].
  - intros w Hw. discriminate Hw.
  - split; [exact Hst|].
    apply (Hconf (Some 2) 1 (Assignment.mk 1 1 9 true false));
      reflexivity.
Defined.

(** ** The farmer's dashboard *)

Lemma transition_job_owned d r d' :
  transition d r d' ->
  (forall j, In j (jobs d) -> job_owned d j) ->
  forall j, In j (jobs d') -> job_owned d' j.
Proof.
  intros Ht IH.
  assert (Hkeep : forall j, job_owned d j -> job_owned d' j).
  { intros j [f [Hf Hrole]]. exists f.
    split; [exact (transition_get_user d r d' _ f Ht Hf)|exact Hrole]. }
  assert (Hupd : forall k g,
            (forall x, Job.farmer_id (g x) = Job.farmer_id x) ->
            forall j, In j (update k g (jobs d)) -> job_owned d j).
  { intros k g Hg j HIn. apply In_update in HIn as [j0 [HIn ->]].
    destruct (IH j0 HIn) as [f [Hf Hrole]]. exists f.
    destruct (pk j0 =? k)%nat; [rewrite Hg|]; auto. }
  assert (Hacc : forall cr x,
            Job.farmer_id (accepted_job cr x) = Job.farmer_id x).
  { intros cr x.
    unfold accepted_job, override_stay, override_wage, override_days.
    destruct (ChangeRequest.requested_days cr) as [v|];
      [destruct (Py.truthy_int (Some v))|];
    (destruct (ChangeRequest.requested_wage cr) as [w|];
      [destruct (Py.truthy_str (Some w))|]);
    (destruct (ChangeRequest.requested_stay cr) as [y|];
      [destruct (Py.truthy_str (Some y))|]); reflexivity. }
  destruct Ht; intros j0 HIn; try (apply Hkeep; apply IH; exact HIn).
  - cbn [jobs with_jobs] in HIn. apply In_add in HIn as [HIn| ->].
    + apply IH. exact HIn.
    + exists u. split; [apply (acting_get d uid); assumption|assumption].
  - apply Hkeep. apply IH. rewrite after_view_jobs in HIn. exact HIn.
  - exact (Hupd _ _ (Hacc cr) j0 HIn).
  - apply (Hupd job_id (Job.set_status "assigned")); [reflexivity|exact HIn].
  - cbn [jobs after_confirm] in HIn.
    destruct (Assignment.accepted_by_farmer a); [|apply IH; exact HIn].
    apply (Hupd (Assignment.job_id a) (Job.set_status "confirmed"));
      [reflexivity|exact HIn].
Qed.

Lemma reachable_job_owned d :
  reachable d -> forall j, In j (jobs d) -> job_owned d j.
Proof.
  revert d.
  apply (reachable_ind_transition
           (fun d => forall j, In j (jobs d) -> job_owned d j)).
  - intros j [].
  - intros d r d' _ IH Ht. exact (transition_job_owned d r d' Ht IH).
Qed.

(** A loop whose body computes [g] from its element returns [map g]. *)
Lemma for_each_map {A B} (f : A -> M B) (g : A -> B) (l : list A)
  (s : Session) :
  (forall x, f x s = (inr (g x), s)) ->
  for_each f l s = (inr (map g l), s).
Proof.
  intros Hf. induction l as [|x l IH]; simpl; [reflexivity|].
  rewrite bind_run, Hf, bind_run, IH. reflexivity.
Qed.

Lemma farmer_dashboard_context_run u d :
  serve_with (farmer_dashboard_context u) d
  = (d, inr
       (filter (fun j => (Job.farmer_id j =? User.id u)%nat) (jobs d),
        map (fun v => (v, get (ViewNotification.labour_id v) (users d)))
            (filter (fun v => owns (User.id u) (ViewNotification.job_id v) d)
                    (views d)),
        filter (fun cr => owns (User.id u) (ChangeRequest.job_id cr) d)
               (changes d),
        filter (fun a => owns (User.id u) (Assignment.job_id a) d)
               (assignments d))).
Proof.
  unfold serve_with, farmer_dashboard_context.
  rewrite bind_run, query_run. cbn [pending].
  rewrite bind_run, query_run. cbn [pending].
  rewrite bind_run.
  rewrite (for_each_map _
             (fun v => (v, get (ViewNotification.labour_id v) (users d))))
    by reflexivity.
  rewrite bind_run, query_run. cbn [pending].
  rewrite bind_run, query_run. cbn [pending].
  reflexivity.
Qed.

(** X24.  In a reachable state the farmer's dashboard finds the labourer of
    every view it lists, and every assignment is listed on the dashboard of
    the user who posted its job, who exists and is a farmer. *)
Theorem dashboard_complete d :
  reachable d ->
  (forall u js vs cs asg,
     serve_with (farmer_dashboard_context u) d = (d, inr (js, vs, cs, asg)) ->
     forall v labour, In (v, labour) vs ->
       exists w, labour = Some w /\ User.role w = "labour")
  /\ (forall a, In a (assignments d) ->
        exists j f,
          get (Assignment.job_id a) (jobs d) = Some j
          /\ get (Job.farmer_id j) (users d) = Some f
          /\ User.role f = "farmer"
          /\ forall js vs cs asg,
               serve_with (farmer_dashboard_context f) d
               = (d, inr (js, vs, cs, asg)) ->
               In a asg).
Proof.
  intros Hd. split.
  - intros u js vs cs asg Hrun v labour HIn.
    rewrite farmer_dashboard_context_run in Hrun.
    injection Hrun as _ <- _ _.
    apply in_map_iff in HIn as [v0 [[= <- <-] Hv0]].
    apply filter_In in Hv0 as [Hv0 _].
    destruct (reachable_view_sound d Hd v0 Hv0) as [_ [_ [w [Hw Hrole]]]].
    exists w. auto.
  - intros a Ha.
    destruct (reachable_assignment_sound d Hd a Ha) as [_ [j Hj]].
    pose proof (get_In _ _ _ Hj) as [HjIn Hjpk].
    cbn [pk Job_Model] in Hjpk.
    destruct (reachable_job_owned d Hd j HjIn) as [f [Hf Hrole]].
    pose proof (get_In _ _ _ Hf) as [_ Hfpk]. cbn [pk User_Model] in Hfpk.
    exists j, f. repeat split; auto.
    intros js vs cs asg Hrun.
    rewrite farmer_dashboard_context_run in Hrun.
    injection Hrun as _ _ _ <-.
    apply filter_In. split; [exact Ha|].
    unfold owns. apply existsb_exists. exists j. split; [exact HjIn|].
    rewrite Hjpk, Hfpk, !Nat.eqb_refl. reflexivity.
Qed.

Lemma dashboard_complete_witness :
  exists w, Some user_L = Some w /\ User.role w = "labour".
Proof.
  apply (proj1 (dashboard_complete confirmed
                  (proj2 (proj2 (proj2 (proj2 (proj2 scenario_reachable))))))
               user_F (jobs confirmed)
               [(ViewNotification.mk 1 1 2 false, Some user_L)]
               (changes confirmed) (assignments confirmed) eq_refl
               (ViewNotification.mk 1 1 2 false) (Some user_L)).
  left. reflexivity.
Defined.

(** ** Forms that cannot be read *)

(** X25.  A job form without a title is answered with a 400 before the days
    are looked at.  A days field, in the job form or in the change form,
    that is not empty and that [int()] refuses ends the request in a
    [ValueError]; one that [int()] reads as an integer outside SQLite's 64
    bits ends it in an [OverflowError].  In all these cases nothing is
    written. *)
Theorem unreadable_forms d fid f lid l :
  acting d fid = Some f -> User.role f = "farmer" ->
  acting d lid = Some l -> User.role l = "labour" ->
  (forall form,
     form_title form = None ->
     serve (post_job fid POST form) d = (d, Abort 400))
  /\ (forall form title s,
        form_title form = Some title ->
        form_days form = Some s -> s <> "" ->
        serve (post_job fid POST form) d
        = match Py.int s with
          | None => (d, Uncaught "ValueError")
          | Some n =>
              if sqlite_integer n
              then (with_jobs (add (posted_job f title n form)) d,
                    Redirect "farmer_dashboard" (Some "Job posted"))
              else (d, Uncaught "OverflowError")
          end)
  /\ (forall job_id form s,
        form_requested_days form = Some s -> s <> "" ->
        serve (request_change lid job_id form) d
        = match Py.int s with
          | None => (d, Uncaught "ValueError")
          | Some n =>
              if sqlite_integer n
              then (with_changes
                      (add (submitted_change l job_id (Some n) form)) d,
                    Redirect "job_view" (Some "Change request sent to farmer"))
              else (d, Uncaught "OverflowError")
          end).
Proof.
  intros Hf Hfr Hl Hlr.
  assert (Hne : forall s, s <> "" -> Py.truthy_str (Some s) = true).
  { intros s Hs. unfold Py.truthy_str.
    destruct (String.eqb_spec s ""); [contradiction|reflexivity]. }
  split; [|split].
  - intros form Ht. rewrite (post_job_run d fid f Hf Hfr form), Ht.
    reflexivity.
  - intros form title s Ht Hs Hns.
    rewrite (post_job_run d fid f Hf Hfr form), Ht, Hs.
    unfold days_input. rewrite (Hne s Hns). reflexivity.
  - intros job_id form s Hs Hns.
    rewrite (request_change_run d lid l Hl Hlr job_id form), Hs.
    unfold requested_days_input. rewrite (Hne s Hns).
    destruct (Py.int s); reflexivity.
Qed.

Lemma unreadable_forms_witness :
  serve (request_change (Some 2) 1
           (mkChangeForm (Some (String (ascii_of_nat 28) "5")) None None None))
        posted
  = (posted, Uncaught "ValueError")
  /\ serve (post_job (Some 1) POST (harvest (Some "9223372036854775808")))
           posted
     = (posted, Uncaught "OverflowError").
Proof.
  destruct (unreadable_forms posted (Some 1) user_F (Some 2) user_L
              eq_refl eq_refl eq_refl eq_refl) as [_ [Hpost Hreq]].
  split.
  - apply (Hreq 1
             (mkChangeForm (Some (String (ascii_of_nat 28) "5")) None None None)
             (String (ascii_of_nat 28) "5"));
      [reflexivity|discriminate].
  - apply (Hpost (harvest (Some "9223372036854775808")) "Harvest"
             "9223372036854775808"); [reflexivity|reflexivity|discriminate].
Defined.
